(** * AdmitGuard pipeline (src/Script.py): a shallow embedding and its properties

    The script reads applicant rows from a "raw" worksheet, validates every
    row that carries no Pipeline Status yet, routes it to Clean_Data,
    Rejected_Records or Exception, moves reviewer-approved exceptions to
    Clean_Data, merges test scores, builds the interview shortlist and
    appends one line to the Run Log.

    Modelling conventions
    - Text is ASCII: a Python [str] is a [string]; [\w] and [\d] are their
      ASCII classes.
    - A worksheet is the grid of its cell texts (first row: the header).
      [get_all_values] and [row_values] return the texts; [get_all_records]
      returns every cell as gspread's [numericise] reads it: an int, a
      float, or the text itself.
    - A Python float is an IEEE 754 binary64 number ([SpecFloat], precision
      53): [float(s)] is the float nearest to the decimal it reads, and
      subtraction rounds to nearest, ties to even.
    - A data frame keeps, with every value, whether its column has a numeric
      dtype (int64, float64) or holds Python objects; pandas chooses the
      dtype of a column when a frame is built, joined or concatenated.
    - An A1 cell address is modelled by its (row, column) pair.
    - The wall clock ([ts()]) and the text Python prints for a float are
      parameters of the development; the samples print floats as [repr]
      does. *)

From Stdlib Require Import Ascii QArith Qabs DecimalString Floats.SpecFloat.
From stdpp Require Import gmap strings list fin_maps sorting.

Open Scope Z_scope.

(** * Python text primitives *)

Module Str.

Definition code (a : ascii) : N := N_of_ascii a.

(** [str.isspace] on ASCII: TAB..CR, FS..US and the blank. *)
Definition is_space (a : ascii) : bool :=
  ((9 <=? code a) && (code a <=? 13) || (28 <=? code a) && (code a <=? 32))%N.

Definition is_digit (a : ascii) : bool := ((48 <=? code a) && (code a <=? 57))%N.
Definition is_upper (a : ascii) : bool := ((65 <=? code a) && (code a <=? 90))%N.
Definition is_lower (a : ascii) : bool := ((97 <=? code a) && (code a <=? 122))%N.
Definition is_alpha (a : ascii) : bool := is_upper a || is_lower a.

(** [\w] *)
Definition is_word (a : ascii) : bool :=
  is_alpha a || is_digit a || (code a =? 95)%N.

Definition lower_char (a : ascii) : ascii :=
  if is_upper a then ascii_of_N (code a + 32) else a.
Definition upper_char (a : ascii) : ascii :=
  if is_lower a then ascii_of_N (code a - 32) else a.

Fixpoint lstrip (s : string) : string :=
  match s with
  | String a s' => if is_space a then lstrip s' else s
  | EmptyString => EmptyString
  end.
Fixpoint rstrip (s : string) : string :=
  match s with
  | String a s' =>
      match rstrip s' with
      | EmptyString => if is_space a then EmptyString else String a EmptyString
      | r => String a r
      end
  | EmptyString => EmptyString
  end.

(** [s.strip()] *)
Definition strip (s : string) : string := rstrip (lstrip s).

(** [s.lower()] *)
Fixpoint lower (s : string) : string :=
  match s with
  | String a s' => String (lower_char a) (lower s')
  | EmptyString => EmptyString
  end.

(** [s.title()]: a letter that follows a letter is lower-cased, any other
    letter is upper-cased. *)
Fixpoint title_go (after_letter : bool) (s : string) : string :=
  match s with
  | String a s' =>
      if is_alpha a
      then String (if after_letter then lower_char a else upper_char a)
                  (title_go true s')
      else String a (title_go false s')
  | EmptyString => EmptyString
  end.
Definition title (s : string) : string := title_go false s.

(** [re.sub(r"[^0-9]", "", s)] *)
Fixpoint digits_only (s : string) : string :=
  match s with
  | String a s' => if is_digit a then String a (digits_only s') else digits_only s'
  | EmptyString => EmptyString
  end.

(** [s.startswith(p)] *)
Fixpoint startswith (p s : string) : bool :=
  match p, s with
  | EmptyString, _ => true
  | String a p', String b s' => bool_decide (a = b) && startswith p' s'
  | String _ _, EmptyString => false
  end.

(** [s[n:]] *)
Fixpoint drop (n : nat) (s : string) : string :=
  match n, s with
  | O, _ => s
  | S n', String _ s' => drop n' s'
  | S _, EmptyString => EmptyString
  end.

(** [sep.join(l)] *)
Fixpoint join (sep : string) (l : list string) : string :=
  match l with
  | [] => ""
  | [x] => x
  | x :: l' => x +:+ sep +:+ join sep l'
  end.

(** [c in s] for one character *)
Fixpoint has_char (c : ascii) (s : string) : bool :=
  match s with
  | String a s' => bool_decide (a = c) || has_char c s'
  | EmptyString => false
  end.

(** [not s] *)
Definition is_empty (s : string) : bool :=
  match s with EmptyString => true | _ => false end.

Definition eqb (s t : string) : bool := bool_decide (s = t).

(** [s in l] for a list of texts *)
Definition mem (s : string) (l : list string) : bool := bool_decide (s ∈ l).

End Str.

(** * Regular expressions ([re.match] with anchored patterns) *)

Module Re.

Inductive re : Type :=
| Never
| Eps
| Cls (p : ascii → bool)
| Cat (r1 r2 : re)
| Alt (r1 r2 : re)
| Star (r : re).

Fixpoint nullable (r : re) : bool :=
  match r with
  | Never => false
  | Eps => true
  | Cls _ => false
  | Cat r1 r2 => nullable r1 && nullable r2
  | Alt r1 r2 => nullable r1 || nullable r2
  | Star _ => true
  end.

(** Brzozowski derivative. *)
Fixpoint deriv (a : ascii) (r : re) : re :=
  match r with
  | Never => Never
  | Eps => Never
  | Cls p => if p a then Eps else Never
  | Cat r1 r2 =>
      if nullable r1
      then Alt (Cat (deriv a r1) r2) (deriv a r2)
      else Cat (deriv a r1) r2
  | Alt r1 r2 => Alt (deriv a r1) (deriv a r2)
  | Star r1 => Cat (deriv a r1) (Star r1)
  end.

Fixpoint fullmatch (r : re) (s : string) : bool :=
  match s with
  | EmptyString => nullable r
  | String a s' => fullmatch (deriv a r) s'
  end.

(** [r+] and [r{n}] *)
Definition Plus (r : re) : re := Cat r (Star r).
Fixpoint Rep (n : nat) (r : re) : re :=
  match n with
  | O => Eps
  | S n' => Cat r (Rep n' r)
  end.

(** [r{n,}] *)
Definition AtLeast (n : nat) (r : re) : re := Cat (Rep n r) (Star r).

Definition chr (c : ascii) : re := Cls (λ a, bool_decide (a = c)).

(** The text without its final newline, when it ends in one. *)
Definition before_final_newline (s : string) : option string :=
  match String.rev s with
  | String "010"%char t => Some (String.rev t)
  | _ => None
  end.

(** [re.match("^" r "$", s)]: [$] matches at the end of the text and just
    before a newline that ends it. *)
Definition match_anchored (r : re) (s : string) : bool :=
  fullmatch r s ||
  match before_final_newline s with
  | Some s' => fullmatch r s'
  | None => false
  end.

End Re.

(** [^[\w\.-]+@[\w\.-]+\.\w{2,}$] *)
Definition email_class (a : ascii) : bool :=
  Str.is_word a || bool_decide (a = "."%char) || bool_decide (a = "-"%char).
Definition EMAIL_RE : Re.re :=
  Re.Cat (Re.Plus (Re.Cls email_class))
    (Re.Cat (Re.chr "@")
       (Re.Cat (Re.Plus (Re.Cls email_class))
          (Re.Cat (Re.chr ".") (Re.AtLeast 2 (Re.Cls Str.is_word))))).

(** [^[6-9]\d{9}$] *)
Definition PHONE_RE : Re.re :=
  Re.Cat (Re.Cls (λ a, (54 <=? Str.code a) && (Str.code a <=? 57))%N)
         (Re.Rep 9 (Re.Cls Str.is_digit)).

(** [^\d{12}$] *)
Definition AADHAAR_RE : Re.re := Re.Rep 12 (Re.Cls Str.is_digit).

(** * Python numbers *)

(** A Python float: sign, mantissa and exponent of a binary64 number, a
    signed zero, a signed infinity or nan. *)
Definition pyfloat : Type := spec_float.

Module Float.

Definition prec : Z := 53.
Definition emax : Z := 1024.

Definition nan : pyfloat := S754_nan.
Definition inf : pyfloat := S754_infinity false.
Definition neg_inf : pyfloat := S754_infinity true.

(** The float nearest to [n / d], ties to the even mantissa. *)
Definition of_ratio (negative : bool) (n d : positive) : pyfloat :=
  let '(m, e, l) := SFdiv_core_binary prec emax (Zpos n) 0 (Zpos d) 0 in
  binary_round_aux prec emax negative m e l.

(** The float nearest to a rational; [negative] is the sign of a zero. *)
Definition of_Q (negative : bool) (q : Q) : pyfloat :=
  match Qnum q with
  | Z0 => S754_zero negative
  | Zpos n => of_ratio false n (Qden q)
  | Zneg n => of_ratio true n (Qden q)
  end.

(** [float(z)] for an integer *)
Definition of_Z (z : Z) : pyfloat := binary_normalize prec emax z 0 false.

(** [a < b], [a <= b], [a > b], [a >= b], [a == b]: all false on nan *)
Definition lt (a b : pyfloat) : bool := SFltb a b.
Definition le (a b : pyfloat) : bool := SFleb a b.
Definition gt (a b : pyfloat) : bool := lt b a.
Definition ge (a b : pyfloat) : bool := le b a.
Definition eqb (a b : pyfloat) : bool := SFeqb a b.

(** [a - b] *)
Definition sub (a b : pyfloat) : pyfloat := SFsub prec emax a b.

(** [pd.isna] on a number *)
Definition is_nan (a : pyfloat) : bool :=
  match a with S754_nan => true | _ => false end.

(** [Series.between(lo, hi)], both ends included *)
Definition between (lo hi : Z) (a : pyfloat) : bool :=
  le (of_Z lo) a && le a (of_Z hi).

(** The rational a finite float stands for. *)
Definition to_Q (a : pyfloat) : Q :=
  match a with
  | S754_finite s m e =>
      let v := if 0 <=? e then inject_Z (Zpos m * 2 ^ e)
               else Qmake (Zpos m) (Z.to_pos (2 ^ (- e))) in
      if s then (- v)%Q else v
  | _ => 0%Q
  end.

End Float.

(** ** Reading numbers from text: [float(s)] and [int(s)] *)

Module Parse.

Definition digit (a : ascii) : option Z :=
  if Str.is_digit a then Some (Z.of_N (Str.code a) - 48) else None.

(** The rest of a digit part, after its first digit: digits, each
    optionally preceded by one underscore. *)
Fixpoint digits_rest (s : string) : list Z * string :=
  match s with
  | String a s' =>
      match digit a with
      | Some d => let '(ds, r) := digits_rest s' in (d :: ds, r)
      | None =>
          if bool_decide (a = "_"%char)
          then match s' with
               | String b s'' =>
                   match digit b with
                   | Some d => let '(ds, r) := digits_rest s'' in (d :: ds, r)
                   | None => ([], s)
                   end
               | EmptyString => ([], s)
               end
          else ([], s)
      end
  | EmptyString => ([], EmptyString)
  end.

(** [digitpart ::= digit (["_"] digit)*]; no digit read when the text
    does not start with one. *)
Definition digitpart (s : string) : list Z * string :=
  match s with
  | String a s' =>
      match digit a with
      | Some d => let '(ds, r) := digits_rest s' in (d :: ds, r)
      | None => ([], s)
      end
  | EmptyString => ([], EmptyString)
  end.

Definition value (ds : list Z) : Z := foldl (λ acc d, 10 * acc + d) 0 ds.

(** An optional sign: [true] for "-". *)
Definition sign (s : string) : bool * string :=
  match s with
  | String "-"%char s' => (true, s')
  | String "+"%char s' => (false, s')
  | _ => (false, s)
  end.

(** [m * 10^e] *)
Definition scale10 (m e : Z) : Q :=
  if 0 <=? e then inject_Z (m * 10 ^ e)
  else Qmake m (Z.to_pos (10 ^ (- e))).

(** An optional exponent; [None] for an "e" that no digit follows. *)
Definition exponent (s : string) : option (Z * string) :=
  match s with
  | String a s' =>
      if bool_decide (a = "e"%char) || bool_decide (a = "E"%char)
      then let '(neg, s1) := sign s' in
           match digitpart s1 with
           | ([], _) => None
           | (ds, r) => Some (if neg then - value ds else value ds, r)
           end
      else Some (0, s)
  | EmptyString => Some (0, EmptyString)
  end.

(** An unsigned decimal literal: [digitpart ["." [digitpart]]] or
    ["." digitpart], then an optional exponent, then the end of the text. *)
Definition unsigned_float (s : string) : option Q :=
  let '(ip, r1) := digitpart s in
  let '(fp, r2) :=
    match r1 with
    | String "."%char r => digitpart r
    | _ => ([], r1)
    end in
  match ip, fp with
  | [], [] => None
  | _, _ =>
      match exponent r2 with
      | Some (e, EmptyString) =>
          Some (scale10 (value (ip ++ fp)) (e - Z.of_nat (length fp)))
      | _ => None
      end
  end.

(** [float(s)]: the float nearest to the decimal; [None] stands for
    [ValueError]. *)
Definition float (s : string) : option pyfloat :=
  let '(neg, body) := sign (Str.strip s) in
  let name := Str.lower body in
  if Str.mem name ["inf"; "infinity"]
  then Some (if neg then Float.neg_inf else Float.inf)
  else if Str.eqb name "nan" then Some Float.nan
  else match unsigned_float body with
       | Some q => Some (Float.of_Q neg (if neg then - q else q)%Q)
       | None => None
       end.

(** [int(s)]; [None] stands for [ValueError]. *)
Definition int (s : string) : option Z :=
  let '(neg, body) := sign (Str.strip s) in
  match digitpart body with
  | ([], _) => None
  | (ds, EmptyString) => Some (if neg then - value ds else value ds)
  | (_, String _ _) => None
  end.

(** A text read as a number: an [int] literal, else a [float] literal. A
    text that holds an underscore is not read as a number. *)
Definition number (s : string) : option (Z + pyfloat) :=
  if Str.has_char "_" s then None
  else match int s with
       | Some z => Some (inl z)
       | None => inr <$> float s
       end.

(** [str(z)] for an integer *)
Definition str_of_int (z : Z) : string := NilZero.string_of_int (Z.to_int z).

End Parse.


(** * Constants of the script *)

Definition RAW_SHEET_ID : string := "1z5yjAEWEry2K3k8YsFB5Q5aIZyCgjjpMnUl6XusEjo4".
Definition OUTPUT_SHEET_ID : string := "1JVP-zjlpwIt11jNm9zAbcX_UqtJxsa0MNBW9G0Qs2fk".
Definition TEST_SCORE_SHEET_ID : string := "1o-ZM4XZb2qdvKNCCgl-fs-xKUW4Op6rjxahAfXk25is".
Definition INTERVIEW_SHEET_ID : string := "10AQXOdSMwnY-pbbIBVxyL8zQWCHcnuwvapLrDBzKN10".

Definition EXCEPTION_TAB : string := "Exception".
Definition TEST_TAB : string := "Sheet1".
Definition INTERVIEW_TAB : string := "Sheet1".
Definition RAW_TAB : string := "Sheet1".
Definition CLEAN_TAB : string := "Clean_Data".
Definition REJECTED_TAB : string := "Rejected_Records".
Definition CONFIG_TAB : string := "Config".
Definition RUN_LOG_TAB : string := "Run Log".

Definition MANDATORY_FIELDS : list string :=
  [ "First Name"; "Last Name"; "Phone Number"; "Email Address";
    "Adhar Number"; "Gender"; "Date of Birth"; "State"; "City";
    "Highest Qualification"; "Graduation Year"; "CGPA"; "Total Percentage" ].

(** * Cells, rows and data frames *)

(** A value of a record or of a data frame. [Text], [Int] and [Number] are
    the Python objects [str], [int] and [float], as a dict or a column of
    dtype object holds them; [Int64] and [Float64] are the entries of a
    column of a numeric dtype. A key that a row does not bind is a missing
    value, and so is a float that is nan. *)
Inductive cell : Type :=
| Text (s : string)
| Int (z : Z)
| Number (x : pyfloat)
| Int64 (z : Z)
| Float64 (x : pyfloat).

Abbreviation Row := (gmap string cell).

Record DataFrame : Type := mkDF {
  columns : list string;
  records : list Row
}.

(** [pd.DataFrame()] *)
Definition empty_df : DataFrame := mkDF [] [].

(** [df.empty] *)
Definition df_empty (df : DataFrame) : bool :=
  match columns df, records df with
  | _ :: _, _ :: _ => false
  | _, _ => true
  end.

(** [col in df.columns] *)
Definition has_column (col : string) (df : DataFrame) : bool :=
  bool_decide (col ∈ columns df).

(** [l.index(x)] *)
Definition index (x : string) (l : list string) : option nat :=
  fst <$> list_find (λ y, y = x) l.

(** [row.get(field, default)] *)
Definition get (row : Row) (field : string) (default : cell) : cell :=
  from_option id default (row !! field).

(** ** The dtype of a column *)

(** The Python object of an entry, as [to_dict], [tolist] and [iterrows]
    hand it out. *)
Definition unbox (c : cell) : cell :=
  match c with
  | Int64 z => Int z
  | Float64 x => Number x
  | _ => c
  end.

Inductive dtype : Type := Object | Integer | Floating.

Definition INT64_MIN : Z := - 2 ^ 63.
Definition INT64_MAX : Z := 2 ^ 63 - 1.
Definition UINT64_MAX : Z := 2 ^ 64 - 1.

(** Integers that one of int64 and uint64 holds. *)
Definition fits_64 (zs : list Z) : bool :=
  forallb (λ z, (INT64_MIN <=? z) && (z <=? UINT64_MAX)) zs
  && negb (existsb (λ z, z <? 0) zs && existsb (λ z, INT64_MAX <? z) zs).

Definition is_text (v : option cell) : bool :=
  match v with Some (Text _) => true | _ => false end.
Definition int_of (v : option cell) : option Z :=
  match v with Some (Int z | Int64 z) => Some z | _ => None end.

(** The dtype pandas infers for a column of Python objects
    ([pd.DataFrame(records)]): object when a text is among them or an
    integer does not fit 64 bits, an integer dtype when all are integers,
    float64 otherwise. *)
Definition infer_dtype (vs : list (option cell)) : dtype :=
  if existsb is_text vs then Object
  else if negb (fits_64 (omap int_of vs)) then Object
  else if forallb (λ v, bool_decide (is_Some (int_of v))) vs then Integer
  else Floating.

(** An entry in a column of dtype [d]. *)
Definition as_dtype (d : dtype) (c : cell) : cell :=
  match d, c with
  | Object, _ => unbox c
  | Integer, (Int z | Int64 z) => Int64 z
  | Floating, (Int z | Int64 z) => Float64 (Float.of_Z z)
  | Floating, (Number x | Float64 x) => Float64 x
  | _, _ => c
  end.

(** The column [c] of some rows. *)
Definition column (c : string) (rows : list Row) : list (option cell) :=
  (λ r : Row, r !! c) <$> rows.

(** Every column of the rows in the dtype inferred for it. *)
Definition infer_objects (rows : list Row) : list Row :=
  (λ r : Row, map_imap (λ c v, Some (as_dtype (infer_dtype (column c rows)) v)) r)
    <$> rows.

(** The dtype of a column put together from columns that have dtypes
    ([pd.concat]): object when one of them holds Python objects, an integer
    dtype when all entries are integers and none is missing, float64
    otherwise. *)
Definition is_object (v : option cell) : bool :=
  match v with Some (Text _ | Int _ | Number _) => true | _ => false end.
Definition common_dtype (vs : list (option cell)) : dtype :=
  if existsb is_object vs then Object
  else if forallb (λ v, bool_decide (is_Some (int_of v))) vs then Integer
  else Floating.

Definition unify_dtypes (rows : list Row) : list Row :=
  (λ r : Row, map_imap (λ c v, Some (as_dtype (common_dtype (column c rows)) v)) r)
    <$> rows.

(** An integer column that takes a missing value becomes float64. *)
Definition promote (c : cell) : cell :=
  match c with
  | Int64 z => Float64 (Float.of_Z z)
  | _ => c
  end.

(** The thresholds of STEP 1. *)
Record Thresholds : Type := mkThresholds {
  EXCEPTION_BUFFER_PCT : pyfloat;
  EXCEPTION_BUFFER_CGPA : pyfloat;
  MIN_PCT : pyfloat;
  MIN_CGPA : pyfloat;
  GRAD_YR_MIN : Z;
  GRAD_YR_MAX : Z;
  MAX_EXP : pyfloat;
  MIN_TEST_SCORE : pyfloat
}.

(** ** Config Resolver (lines 210-220) *)

(** [float(config.get(key, default))] with a float default *)
Definition config_float (config : gmap string string) (key : string)
    (default : pyfloat) : option pyfloat :=
  match config !! key with
  | Some s => Parse.float s
  | None => Some default
  end.

(** [int(config.get(key, default))] with an int default *)
Definition config_int (config : gmap string string) (key : string)
    (default : Z) : option Z :=
  match config !! key with
  | Some s => Parse.int s
  | None => Some default
  end.

Definition DEFAULT_THRESHOLDS : Thresholds :=
  mkThresholds (Float.of_Z 1) (Float.of_Q false (1 # 10)) (Float.of_Z 60)
               (Float.of_Z 6) 2010 2025 (Float.of_Z 40) (Float.of_Z 40).

(** The eight conversions, in the order of the script; [None] is the
    [ValueError] of the first one that fails. *)
Definition resolve_thresholds (config : gmap string string) : option Thresholds :=
  buf_pct ← config_float config "Exception Buffer PCT" (Float.of_Z 1);
  buf_cgpa ← config_float config "Exception Buffer CGPA" (Float.of_Q false (1 # 10));
  min_pct ← config_float config "Min Percentage" (Float.of_Z 60);
  min_cgpa ← config_float config "Min CGPA" (Float.of_Z 6);
  yr_min ← config_int config "Graduation Year Min" 2010;
  yr_max ← config_int config "Graduation Year Max" 2025;
  max_exp ← config_float config "Max Experience" (Float.of_Z 40);
  min_score ← config_float config "Min Test Score" (Float.of_Z 40);
  Some (mkThresholds buf_pct buf_cgpa min_pct min_cgpa yr_min yr_max max_exp min_score).

(** ** Field Normalizer (lines 222-245) *)

(** Strip non-digits, then remove a leading country code or trunk zero. *)
Definition normalise_phone (raw : string) : string :=
  let p := Str.strip raw in
  let p := Str.digits_only p in
  if (String.length p =? 13)%nat && Str.startswith "091" p then Str.drop 3 p
  else if (String.length p =? 12)%nat && Str.startswith "91" p then Str.drop 2 p
  else if (String.length p =? 11)%nat && Str.startswith "0" p then Str.drop 1 p
  else p.

(** [.astype(str).str.replace(r"[^0-9]", "", regex=True).str.strip()] *)
Definition normalise_adhar (raw : string) : string :=
  Str.strip (Str.digits_only raw).

(** * The reasons a row fails for, and their texts *)

Inductive Reason : Type :=
| Missing (field : string)
| InvalidEmail (row_email : string)
| DuplicateEmail (row_email : string)
| InvalidPhone (phone : string)
| InvalidAadhaar (adhar : string)
| DuplicateAadhaar (adhar : string)
| PctOutOfRange (pct : pyfloat)
| PctBelowMin (pct min_pct : pyfloat)
| PctSlightlyBelow (pct min_pct buffer : pyfloat)
| InvalidPct (pct_raw : string)
| CgpaOutOfRange (cgpa : pyfloat)
| CgpaBelowMin (cgpa min_cgpa : pyfloat)
| CgpaSlightlyBelow (cgpa min_cgpa buffer : pyfloat)
| InvalidCgpa (cgpa_raw : string)
| GradYearOutOfRange (grad_year yr_min yr_max : Z)
| InvalidGradYear
| ExpOutOfRange (exp max_exp : pyfloat)
| InvalidExp (exp_raw : string).

Definition is_cgpa_reason (r : Reason) : bool :=
  match r with
  | CgpaOutOfRange _ | CgpaBelowMin _ _ | CgpaSlightlyBelow _ _ _ | InvalidCgpa _ => true
  | _ => false
  end.

(** * The store, the run tracker and the effects of the script *)

(** The exceptions the model raises. [SystemExit] is what [exit()] raises:
    [except Exception] does not catch it. *)
Inductive Exn : Type :=
| KeyError (key : string)
| ValueError (msg : string)
| WorksheetNotFound (tab : string)
| GSpreadException (msg : string)
| SystemExit.

(** [except Exception] *)
Definition is_Exception (e : Exn) : bool :=
  match e with SystemExit => false | _ => true end.

(** [except gspread.exceptions.WorksheetNotFound] *)
Definition is_WorksheetNotFound (e : Exn) : bool :=
  match e with WorksheetNotFound _ => true | _ => false end.

(** [str(e)] *)
Definition exn_text (e : Exn) : string :=
  match e with
  | KeyError key => "'" +:+ key +:+ "'"
  | ValueError msg => msg
  | WorksheetNotFound tab => tab
  | GSpreadException msg => msg
  | SystemExit => ""
  end.

(** The dict [run] (lines 59-74); [errors] is its "errors" list. *)
Record RunTracker : Type := mkRun {
  run_id : string;
  start_time : string;
  end_time : string;
  raw_rows_read : nat;
  new_rows_found : nat;
  clean_written : nat;
  rejected_written : nat;
  exception_written : nat;
  exceptions_approved : nat;
  interview_added : nat;
  interview_total : nat;
  interview_not_selected : nat;
  errors : list string;
  status : string
}.

Definition fresh_run (run_id start_time : string) : RunTracker :=
  mkRun run_id start_time "" 0 0 0 0 0 0 0 0 0 [] "Running".

Definition set_raw_rows_read (n : nat) (r : RunTracker) : RunTracker :=
  mkRun (run_id r) (start_time r) (end_time r) n (new_rows_found r)
        (clean_written r) (rejected_written r) (exception_written r)
        (exceptions_approved r) (interview_added r) (interview_total r)
        (interview_not_selected r) (errors r) (status r).

Definition set_written (clean rejected exception : nat) (r : RunTracker)
    : RunTracker :=
  mkRun (run_id r) (start_time r) (end_time r) (raw_rows_read r)
        (clean + rejected + exception) clean rejected exception
        (exceptions_approved r) (interview_added r) (interview_total r)
        (interview_not_selected r) (errors r) (status r).

Definition set_exceptions_approved (n : nat) (r : RunTracker) : RunTracker :=
  mkRun (run_id r) (start_time r) (end_time r) (raw_rows_read r)
        (new_rows_found r) (clean_written r) (rejected_written r)
        (exception_written r) n (interview_added r) (interview_total r)
        (interview_not_selected r) (errors r) (status r).

Definition set_interview (added total not_selected : nat) (r : RunTracker)
    : RunTracker :=
  mkRun (run_id r) (start_time r) (end_time r) (raw_rows_read r)
        (new_rows_found r) (clean_written r) (rejected_written r)
        (exception_written r) (exceptions_approved r) added total not_selected
        (errors r) (status r).

(** [errors.append(msg)] *)
Definition append_error (msg : string) (r : RunTracker) : RunTracker :=
  mkRun (run_id r) (start_time r) (end_time r) (raw_rows_read r)
        (new_rows_found r) (clean_written r) (rejected_written r)
        (exception_written r) (exceptions_approved r) (interview_added r)
        (interview_total r) (interview_not_selected r) (errors r ++ [msg])
        (status r).

Definition set_end (end_time status : string) (r : RunTracker) : RunTracker :=
  mkRun (run_id r) (start_time r) end_time (raw_rows_read r)
        (new_rows_found r) (clean_written r) (rejected_written r)
        (exception_written r) (exceptions_approved r) (interview_added r)
        (interview_total r) (interview_not_selected r) (errors r) status.

(** A worksheet is named by its spreadsheet and its tab. *)
Abbreviation Ws := (string * string)%type.

(** What a run reads and changes: the worksheets that exist, and [run]. *)
Record World : Type := mkWorld {
  sheets : gmap Ws (list (list string));
  run : RunTracker
}.

Inductive Result (A : Type) : Type :=
| Ok (a : A)
| Raise (e : Exn).
Arguments Ok {A} a.
Arguments Raise {A} e.

(** A computation of the script: it ends with a value or an exception, and
    what it wrote before an exception stays written. *)
Definition M (A : Type) : Type := World → Result A * World.

Definition ret {A} (a : A) : M A := λ w, (Ok a, w).

Definition bind {A B} (m : M A) (k : A → M B) : M B :=
  λ w, match m w with
       | (Ok a, w') => k a w'
       | (Raise e, w') => (Raise e, w')
       end.

Notation "x <- m ;; k" := (bind m (λ x, k))
  (at level 20, m at level 99, k at level 200, right associativity).
Notation "m ;;; k" := (bind m (λ _, k))
  (at level 100, k at level 200, right associativity).

Definition raise {A} (e : Exn) : M A := λ w, (Raise e, w).

(** A lookup or conversion that raises [e] when it has no result. *)
Definition lift {A} (o : option A) (e : Exn) : M A :=
  match o with
  | Some a => ret a
  | None => raise e
  end.

(** [try: body  except ...: handler]; the handler of an exception that no
    clause catches is [None]. *)
Definition try_except {A} (body : M A) (handler : Exn → option (M A)) : M A :=
  λ w, match body w with
       | (Raise e, w') =>
           match handler e with
           | Some h => h w'
           | None => (Raise e, w')
           end
       | r => r
       end.

Definition get_run : M RunTracker := λ w, (Ok (run w), w).
Definition modify_run (f : RunTracker → RunTracker) : M unit :=
  λ w, (Ok tt, mkWorld (sheets w) (f (run w))).

(** [sheet_obj.worksheet(tab_name)] *)
Definition worksheet (sheet_id tab : string) : M Ws :=
  λ w, match sheets w !! (sheet_id, tab) with
       | Some _ => (Ok (sheet_id, tab), w)
       | None => (Raise (WorksheetNotFound tab), w)
       end.

Definition read_grid (ws : Ws) : M (list (list string)) :=
  λ w, (Ok (from_option id [] (sheets w !! ws)), w).
Definition write_grid (ws : Ws) (g : list (list string)) : M unit :=
  λ w, (Ok tt, mkWorld (<[ws := g]> (sheets w)) (run w)).

Section Pipeline.

(** The text Python prints for a float, and the reading of the clock. *)
Variable fmt_float : pyfloat → string.
Variable now : string.

(** [ts()] *)
Definition ts : string := now.

(** [str(v)] for the value of a cell *)
Definition str (c : cell) : string :=
  match c with
  | Text s => s
  | Int z | Int64 z => Parse.str_of_int z
  | Number x | Float64 x => fmt_float x
  end.

(** [Series.astype(str)] on one entry: a missing value reads "nan". *)
Definition astype_str (v : option cell) : string :=
  match v with
  | Some c => str c
  | None => "nan"
  end.

(** The f-strings of STEP 2. *)
Definition render (r : Reason) : string :=
  match r with
  | Missing field => "'" +:+ field +:+ "' is missing"
  | InvalidEmail e => "Invalid email format: '" +:+ e +:+ "'"
  | DuplicateEmail e => "Duplicate email: '" +:+ e +:+ "'"
  | InvalidPhone p =>
      "Invalid phone '" +:+ p +:+ "' (must be 10 digits, start with 6-9)"
  | InvalidAadhaar a => "Invalid Aadhaar '" +:+ a +:+ "' (must be 12 digits)"
  | DuplicateAadhaar a => "Duplicate Aadhaar: '" +:+ a +:+ "'"
  | PctOutOfRange pct =>
      "Percentage " +:+ fmt_float pct +:+ " out of range (0–100)"
  | PctBelowMin pct m =>
      "Percentage " +:+ fmt_float pct +:+ "% is below minimum "
        +:+ fmt_float m +:+ "%"
  | PctSlightlyBelow pct m b =>
      "Percentage " +:+ fmt_float pct +:+ "% is slightly below minimum "
        +:+ fmt_float m +:+ "% (within " +:+ fmt_float b +:+ "% buffer)"
  | InvalidPct raw => "Invalid percentage value: '" +:+ raw +:+ "'"
  | CgpaOutOfRange cgpa => "CGPA " +:+ fmt_float cgpa +:+ " out of range (0–10)"
  | CgpaBelowMin cgpa m =>
      "CGPA " +:+ fmt_float cgpa +:+ " is below minimum " +:+ fmt_float m
  | CgpaSlightlyBelow cgpa m b =>
      "CGPA " +:+ fmt_float cgpa +:+ " is slightly below minimum "
        +:+ fmt_float m +:+ " (within " +:+ fmt_float b +:+ " buffer)"
  | InvalidCgpa raw => "Invalid CGPA value: '" +:+ raw +:+ "'"
  | GradYearOutOfRange y lo hi =>
      "Graduation year " +:+ Parse.str_of_int y +:+ " out of range ("
        +:+ Parse.str_of_int lo +:+ "–" +:+ Parse.str_of_int hi +:+ ")"
  | InvalidGradYear => "Invalid graduation year"
  | ExpOutOfRange e m =>
      "Experience " +:+ fmt_float e +:+ " yrs out of range (0–"
        +:+ fmt_float m +:+ ")"
  | InvalidExp raw => "Invalid experience value: '" +:+ raw +:+ "'"
  end.

(** ["; ".join(failures)] *)
Definition join_reasons (failures : list Reason) : string :=
  Str.join "; " (render <$> failures).

(** * STEP 2: the rules of the classifier (lines 329-422)

    Each rule gives the reasons it appends to [hard_failures] and to
    [soft_failures]. *)

(** [str(row.get(field, "")).strip()] *)
Definition field_text (row : Row) (field : string) : string :=
  Str.strip (str (get row field (Text ""))).

(** [str(row.get("Email Address", "")).strip().lower()] *)
Definition row_email_of (row : Row) : string :=
  Str.lower (field_text row "Email Address").

(** [str(row.get("Adhar Number", "")).strip()] *)
Definition adhar_of (row : Row) : string := field_text row "Adhar Number".

(** A value that is given: not empty and not a null-ish placeholder. *)
Definition is_given (raw : string) : bool :=
  negb (Str.is_empty raw) && negb (Str.mem (Str.lower raw) ["nan"; "none"; ""]).

(** 1. Mandatory fields *)
Definition rule_mandatory (row : Row) : list Reason :=
  omap (λ field,
          let val := field_text row field in
          if Str.is_empty val || Str.mem (Str.lower val) ["nan"; "none"]
          then Some (Missing field) else None)
       MANDATORY_FIELDS.

(** 2. Email format *)
Definition rule_email_format (row_email : string) : list Reason :=
  if negb (Str.is_empty row_email) && negb (Re.match_anchored EMAIL_RE row_email)
  then [InvalidEmail row_email] else [].

(** 3. Duplicate email: the reasons and the new [seen_emails] *)
Definition rule_duplicate_email (seen_emails : gset string) (row_email : string)
    : list Reason * gset string :=
  if bool_decide (row_email ∈ seen_emails)
  then ([DuplicateEmail row_email], seen_emails)
  else ([], seen_emails ∪ {[row_email]}).

(** 4. Phone *)
Definition rule_phone (row : Row) : list Reason :=
  let phone := field_text row "Phone Number" in
  if negb (Str.is_empty phone) && negb (Re.match_anchored PHONE_RE phone)
  then [InvalidPhone phone] else [].

(** 5. Aadhaar: the reasons and the new [seen_adhars] *)
Definition rule_adhar_format (adhar : string) : list Reason :=
  if negb (Str.is_empty adhar) && negb (Re.match_anchored AADHAAR_RE adhar)
  then [InvalidAadhaar adhar] else [].

Definition rule_duplicate_adhar (seen_adhars : gset string) (adhar : string)
    : list Reason * gset string :=
  if bool_decide (adhar ∈ seen_adhars)
  then ([DuplicateAadhaar adhar], seen_adhars)
  else ([], seen_adhars ∪ {[adhar]}).

(** 6. Percentage: hard and soft reasons *)
Definition rule_pct (t : Thresholds) (row : Row) : list Reason * list Reason :=
  let pct_raw := field_text row "Total Percentage" in
  if is_given pct_raw then
    match Parse.float pct_raw with
    | Some pct =>
        if negb (Float.le (Float.of_Z 0) pct && Float.le pct (Float.of_Z 100))
        then ([PctOutOfRange pct], [])
        else if Float.lt pct (Float.sub (MIN_PCT t) (EXCEPTION_BUFFER_PCT t))
        then ([PctBelowMin pct (MIN_PCT t)], [])
        else if Float.lt pct (MIN_PCT t)
        then ([], [PctSlightlyBelow pct (MIN_PCT t) (EXCEPTION_BUFFER_PCT t)])
        else ([], [])
    | None => ([InvalidPct pct_raw], [])
    end
  else ([], []).

(** 7. CGPA: hard and soft reasons *)
Definition rule_cgpa (t : Thresholds) (row : Row) : list Reason * list Reason :=
  let cgpa_raw := field_text row "CGPA" in
  if is_given cgpa_raw then
    match Parse.float cgpa_raw with
    | Some cgpa =>
        if negb (Float.le (Float.of_Z 0) cgpa && Float.le cgpa (Float.of_Z 10))
        then ([CgpaOutOfRange cgpa], [])
        else if Float.lt cgpa (Float.sub (MIN_CGPA t) (EXCEPTION_BUFFER_CGPA t))
        then ([CgpaBelowMin cgpa (MIN_CGPA t)], [])
        else if Float.lt cgpa (MIN_CGPA t)
        then ([], [CgpaSlightlyBelow cgpa (MIN_CGPA t) (EXCEPTION_BUFFER_CGPA t)])
        else ([], [])
    | None => ([InvalidCgpa cgpa_raw], [])
    end
  else ([], []).

(** 8. Graduation year: [int(str(row.get("Graduation Year", 0)).strip() or 0)] *)
Definition rule_grad_year (t : Thresholds) (row : Row) : list Reason :=
  let raw := Str.strip (str (get row "Graduation Year" (Text "0"))) in
  match (if Str.is_empty raw then Some 0 else Parse.int raw) with
  | Some grad_year =>
      if negb ((GRAD_YR_MIN t <=? grad_year) && (grad_year <=? GRAD_YR_MAX t))
      then [GradYearOutOfRange grad_year (GRAD_YR_MIN t) (GRAD_YR_MAX t)]
      else []
  | None => [InvalidGradYear]
  end.

(** 9. Experience *)
Definition rule_experience (t : Thresholds) (row : Row) : list Reason :=
  let exp_raw := field_text row "Total Experience" in
  if is_given exp_raw then
    match Parse.float exp_raw with
    | Some exp =>
        if Float.lt exp (Float.of_Z 0) || Float.gt exp (MAX_EXP t)
        then [ExpOutOfRange exp (MAX_EXP t)] else []
    | None => [InvalidExp exp_raw]
    end
  else [].

(** The outcome of the nine rules on one row. *)
Record Validation : Type := mkValidation {
  hard_failures : list Reason;
  soft_failures : list Reason;
  seen_emails' : gset string;
  seen_adhars' : gset string
}.

Definition validate (t : Thresholds) (seen_emails seen_adhars : gset string)
    (row : Row) : Validation :=
  let row_email := row_email_of row in
  let adhar := adhar_of row in
  let '(dup_email, seen_emails) := rule_duplicate_email seen_emails row_email in
  let '(dup_adhar, seen_adhars) := rule_duplicate_adhar seen_adhars adhar in
  let '(pct_hard, pct_soft) := rule_pct t row in
  let '(cgpa_hard, cgpa_soft) := rule_cgpa t row in
  mkValidation
    (rule_mandatory row ++ rule_email_format row_email ++ dup_email
       ++ rule_phone row ++ rule_adhar_format adhar ++ dup_adhar ++ pct_hard
       ++ cgpa_hard ++ rule_grad_year t row ++ rule_experience t row)
    (pct_soft ++ cgpa_soft)
    seen_emails seen_adhars.

(** * STEP 2: routing (lines 277-459) *)

(** [row.to_dict()] without the columns that belong to the raw sheet. *)
Definition to_row_dict (row : Row) : Row :=
  delete "Submitted at"
    (delete "Respondent ID" (delete "Submission ID" (delete "Pipeline Status" row))).

(** The state of the loop over [df.iterrows()]. *)
Record Loop : Type := mkLoop {
  clean_rows : list Row;
  rejected_rows : list Row;
  exception_rows : list Row;
  seen_emails : gset string;
  seen_adhars : gset string;
  pipeline_status_updates : list (nat * string)
}.

(** [if sheet_row: pipeline_status_updates.append((sheet_row, status))] *)
Definition status_update (sheet_row : option nat) (status : string)
    : list (nat * string) :=
  match sheet_row with
  | Some n => if (n =? 0)%nat then [] else [(n, status)]
  | None => []
  end.

Definition rejected_row (row_dict : Row) (hard : list Reason) : Row :=
  <["Rejected At" := Text ts]>
    (<["Rejection Reasons" := Text (join_reasons hard)]> row_dict).

Definition exception_row (row_dict : Row) (soft : list Reason) : Row :=
  <["Flagged At" := Text ts]>
    (<["Reviewer Remark" := Text ""]>
       (<["Status" := Text "Pending"]>
          (<["Exception Reason" := Text (join_reasons soft)]> row_dict))).

Definition clean_row (row_dict : Row) : Row :=
  <["Processed At" := Text ts]> row_dict.

(** One iteration of the loop of lines 321-459. *)
Definition loop_body (t : Thresholds) (already_processed : gset string)
    (email_to_sheet_row : gmap string nat) (st : Loop) (row : Row) : Loop :=
  let row_email := row_email_of row in
  if bool_decide (row_email ∈ already_processed) then st
  else
    let v := validate t (seen_emails st) (seen_adhars st) row in
    let row_dict := to_row_dict row in
    let sheet_row := email_to_sheet_row !! row_email in
    match hard_failures v, soft_failures v with
    | _ :: _, _ =>
        mkLoop (clean_rows st)
               (rejected_rows st ++ [rejected_row row_dict (hard_failures v)])
               (exception_rows st)
               (seen_emails' v) (seen_adhars' v)
               (pipeline_status_updates st
                  ++ status_update sheet_row "Processed - Rejected")
    | [], _ :: _ =>
        mkLoop (clean_rows st)
               (rejected_rows st)
               (exception_rows st ++ [exception_row row_dict (soft_failures v)])
               (seen_emails' v) (seen_adhars' v)
               (pipeline_status_updates st
                  ++ status_update sheet_row "Processed - Exception")
    | [], [] =>
        mkLoop (clean_rows st ++ [clean_row row_dict])
               (rejected_rows st)
               (exception_rows st)
               (seen_emails' v) (seen_adhars' v)
               (pipeline_status_updates st
                  ++ status_update sheet_row "Processed - Clean")
    end.

(** ** Worksheets as grids *)

Definition pad_to (n : nat) (row : list string) : list string :=
  row ++ replicate (n - length row) "".

Definition width (g : list (list string)) : nat := max_list (length <$> g).

(** [ws.get_all_values()]: every row filled up to the widest one. *)
Definition get_all_values (g : list (list string)) : list (list string) :=
  pad_to (width g) <$> g.

(** Trailing empty cells are not part of what [row_values] returns. *)
Fixpoint trim_blanks (row : list string) : list string :=
  match row with
  | [] => []
  | x :: row' =>
      match trim_blanks row' with
      | [] => if Str.is_empty x then [] else [x]
      | r => x :: r
      end
  end.

(** [ws.row_values(n)], rows counted from 1 *)
Definition row_values (g : list (list string)) (n : nat) : list string :=
  trim_blanks (from_option id [] (g !! (n - 1)%nat)).

(** Writing one cell, rows and columns counted from 1; the grid grows to
    hold the cell. *)
Definition update_cell (g : list (list string)) (r c : nat) (v : string)
    : list (list string) :=
  alter (λ row, <[(c - 1)%nat := v]> (pad_to c row)) (r - 1)%nat
        (g ++ replicate (r - length g) []).

(** [ws.batch_update] of single cells in column [col]. *)
Definition batch_update (g : list (list string)) (col : nat)
    (updates : list (nat * string)) : list (list string) :=
  foldl (λ g u, update_cell g u.1 col u.2) g updates.


(** Lines 277-285. *)
Definition build_already_processed (all_raw_values : list (list string))
    : gset string :=
  let header_row := from_option id [] (head all_raw_values) in
  match index "Pipeline Status" header_row with
  | Some ps_col_idx =>
      match index "Email Address" header_row with
      | Some email_col_idx =>
          foldl (λ (already_processed : gset string) data_row,
                   match data_row !! ps_col_idx with
                   | Some status =>
                       if negb (Str.is_empty (Str.strip status))
                       then match data_row !! email_col_idx with
                            | Some email =>
                                already_processed ∪ {[Str.lower (Str.strip email)]}
                            | None => already_processed
                            end
                       else already_processed
                   | None => already_processed
                   end)
                ∅ (tail all_raw_values)
      | None => ∅
      end
  | None => ∅
  end.

(** Lines 309-315: the sheet row of every email (the header is row 1). *)
Definition build_email_to_sheet_row (all_raw_values : list (list string))
    : gmap string nat :=
  let header_row := from_option id [] (head all_raw_values) in
  match index "Email Address" header_row with
  | Some email_col_idx_raw =>
      foldl (λ (m : gmap string nat) (p : nat * list string),
               match p.2 !! email_col_idx_raw with
               | Some email => <[Str.lower (Str.strip email) := p.1]> m
               | None => m
               end)
            ∅ (imap (λ i data_row, ((i + 2)%nat, data_row)) (tail all_raw_values))
  | None => ∅
  end.

(** Lines 300-305: the national IDs of one output table. *)
Definition adhar_column (existing_df : DataFrame) : list string :=
  if negb (df_empty existing_df) && has_column "Adhar Number" existing_df
  then (λ r, Str.strip (astype_str (r !! "Adhar Number"))) <$> records existing_df
  else [].

Definition seed_seen_adhars (existing : list DataFrame) : gset string :=
  foldl (λ (seen : gset string) existing_df,
           seen ∪ list_to_set (adhar_column existing_df))
        ∅ existing.

(** The state of the loop of STEP 2 once it has gone through [rows]. *)
Definition classify_rows (t : Thresholds) (all_raw_values : list (list string))
    (existing : list DataFrame) (rows : list Row) : Loop :=
  let already_processed := build_already_processed all_raw_values in
  foldl (loop_body t already_processed (build_email_to_sheet_row all_raw_values))
        (mkLoop [] [] [] already_processed (seed_seen_adhars existing) [])
        rows.

(** The loop of STEP 2 over the standardised raw rows. *)
Definition classify (t : Thresholds) (all_raw_values : list (list string))
    (existing : list DataFrame) (df : DataFrame) : Loop :=
  classify_rows t all_raw_values existing (records df).

(** * Data frames: the pandas operations the script uses *)

(** [fillna("")] then [astype(str)] on one entry *)
Definition cell_text (v : option cell) : string :=
  match v with
  | Some (Number S754_nan) | Some (Float64 S754_nan) | None => ""
  | Some c => str c
  end.

(** [pd.notna] on one entry *)
Definition notna (v : option cell) : bool :=
  match v with
  | Some (Number S754_nan) | Some (Float64 S754_nan) | None => false
  | Some _ => true
  end.

(** [df.values.tolist()] after [fillna("").astype(str)] *)
Definition df_values (df : DataFrame) : list (list string) :=
  (λ r : Row, (λ c, cell_text (r !! c)) <$> columns df) <$> records df.

(** [df.fillna("").astype(str)] *)
Definition fillna_astype_str (df : DataFrame) : DataFrame :=
  mkDF (columns df)
       ((λ r : Row, list_to_map ((λ c, (c, Text (cell_text (r !! c)))) <$> columns df))
          <$> records df).

(** [[df.columns.tolist()] + df.values.tolist()] *)
Definition df_grid (df : DataFrame) : list (list string) :=
  columns df :: df_values df.

(** [df[col] = f(df[col])] on an existing column; [None] is [KeyError]. *)
Definition assign_column (col : string) (f : option cell → cell) (df : DataFrame)
    : option DataFrame :=
  if has_column col df
  then Some (mkDF (columns df) ((λ r : Row, <[col := f (r !! col)]> r) <$> records df))
  else None.

(** [df[col] = v]: the column is added at the end when it is new. *)
Definition set_column (col : string) (v : cell) (df : DataFrame) : DataFrame :=
  mkDF (if has_column col df then columns df else columns df ++ [col])
       ((λ r : Row, <[col := v]> r) <$> records df).

(** [df[mask]] *)
Definition filter_rows (keep : Row → bool) (df : DataFrame) : DataFrame :=
  mkDF (columns df) (List.filter keep (records df)).

(** [df.drop(columns=cols, errors="ignore")] *)
Definition drop_columns (cols : list string) (df : DataFrame) : DataFrame :=
  mkDF (List.filter (λ c, negb (bool_decide (c ∈ cols))) (columns df))
       ((λ r : Row, foldr delete r cols) <$> records df).

(** [df[cols]] on columns that exist *)
Definition select_columns (cols : list string) (df : DataFrame) : DataFrame :=
  mkDF cols
       ((λ r : Row, list_to_map (omap (λ c, (λ v, (c, v)) <$> r !! c) cols))
          <$> records df).

(** Equality of two entries ([==], and the keys of a join): texts are
    compared as texts and numbers as numbers; a text is no number, and a
    missing value equals nothing. *)
Definition value_eqb (a b : cell) : bool :=
  match unbox a, unbox b with
  | Text s, Text t => Str.eqb s t
  | Int x, Int y => x =? y
  | Number x, Number y => Float.eqb x y
  | Int x, Number y | Number y, Int x => Float.eqb (Float.of_Z x) y
  | _, _ => false
  end.
Definition key_eqb (a b : option cell) : bool :=
  match a, b with
  | Some a, Some b => value_eqb a b
  | _, _ => false
  end.

(** Equality of two entries for [drop_duplicates]: missing values are
    duplicates of each other. *)
Definition same_value (a b : option cell) : bool :=
  key_eqb a b || negb (notna a) && negb (notna b).

(** [df.drop_duplicates(subset=[col], keep="first")] *)
Fixpoint drop_duplicates_go (col : string) (kept : list Row) (l : list Row)
    : list Row :=
  match l with
  | [] => []
  | r :: l' =>
      if existsb (λ k : Row, same_value (k !! col) (r !! col)) kept
      then drop_duplicates_go col kept l'
      else r :: drop_duplicates_go col (r :: kept) l'
  end.
Definition drop_duplicates (col : string) (df : DataFrame) : DataFrame :=
  mkDF (columns df) (drop_duplicates_go col [] (records df)).

(** The right rows a left row is joined with. *)
Definition matches_of (on : string) (right : DataFrame) (l : Row) : list Row :=
  List.filter (λ r : Row, key_eqb (l !! on) (r !! on)) (records right).

(** [left.merge(right, on=on, how="left")], the two frames sharing no other
    column: every left row once per matching right row, or once with the
    right columns missing. When some left row has no match, the integer
    columns of the right frame become float64. *)
Definition merge_left (on : string) (left right : DataFrame) : DataFrame :=
  let cast :=
    if forallb (λ l, negb (bool_decide (matches_of on right l = []))) (records left)
    then id else promote in
  mkDF (columns left ++ List.filter (λ c, negb (Str.eqb c on)) (columns right))
       (flat_map
          (λ l : Row,
             match matches_of on right l with
             | [] => [l]
             | ms => (λ r : Row, l ∪ (cast <$> delete on r)) <$> ms
             end)
          (records left)).

(** [pd.concat([a, b], ignore_index=True)]: a row of one frame misses the
    columns only the other has. *)
Definition concat (a b : DataFrame) : DataFrame :=
  mkDF (columns a ++ List.filter (λ c, negb (bool_decide (c ∈ columns a))) (columns b))
       (unify_dtypes (records a ++ records b)).

(** What [pd.to_numeric(errors="coerce")] reads in one entry: an int, a
    float, or nan for a text that is no number. *)
Definition to_number (v : option cell) : cell :=
  match v with
  | Some (Text s) =>
      match Parse.number s with
      | Some (inl z) => Int z
      | Some (inr x) => Number x
      | None => Number Float.nan
      end
  | Some c => unbox c
  | None => Number Float.nan
  end.

(** The number of an entry as a float. *)
Definition to_numeric (v : option cell) : pyfloat :=
  match to_number v with
  | Int z => Float.of_Z z
  | Number x => x
  | _ => Float.nan
  end.

(** [df[col] = pd.to_numeric(df[col], errors="coerce")]: an integer column
    when every entry is an integer of 64 bits, float64 otherwise. [None] is
    [KeyError]. *)
Definition to_numeric_column (col : string) (df : DataFrame) : option DataFrame :=
  if has_column col df
  then
    let read := (λ r : Row, to_number (r !! col)) <$> records df in
    let d := if forallb (λ c, bool_decide (is_Some (int_of (Some c)))) read
                && fits_64 (omap (λ c, int_of (Some c)) read)
             then Integer else Floating in
    Some (mkDF (columns df)
               ((λ r : Row, <[col := as_dtype d (to_number (r !! col))]> r)
                  <$> records df))
  else None.

(** The order of [sort_values(ascending=False)]: larger first, missing
    values last. *)
Definition sorts_before (a b : pyfloat) : bool :=
  match a, b with
  | _, S754_nan => true
  | S754_nan, _ => false
  | _, _ => Float.le b a
  end.

Fixpoint insert_sorted (key : Row → pyfloat) (r : Row) (l : list Row) : list Row :=
  match l with
  | [] => [r]
  | x :: l' =>
      if sorts_before (key x) (key r) then x :: insert_sorted key r l'
      else r :: l
  end.

(** [df.sort_values(col, ascending=False)]; rows with equal values keep
    their order (the script does not fix the order of ties). *)
Definition sort_values_desc (col : string) (df : DataFrame) : DataFrame :=
  mkDF (columns df)
       (foldr (insert_sorted (λ r : Row, to_numeric (r !! col))) [] (records df)).

(** * STEP 1: standardising the raw fields (lines 222-245) *)

Definition standardise (df : DataFrame) : option DataFrame :=
  df ← assign_column "First Name"
         (λ v, Text (Str.title (Str.strip (astype_str v)))) df;
  df ← assign_column "Last Name"
         (λ v, Text (Str.title (Str.strip (astype_str v)))) df;
  df ← assign_column "Email Address"
         (λ v, Text (Str.lower (Str.strip (astype_str v)))) df;
  df ← assign_column "Phone Number" (λ v, Text (normalise_phone (astype_str v))) df;
  df ← assign_column "Adhar Number" (λ v, Text (normalise_adhar (astype_str v))) df;
  df ← assign_column "State" (λ v, Text (Str.title (Str.strip (astype_str v)))) df;
  assign_column "City" (λ v, Text (Str.title (Str.strip (astype_str v)))) df.

(** gspread's [numericise] of one cell: the value of the text when it reads
    as an [int] or as a [float], the text itself otherwise; a text with an
    underscore is left as it is. *)
Definition numericise (value : string) : cell :=
  match Parse.number value with
  | Some (inl z) => Int z
  | Some (inr x) => Number x
  | None => Text value
  end.

(** [ws.get_all_records()]: the header and one dict per data row, every
    value numericised. gspread refuses a header row in which a name is
    repeated ([None]). *)
Definition get_all_records (g : list (list string))
    : option (list string * list Row) :=
  match get_all_values g with
  | [] | [_] => Some ([], [])
  | header :: rows =>
      if bool_decide (NoDup header)
      then Some (header, (λ r, list_to_map (zip header (numericise <$> r))) <$> rows)
      else None
  end.

(** [pd.DataFrame(data)] for the dicts of [get_all_records] *)
Definition DataFrame_of (data : list string * list Row) : DataFrame :=
  match data.2 with
  | [] => empty_df
  | _ => mkDF data.1 (infer_objects data.2)
  end.

(** [pd.DataFrame(rows)] for row dicts that all have the keys [cols] *)
Definition DataFrame_of_rows (cols : list string) (rows : list Row) : DataFrame :=
  match rows with
  | [] => empty_df
  | _ => mkDF cols (infer_objects rows)
  end.

(** * Worksheet operations and the helpers of lines 83-142 *)

Definition ws_get_all_records (ws : Ws) : M (list string * list Row) :=
  g <- read_grid ws ;;
  lift (get_all_records g)
       (GSpreadException "the header row in the worksheet is not unique").

Definition ws_get_all_values (ws : Ws) : M (list (list string)) :=
  g <- read_grid ws ;; ret (get_all_values g).

Definition ws_row_values (ws : Ws) (n : nat) : M (list string) :=
  g <- read_grid ws ;; ret (row_values g n).

Definition ws_clear (ws : Ws) : M unit := write_grid ws [].

(** Writing a block of rows from cell A1. *)
Fixpoint overlay (values g : list (list string)) : list (list string) :=
  match values, g with
  | [], _ => g
  | v :: values', [] => v :: overlay values' []
  | v :: values', r :: g' => (v ++ drop (length v) r) :: overlay values' g'
  end.

Definition ws_update (ws : Ws) (values : list (list string)) : M unit :=
  g <- read_grid ws ;; write_grid ws (overlay values g).

Definition ws_append_rows (ws : Ws) (values : list (list string)) : M unit :=
  g <- read_grid ws ;; write_grid ws (g ++ values).

Definition ws_update_cell (ws : Ws) (r c : nat) (v : string) : M unit :=
  g <- read_grid ws ;; write_grid ws (update_cell g r c v).

Definition ws_batch_update (ws : Ws) (col : nat) (updates : list (nat * string))
    : M unit :=
  g <- read_grid ws ;; write_grid ws (batch_update g col updates).

(** [except Exception: ...] *)
Definition on_Exception {A} (h : Exn → M A) (e : Exn) : option (M A) :=
  if is_Exception e then Some (h e) else None.

Definition emails_of_frame (col : string) (df : DataFrame) : gset string :=
  if negb (df_empty df) && has_column col df
  then list_to_set
         ((λ r : Row, Str.lower (Str.strip (astype_str (r !! col)))) <$> records df)
  else ∅.

(** Lines 83-92. *)
Definition get_sheet_emails (sheet_id tab col : string) : M (gset string) :=
  try_except
    (ws <- worksheet sheet_id tab ;;
     data <- ws_get_all_records ws ;;
     ret (emails_of_frame col (DataFrame_of data)))
    (on_Exception (λ _, ret ∅)).

(** Lines 95-101. *)
Definition get_sheet_df (sheet_id tab : string) : M DataFrame :=
  try_except
    (ws <- worksheet sheet_id tab ;;
     data <- ws_get_all_records ws ;;
     ret (DataFrame_of data))
    (on_Exception (λ _, ret empty_df)).

(** Lines 104-113. *)
Definition write_sheet (sheet_id tab : string) (df : DataFrame) : M unit :=
  if df_empty df then ret tt
  else
    ws <- worksheet sheet_id tab ;;
    ws_clear ws ;;;
    ws_update ws (df_grid df).

(** The new rows in the column order of the existing table, a column the
    new rows lack being empty. *)
Definition align_columns (new_df existing_df : DataFrame) : DataFrame :=
  mkDF (columns existing_df)
       ((λ r : Row,
           list_to_map
             ((λ c, (c, from_option id (Text "") (r !! c))) <$> columns existing_df))
          <$> records new_df).

(** Lines 116-142. *)
Definition append_sheet (sheet_id tab : string) (new_df existing_df : DataFrame)
    : M DataFrame :=
  if df_empty new_df then ret existing_df
  else
    ws <- worksheet sheet_id tab ;;
    let new_df := fillna_astype_str new_df in
    if df_empty existing_df then
      ws_clear ws ;;;
      ws_update ws (df_grid new_df) ;;;
      ret new_df
    else
      let new_df := align_columns new_df existing_df in
      ws_append_rows ws (df_values new_df) ;;;
      ret (concat existing_df new_df).

(** * STEP 1 (lines 196-267) *)

(** [{row["Parameter"]: str(row["Value"]) for row in config_data}] *)
Definition build_config (config_data : list Row) : option (gmap string string) :=
  foldl (λ acc (row : Row),
           config ← acc;
           p ← row !! "Parameter";
           v ← row !! "Value";
           Some (match p with
                 | Text name => <[name := str v]> config
                 | _ => config
                 end))
        (Some ∅) config_data.

Record Step1 : Type := mkStep1 {
  raw_ws : Ws;
  df : DataFrame;
  thresholds : Thresholds;
  pipeline_status_col : nat;
  all_raw_values : list (list string)
}.

Definition step1 : M Step1 :=
  raw_ws <- worksheet RAW_SHEET_ID RAW_TAB ;;
  raw_data <- ws_get_all_records raw_ws ;;
  config_ws <- worksheet OUTPUT_SHEET_ID CONFIG_TAB ;;
  config_data <- ws_get_all_records config_ws ;;
  config <- lift (build_config config_data.2) (KeyError "Parameter") ;;
  let df := DataFrame_of raw_data in
  modify_run (set_raw_rows_read (length (records df))) ;;;
  if df_empty df then raise SystemExit
  else
    t <- lift (resolve_thresholds config)
           (ValueError "could not convert string to a number") ;;
    df <- lift (standardise df) (KeyError "a column of the raw sheet") ;;
    raw_headers <- ws_row_values raw_ws 1 ;;
    pipeline_status_col <-
      match index "Pipeline Status" raw_headers with
      | None =>
          let col := (length raw_headers + 1)%nat in
          ws_update_cell raw_ws 1 col "Pipeline Status" ;;;
          ret col
      | Some i => ret (i + 1)%nat
      end ;;
    all_raw_values <- ws_get_all_values raw_ws ;;
    ret (mkStep1 raw_ws df t pipeline_status_col all_raw_values).

(** * STEP 2 (lines 277-513) *)

Definition STRIP_ALL : list string := ["Pipeline Status"].
Definition STRIP_CLEAN_REJECTED : list string :=
  ["Submission ID"; "Respondent ID"; "Submitted at"].

(** The keys of a row dict, in order, after [row_dict[col] = ...]. *)
Definition with_key (cols : list string) (col : string) : list string :=
  if bool_decide (col ∈ cols) then cols else cols ++ [col].

(** The keys of [row_dict] before a bucket adds its own. *)
Definition row_dict_keys (df : DataFrame) : list string :=
  List.filter
    (λ c, negb (Str.mem c ["Pipeline Status"; "Submission ID"; "Respondent ID";
                           "Submitted at"]))
    (columns df).

Record Step2 : Type := mkStep2 {
  email_to_sheet_row : gmap string nat;
  clean_df : DataFrame
}.

Definition step2 (s1 : Step1) : M Step2 :=
  existing_clean_df <- get_sheet_df OUTPUT_SHEET_ID CLEAN_TAB ;;
  existing_rejected_df <- get_sheet_df OUTPUT_SHEET_ID REJECTED_TAB ;;
  existing_exception_df <- get_sheet_df OUTPUT_SHEET_ID EXCEPTION_TAB ;;
  let st := classify (thresholds s1) (all_raw_values s1)
              [existing_clean_df; existing_rejected_df; existing_exception_df]
              (df s1) in
  match pipeline_status_updates st with
  | [] => ret tt
  | updates => ws_batch_update (raw_ws s1) (pipeline_status_col s1) updates
  end ;;;
  let keys := row_dict_keys (df s1) in
  let new_clean_df :=
    DataFrame_of_rows (with_key keys "Processed At") (clean_rows st) in
  let new_rejected_df :=
    DataFrame_of_rows (with_key (with_key keys "Rejection Reasons") "Rejected At")
                      (rejected_rows st) in
  let new_exception_df :=
    DataFrame_of_rows
      (with_key (with_key (with_key (with_key keys "Exception Reason") "Status")
                          "Reviewer Remark") "Flagged At")
      (exception_rows st) in
  let new_clean_df :=
    drop_columns STRIP_CLEAN_REJECTED (drop_columns STRIP_ALL new_clean_df) in
  let new_rejected_df :=
    drop_columns STRIP_CLEAN_REJECTED (drop_columns STRIP_ALL new_rejected_df) in
  let new_exception_df := drop_columns STRIP_ALL new_exception_df in
  clean_df <- append_sheet OUTPUT_SHEET_ID CLEAN_TAB new_clean_df existing_clean_df ;;
  append_sheet OUTPUT_SHEET_ID REJECTED_TAB new_rejected_df existing_rejected_df ;;;
  append_sheet OUTPUT_SHEET_ID EXCEPTION_TAB new_exception_df existing_exception_df ;;;
  modify_run (set_written (length (clean_rows st)) (length (rejected_rows st))
                          (length (exception_rows st))) ;;;
  ret (mkStep2 (build_email_to_sheet_row (all_raw_values s1)) clean_df).

(** * STEP 3: approved exceptions move to Clean_Data (lines 521-639) *)

(** [df["Status"] == status] on one row *)
Definition has_status (status : string) (r : Row) : bool :=
  key_eqb (r !! "Status") (Some (Text status)).

(** [Series.isin(emails)] on one entry *)
Definition isin (v : option cell) (emails : gset string) : bool :=
  match v with
  | Some (Text s) => bool_decide (s ∈ emails)
  | _ => false
  end.

(** [.astype(str).str.strip().str.lower()] on one entry *)
Definition lower_strip (v : option cell) : cell :=
  Text (Str.lower (Str.strip (astype_str v))).

Definition tally_meta_cols : list string :=
  ["Submission ID"; "Respondent ID"; "Submitted at"].

(** Line 623: the rows that stay in the Exception sheet. *)
Definition remaining_of (live_ex_df : DataFrame) : DataFrame :=
  filter_rows (λ r, negb (has_status "approved" r)) live_ex_df.

Definition step3_body (s1 : Step1) (s2 : Step2) : M unit :=
  live_ex_df <- get_sheet_df OUTPUT_SHEET_ID EXCEPTION_TAB ;;
  if df_empty live_ex_df || negb (has_column "Status" live_ex_df) then ret tt
  else
    live_ex_df <- lift (assign_column "Status" lower_strip live_ex_df)
                    (KeyError "Status") ;;
    let approved_df := filter_rows (has_status "approved") live_ex_df in
    if negb (df_empty approved_df) then
      live_clean_emails <-
        get_sheet_emails OUTPUT_SHEET_ID CLEAN_TAB "Email Address" ;;
      approved_df <- lift (assign_column "Email Address" lower_strip approved_df)
                       (KeyError "Email Address") ;;
      let truly_new :=
        filter_rows (λ r, negb (isin (r !! "Email Address") live_clean_emails))
                    approved_df in
      if negb (df_empty truly_new) then
        let truly_new := set_column "Processed At" (Text ts) truly_new in
        raw_full_data <- ws_get_all_records (raw_ws s1) ;;
        raw_full_df <-
          lift (assign_column "Email Address" lower_strip (DataFrame_of raw_full_data))
               (KeyError "Email Address") ;;
        let existing_meta_cols :=
          List.filter (λ c, has_column c raw_full_df) tally_meta_cols in
        truly_new <-
          match existing_meta_cols with
          | [] => ret truly_new
          | _ =>
              let meta_slim :=
                drop_duplicates "Email Address"
                  (select_columns ("Email Address" :: existing_meta_cols) raw_full_df) in
              truly_new <- lift (assign_column "Email Address" lower_strip truly_new)
                             (KeyError "Email Address") ;;
              let truly_new := drop_columns existing_meta_cols truly_new in
              ret (merge_left "Email Address" truly_new meta_slim)
          end ;;
        let truly_new :=
          drop_columns ["Exception Reason"; "Flagged At"; "Status";
                        "Reviewer Remark"; "Pipeline Status"] truly_new in
        ws_clean <- worksheet OUTPUT_SHEET_ID CLEAN_TAB ;;
        let truly_new := fillna_astype_str truly_new in
        ws_append_rows ws_clean (df_values truly_new) ;;;
        modify_run (set_exceptions_approved (length (records truly_new))) ;;;
        let ps_updates :=
          flat_map (λ exc_row : Row,
                      status_update (email_to_sheet_row s2 !! row_email_of exc_row)
                                    "Approved - Clean")
                   (records truly_new) in
        match ps_updates with
        | [] => ret tt
        | _ => ws_batch_update (raw_ws s1) (pipeline_status_col s1) ps_updates
        end ;;;
        let remaining := remaining_of live_ex_df in
        ws_ex <- worksheet OUTPUT_SHEET_ID EXCEPTION_TAB ;;
        ws_clear ws_ex ;;;
        if negb (df_empty remaining)
        then ws_update ws_ex (df_grid (fillna_astype_str remaining))
        else ret tt
      else ret tt
    else ret tt.

Definition step3 (s1 : Step1) (s2 : Step2) : M unit :=
  try_except (step3_body s1 s2)
    (on_Exception (λ e, modify_run (append_error ("Step 3 error: " +:+ exn_text e)))).

(** * STEP 4: test scores (lines 647-731) *)

(** [test_df["Test Score"].between(0, 100)] on one row *)
Definition valid_score (r : Row) : bool :=
  Float.between 0 100 (to_numeric (r !! "Test Score")).

(** [isna() | ~between(0, 100)] on one row *)
Definition invalid_score (r : Row) : bool :=
  Float.is_nan (to_numeric (r !! "Test Score")) || negb (valid_score r).

(** [df.rename(columns={old: new})] *)
Definition rename_column (old new : string) (df : DataFrame) : DataFrame :=
  mkDF ((λ c, if Str.eqb c old then new else c) <$> columns df)
       ((λ r : Row,
           match r !! old with
           | Some v => <[new := v]> (delete old r)
           | None => r
           end) <$> records df).

(** Lines 676-681: the highest score of every email. *)
Definition build_test_slim (test_df : DataFrame) : DataFrame :=
  rename_column "Email ID" "Email Address"
    (drop_duplicates "Email ID"
       (sort_values_desc "Test Score"
          (select_columns ["Email ID"; "Test Score"] test_df))).

(** Line 657: the score column made numeric. [None] is [KeyError]. *)
Definition numeric_scores (test_df : DataFrame) : option DataFrame :=
  to_numeric_column "Test Score" test_df.

(** Lines 659-662: the rows whose score is not a number in 0..100. *)
Definition invalid_scores_of (test_df : DataFrame) : DataFrame :=
  filter_rows invalid_score test_df.

(** Lines 670-673: the valid rows, their email standardised. *)
Definition valid_scores (test_df : DataFrame) : option DataFrame :=
  assign_column "Email ID" lower_strip (filter_rows valid_score test_df).

(** Lines 696-703: the scores joined to the Clean_Data rows. *)
Definition merge_scores (live_clean_df test_slim : DataFrame) : option DataFrame :=
  let live_clean_df :=
    if has_column "Test Score" live_clean_df
    then drop_columns ["Test Score"] live_clean_df else live_clean_df in
  live_clean_df ← assign_column "Email Address" lower_strip live_clean_df;
  Some (merge_left "Email Address" live_clean_df test_slim).

Definition str_of_nat (n : nat) : string := Parse.str_of_int (Z.of_nat n).

(** Lines 670-720: the valid scores joined to Clean_Data. *)
Definition step4_merge (test_df : DataFrame) : M DataFrame :=
  test_df <- lift (valid_scores test_df) (KeyError "Email ID") ;;
  let test_slim := build_test_slim test_df in
  live_clean_df <- get_sheet_df OUTPUT_SHEET_ID CLEAN_TAB ;;
  if negb (df_empty live_clean_df) && has_column "Email Address" live_clean_df
  then
    merged_df <- lift (merge_scores live_clean_df test_slim)
                   (KeyError "Email Address") ;;
    write_sheet OUTPUT_SHEET_ID CLEAN_TAB merged_df ;;;
    ret merged_df
  else ret empty_df.

(** The diagnostic of line 667. *)
Definition invalid_scores_message (invalid_scores : DataFrame) : string :=
  str_of_nat (length (records invalid_scores)) +:+ " invalid test score(s) found".

Definition step4_body (clean_df : DataFrame) : M DataFrame :=
  test_ws <- worksheet TEST_SCORE_SHEET_ID TEST_TAB ;;
  test_raw <- ws_get_all_records test_ws ;;
  let test_df := DataFrame_of test_raw in
  if df_empty test_df then ret clean_df
  else
    test_df <- lift (numeric_scores test_df) (KeyError "Test Score") ;;
    let invalid_scores := invalid_scores_of test_df in
    (if negb (df_empty invalid_scores)
     then modify_run (append_error (invalid_scores_message invalid_scores))
     else ret tt) ;;;
    step4_merge test_df.

Definition step4 (clean_df : DataFrame) : M DataFrame :=
  try_except (step4_body clean_df)
    (λ e,
       if is_WorksheetNotFound e
       then Some (modify_run
                    (append_error ("'" +:+ TEST_TAB
                                     +:+ "' tab not found in Test Scores sheet")) ;;;
                  get_sheet_df OUTPUT_SHEET_ID CLEAN_TAB)
       else if is_Exception e
       then Some (modify_run (append_error ("Step 4 error: " +:+ exn_text e)) ;;;
                  get_sheet_df OUTPUT_SHEET_ID CLEAN_TAB)
       else None).

(** * STEP 5: the interview shortlist (lines 739-807) *)

(** [combined.insert(0, "Rank", range(1, len(combined) + 1))] *)
Definition insert_rank (df : DataFrame) : DataFrame :=
  mkDF ("Rank" :: columns df)
       (imap (λ i (r : Row), <["Rank" := Int64 (Z.of_nat (i + 1))]> r) (records df)).

Definition step5_body (t : Thresholds) (clean_df : DataFrame) : M unit :=
  if df_empty clean_df || negb (has_column "Test Score" clean_df) then ret tt
  else
    existing_interview_emails <-
      get_sheet_emails INTERVIEW_SHEET_ID INTERVIEW_TAB "Email Address" ;;
    existing_interview_df <- get_sheet_df INTERVIEW_SHEET_ID INTERVIEW_TAB ;;
    let scored :=
      filter_rows (λ r, notna (r !! "Test Score")
                        && negb (Str.is_empty (Str.strip (astype_str (r !! "Test Score")))))
                  clean_df in
    scored <- lift (to_numeric_column "Test Score" scored) (KeyError "Test Score") ;;
    let scored := filter_rows (λ r, notna (r !! "Test Score")) scored in
    let shortlisted :=
      filter_rows (λ r, Float.ge (to_numeric (r !! "Test Score")) (MIN_TEST_SCORE t))
                  scored in
    let not_selected :=
      filter_rows (λ r, Float.lt (to_numeric (r !! "Test Score")) (MIN_TEST_SCORE t))
                  scored in
    shortlisted <- lift (assign_column "Email Address" lower_strip shortlisted)
                     (KeyError "Email Address") ;;
    let new_shortlisted :=
      filter_rows (λ r, negb (isin (r !! "Email Address") existing_interview_emails))
                  shortlisted in
    modify_run (set_interview 0 (size existing_interview_emails)
                              (length (records not_selected))) ;;;
    if negb (df_empty new_shortlisted) then
      let new_shortlisted := sort_values_desc "Test Score" new_shortlisted in
      let new_shortlisted :=
        set_column "Interviewer" (Text "")
          (set_column "Interview Date" (Text "")
             (set_column "Interview Status" (Text "Pending") new_shortlisted)) in
      let combined := concat existing_interview_df new_shortlisted in
      combined <- lift (to_numeric_column "Test Score" combined)
                    (KeyError "Test Score") ;;
      let combined := sort_values_desc "Test Score" combined in
      let combined :=
        if has_column "Rank" combined then drop_columns ["Rank"] combined
        else combined in
      let combined := insert_rank combined in
      write_sheet INTERVIEW_SHEET_ID INTERVIEW_TAB combined ;;;
      modify_run (set_interview (length (records new_shortlisted))
                                (length (records combined))
                                (length (records not_selected)))
    else ret tt.

Definition step5 (t : Thresholds) (clean_df : DataFrame) : M unit :=
  try_except (step5_body t clean_df)
    (on_Exception (λ e, modify_run (append_error ("Step 5 error: " +:+ exn_text e)))).

(** * STEP 6: the run log (lines 815-861) *)

Definition LOG_HEADERS : list string :=
  [ "Run ID"; "Start Time"; "End Time"; "Raw Rows Read";
    "New Rows Found"; "Clean Written"; "Rejected Written";
    "Exception Written"; "Exceptions Approved";
    "Interview Added (This Run)"; "Interview Total"; "Interview Not Selected";
    "Errors"; "Status" ].

(** Lines 816-818. *)
Definition run_status (r : RunTracker) : string :=
  if (0 <? length (errors r))%nat && (new_rows_found r =? 0)%nat then "Failed"
  else match errors r with
       | _ :: _ => "Partial"
       | [] => "Success"
       end.

(** Line 819. *)
Definition errors_text (r : RunTracker) : string :=
  match errors r with
  | [] => "None"
  | errs => Str.join "; " errs
  end.

Definition log_row (r : RunTracker) : list string :=
  [ run_id r; start_time r; end_time r;
    str_of_nat (raw_rows_read r); str_of_nat (new_rows_found r);
    str_of_nat (clean_written r); str_of_nat (rejected_written r);
    str_of_nat (exception_written r); str_of_nat (exceptions_approved r);
    str_of_nat (interview_added r); str_of_nat (interview_total r);
    str_of_nat (interview_not_selected r);
    errors_text r; status r ].


Definition step6 : M unit :=
  r <- get_run ;;
  modify_run (set_end ts (run_status r)) ;;;
  r <- get_run ;;
  try_except
    (log_ws <- worksheet OUTPUT_SHEET_ID RUN_LOG_TAB ;;
     log_headers <- ws_row_values log_ws 1 ;;
     match log_headers with
     | [] => ws_update log_ws [LOG_HEADERS; log_row r]
     | _ => ws_append_rows log_ws [log_row r]
     end)
    (λ e, if is_WorksheetNotFound e then Some (ret tt)
          else if is_Exception e then Some (ret tt)
          else None).

(** * The whole script *)

Definition pipeline : M unit :=
  s1 <- step1 ;;
  s2 <- step2 s1 ;;
  step3 s1 s2 ;;;
  clean_df <- step4 (clean_df s2) ;;
  step5 (thresholds s1) clean_df ;;;
  step6.

(** * The vocabulary of the properties *)

(** STEP 1 and STEP 2, which no [try] guards. *)
Definition unguarded_steps : M (Step1 * Step2) :=
  s1 <- step1 ;;
  s2 <- step2 s1 ;;
  ret (s1, s2).

(** The emails of the rows routed to Clean_Data and to Exception. *)
Definition kept_emails (st : Loop) : list string :=
  row_email_of <$> (clean_rows st ++ exception_rows st).

(** The score and the identifier the script reads from a row of the test
    score sheet. *)
Definition score_of (r : Row) : pyfloat := to_numeric (r !! "Test Score").
Definition ident_of (r : Row) : string :=
  Str.lower (Str.strip (astype_str (r !! "Email ID"))).

(** [x] is the slim row of the valid row [r], its identifier under [key]. *)
Definition from_row (key : string) (r x : Row) : Prop :=
  valid_score r = true ∧
  x !! key = Some (Text (ident_of r)) ∧
  to_numeric (x !! "Test Score") = score_of r.

(** The rows of [test_slim] before the identifier column is renamed. *)
Definition slim_rows (valid : DataFrame) : list Row :=
  drop_duplicates_go "Email ID" []
    (foldr (insert_sorted (λ r : Row, to_numeric (r !! "Test Score"))) []
       ((λ r : Row,
           list_to_map (omap (λ c, (λ v, (c, v)) <$> r !! c) ["Email ID"; "Test Score"]))
          <$> records valid)).

(** A row of the Exception sheet that the reviewer approved, and the email
    the script compares. *)
Definition is_approved (r : Row) : bool :=
  Str.eqb (Str.lower (Str.strip (astype_str (r !! "Status")))) "approved".
Definition email_norm (r : Row) : string :=
  Str.lower (Str.strip (astype_str (r !! "Email Address"))).

(** The Exception frame with its Status column standardised (line 527). *)
Definition with_status (live_ex_df : DataFrame) : DataFrame :=
  mkDF (columns live_ex_df)
       ((λ r : Row, <["Status" := lower_strip (r !! "Status")]> r)
          <$> records live_ex_df).

(** What lines 623-628 leave in the Exception sheet. *)
Definition rewritten_exception_sheet (live_ex_df : DataFrame) : list (list string) :=
  let remaining := remaining_of (with_status live_ex_df) in
  if df_empty remaining then []
  else df_grid (fillna_astype_str remaining).

End Pipeline.

(** The documented defaults (spec 4.1 and 6), set against the fields of
    [Thresholds] they fill. *)
Definition FLOAT_PARAMETERS : list (string * (Thresholds → pyfloat) * pyfloat) :=
  [ ("Exception Buffer PCT", EXCEPTION_BUFFER_PCT, Float.of_Z 1);
    ("Exception Buffer CGPA", EXCEPTION_BUFFER_CGPA, Float.of_Q false (1 # 10));
    ("Min Percentage", MIN_PCT, Float.of_Z 60);
    ("Min CGPA", MIN_CGPA, Float.of_Z 6);
    ("Max Experience", MAX_EXP, Float.of_Z 40);
    ("Min Test Score", MIN_TEST_SCORE, Float.of_Z 40) ].
Definition INT_PARAMETERS : list (string * (Thresholds → Z) * Z) :=
  [ ("Graduation Year Min", GRAD_YR_MIN, 2010);
    ("Graduation Year Max", GRAD_YR_MAX, 2025) ].

(** What resolution owes one parameter: the default when it is absent, the
    number its text reads as when it is present. *)
Definition resolved {A} (read : string → option A) (config : gmap string string)
    (t : Thresholds) (p : string * (Thresholds → A) * A) : Prop :=
  match config !! p.1.1 with
  | None => p.1.2 t = p.2
  | Some s => read s = Some (p.1.2 t)
  end.

(** A parameter whose text is no number. *)
Definition malformed {A} (read : string → option A) (config : gmap string string)
    (p : string * (Thresholds → A) * A) : Prop :=
  ∃ s, config !! p.1.1 = Some s ∧ read s = None.

(** A frame whose rows bind no key outside its columns, as every pandas
    frame does. *)
Definition well_formed (df : DataFrame) : Prop :=
  ∀ (r : Row) c, r ∈ records df → is_Some (r !! c) → c ∈ columns df.

(** The frame [get_sheet_df] returns in a world. *)
Definition frame_at (w : World) (sheet_id tab : string) : DataFrame :=
  match sheets w !! (sheet_id, tab) with
  | Some g =>
      match get_all_records g with
      | Some data => DataFrame_of data
      | None => empty_df
      end
  | None => empty_df
  end.

Definition is_Ok {A} (r : Result A) : bool :=
  match r with Ok _ => true | Raise _ => false end.

Definition RUN_LOG : Ws := (OUTPUT_SHEET_ID, RUN_LOG_TAB).

(** [keeps allowed P m]: [m] takes every world to one in relation [P] with
    it, and raises only exceptions that [allowed] admits. *)
Definition keeps (allowed : Exn → bool) (P : relation World) {A} (m : M A) : Prop :=
  ∀ w, P w (m w).2 ∧ ∀ e, (m w).1 = Raise e → allowed e = true.

(** The worksheet [key] is as it was. *)
Definition same_sheet (key : Ws) : relation World :=
  λ w w', sheets w' !! key = sheets w !! key.

(** The errors so far are still there, in their order. *)
Definition errors_grow : relation World :=
  λ w w', errors (run w) `prefix_of` errors (run w').


(** The cell in row [i], column [k] of a worksheet (both counted from 0);
    a cell the grid does not hold reads as empty. *)
Definition cell_at (g : list (list string)) (i k : nat) : string :=
  from_option id "" (g !! i ≫= (.!! k)).



(** One row sorts before another. *)
Definition before (key : Row → pyfloat) (a b : Row) : Prop :=
  sorts_before (key a) (key b) = true.

(** The raw sheet. *)
Definition RAW : Ws := (RAW_SHEET_ID, RAW_TAB).



(** The place of a float in the order of the floats: its class (from the
    negative infinity, -2, to the positive one, 2), then exponent and
    mantissa, both negated below zero. nan has no place. *)
Definition rank_of (x : pyfloat) : option (Z * Z * Z) :=
  match x with
  | S754_nan => None
  | S754_infinity true => Some (-2, 0, 0)
  | S754_finite true m e => Some (-1, - e, - Zpos m)
  | S754_zero _ => Some (0, 0, 0)
  | S754_finite false m e => Some (1, e, Zpos m)
  | S754_infinity false => Some (2, 0, 0)
  end.

(** The lexicographic order of the places. *)
Definition rank_lt (a b : Z * Z * Z) : Prop :=
  a.1.1 < b.1.1 ∨ (a.1.1 = b.1.1 ∧ (a.1.2 < b.1.2 ∨ (a.1.2 = b.1.2 ∧ a.2 < b.2))).


(** The run tracker is as it was. *)
Definition same_run : relation World := λ w w', run w' = run w.








(** * Sample sheets *)

(** ** The text of a float

    [repr] gives the shortest decimal that reads back as the float, the one
    nearest to it when there are several. *)

Module Repr.

(** [10 ^ k] as a rational *)
Definition pow10 (k : Z) : Q :=
  if 0 <=? k then inject_Z (10 ^ k) else Qmake 1 (Z.to_pos (10 ^ (- k))).

Definition Qfloor' (q : Q) : Z := Qnum q / Zpos (Qden q).

(** The largest [p] with [10 ^ p <= v], found from an estimate. *)
Fixpoint up (fuel : nat) (v : Q) (p : Z) : Z :=
  match fuel with
  | O => p
  | S fuel' => if Qle_bool (pow10 (p + 1)) v then up fuel' v (p + 1) else p
  end.
Fixpoint down (fuel : nat) (v : Q) (p : Z) : Z :=
  match fuel with
  | O => p
  | S fuel' => if Qle_bool (pow10 p) v then p else down fuel' v (p - 1)
  end.
Definition log10_floor (m : positive) (e : Z) (v : Q) : Z :=
  let estimate := (Zpos (digits2_pos m) + e) * 30103 / 100000 in
  up 3 v (down 3 v (estimate + 1)).

Definition Qabs_diff (a b : Q) : Q := Qabs (a - b).

(** The decimal [d * 10 ^ k] of [n] digits that reads back as [x] and is
    nearest to it, when there is one. *)
Definition candidate (x : pyfloat) (v : Q) (p : Z) (n : Z) : option (Z * Z) :=
  let k := p - (n - 1) in
  let scaled := (v / pow10 k)%Q in
  let lo := Qfloor' scaled in
  let hi := lo + 1 in
  let back d := Float.eqb (Float.of_Q false (inject_Z d * pow10 k)) x in
  let dlo := Qabs_diff (inject_Z lo * pow10 k) v in
  let dhi := Qabs_diff (inject_Z hi * pow10 k) v in
  match back lo, back hi with
  | true, true =>
      if Qle_bool dlo dhi
      then (if Qeq_bool dlo dhi then Some ((if Z.even lo then lo else hi), k)
            else Some (lo, k))
      else Some (hi, k)
  | true, false => Some (lo, k)
  | false, true => Some (hi, k)
  | false, false => None
  end.

Fixpoint shortest (fuel : nat) (x : pyfloat) (v : Q) (p : Z) (n : Z) : Z * Z :=
  match fuel with
  | O => (Qfloor' (v / pow10 (p - 16)), p - 16)
  | S fuel' =>
      match candidate x v p n with
      | Some r => r
      | None => shortest fuel' x v p (n + 1)
      end
  end.

Definition str_of_Z (z : Z) : string := NilZero.string_of_int (Z.to_int z).

Fixpoint strip_zeros_rev (s : string) : string :=
  match s with
  | String "0"%char s' => strip_zeros_rev s'
  | _ => s
  end.

Fixpoint zeros (n : nat) : string :=
  match n with O => "" | S n' => String "0"%char (zeros n') end.

Fixpoint take (n : nat) (s : string) : string :=
  match n, s with
  | S n', String a s' => String a (take n' s')
  | _, _ => ""
  end.
Fixpoint skip (n : nat) (s : string) : string :=
  match n, s with
  | S n', String _ s' => skip n' s'
  | _, _ => s
  end.

(** The digits without trailing zeros, and the position of the point:
    the value is [0.digits * 10 ^ decpt]. *)
Definition digits_of (x : pyfloat) (m : positive) (e : Z) : string * Z :=
  let v := Float.to_Q (S754_finite false m e) in
  let p := log10_floor m e v in
  let '(d, k) := shortest 17 x v p 1 in
  let all := str_of_Z d in
  let ds := String.rev (strip_zeros_rev (String.rev all)) in
  (ds, k + Z.of_nat (String.length all)).

Definition exponent_text (e : Z) : string :=
  let a := str_of_Z (Z.abs e) in
  (if e <? 0 then "e-" else "e+") +:+ (if Z.abs e <? 10 then "0" +:+ a else a).

(** [repr(x)] for a float *)
Definition float_repr (x : pyfloat) : string :=
  match x with
  | S754_nan => "nan"
  | S754_infinity s => if s then "-inf" else "inf"
  | S754_zero s => if s then "-0.0" else "0.0"
  | S754_finite s m e =>
      let '(ds, decpt) := digits_of (S754_finite false m e) m e in
      let nd := Z.of_nat (String.length ds) in
      let body :=
        if (decpt <=? -4) || (16 <? decpt)
        then take 1 ds
             +:+ (if 1 <? nd then "." +:+ skip 1 ds else "")
             +:+ exponent_text (decpt - 1)
        else if decpt <=? 0
        then "0." +:+ zeros (Z.to_nat (- decpt)) +:+ ds
        else if nd <=? decpt
        then ds +:+ zeros (Z.to_nat (decpt - nd)) +:+ ".0"
        else take (Z.to_nat decpt) ds +:+ "." +:+ skip (Z.to_nat decpt) ds in
      if s then "-" +:+ body else body
  end.

End Repr.

Definition SAMPLE_HEADER : list string :=
  [ "First Name"; "Last Name"; "Phone Number"; "Email Address"; "Adhar Number";
    "Gender"; "Date of Birth"; "State"; "City"; "Highest Qualification";
    "Graduation Year"; "CGPA"; "Total Percentage"; "Total Experience" ].

(** One raw row: who, the email, the national ID, the CGPA and the
    percentage; the other fields are the same in every sample. *)
Definition sample_row (first email adhar cgpa pct : string) : list string :=
  [ first; "rao"; "+91 98765-43210"; email; adhar; "F"; "2000-01-01"; "goa";
    "panaji"; "BSc"; "2020"; cgpa; pct; "2" ].

Definition asha : list string :=
  sample_row "asha" " Asha@X.com " "1234 5678 9012" "7.5" "70".
Definition ravi : list string :=
  sample_row "ravi" "asha@x.com" "123456789013" "7.5" "70".
Definition meena : list string :=
  sample_row "meena" "meena@x.com" "123456789014" "7.5" "59.5".

(** A store with the tabs the script opens. *)
Definition sample_world (raw config clean exception scores : list (list string))
    : World :=
  mkWorld
    (<[(RAW_SHEET_ID, RAW_TAB) := raw]>
       (<[(OUTPUT_SHEET_ID, CONFIG_TAB) := config]>
          (<[(OUTPUT_SHEET_ID, CLEAN_TAB) := clean]>
             (<[(OUTPUT_SHEET_ID, REJECTED_TAB) := []]>
                (<[(OUTPUT_SHEET_ID, EXCEPTION_TAB) := exception]>
                   (<[(OUTPUT_SHEET_ID, RUN_LOG_TAB) := []]>
                      (<[(TEST_SCORE_SHEET_ID, TEST_TAB) := scores]>
                         (<[(INTERVIEW_SHEET_ID, INTERVIEW_TAB) := []]> ∅))))))))
    (fresh_run "run-1" "t0").

Definition SAMPLE_CONFIG : list (list string) :=
  [["Parameter"; "Value"]; ["Min CGPA"; "6.0"]].
Definition SAMPLE_SCORES : list (list string) :=
  [ ["Email ID"; "Test Score"]; ["a@x.com"; "55"]; ["A@x.com "; "72"];
    ["b@y.com"; "130"] ].

(** Three new rows, two of them with one email. *)
Definition world_three_rows : World :=
  sample_world [SAMPLE_HEADER; asha; ravi; meena] SAMPLE_CONFIG [] [] SAMPLE_SCORES.

(** A raw sheet that has its header and no row. *)
Definition world_no_rows : World :=
  sample_world [SAMPLE_HEADER] SAMPLE_CONFIG [] [] SAMPLE_SCORES.


(** The dict [get_all_records] makes of a row under the sample header. *)
Definition sample_record (r : list string) : Row :=
  list_to_map (zip SAMPLE_HEADER (numericise <$> r)).

Definition EXCEPTION_HEADER : list string :=
  SAMPLE_HEADER ++ ["Exception Reason"; "Status"; "Reviewer Remark"; "Flagged At"].
Definition CLEAN_HEADER : list string := SAMPLE_HEADER ++ ["Processed At"].

Definition asha_clean : list string :=
  sample_row "Asha" "asha@x.com" "123456789012" "7.5" "70" ++ ["t0"].

(** The Exception sheet after a review: one approval, one row pending. *)
Definition world_approved_new : World :=
  sample_world [SAMPLE_HEADER; asha; meena] SAMPLE_CONFIG
    [CLEAN_HEADER; asha_clean]
    [ EXCEPTION_HEADER;
      sample_row "Meena" "meena@x.com" "123456789014" "7.5" "59.5"
        ++ ["low percentage"; " Approved "; "fine"; "t0"];
      sample_row "Ravi" "ravi@x.com" "123456789013" "5.95" "70"
        ++ ["low cgpa"; "Pending"; ""; "t0"] ]
    SAMPLE_SCORES.

(** The approved row has an email that Clean_Data already holds. *)
Definition world_approved_known : World :=
  sample_world [SAMPLE_HEADER; asha] SAMPLE_CONFIG
    [CLEAN_HEADER; asha_clean]
    [ EXCEPTION_HEADER;
      sample_row "Asha" " Asha@X.com " "123456789012" "7.5" "59.5"
        ++ ["low percentage"; "Approved"; "fine"; "t0"] ]
    SAMPLE_SCORES.

(** What STEP 3 is handed when the raw sheet has nothing new. *)
Definition sample_step1 : Step1 :=
  mkStep1 (RAW_SHEET_ID, RAW_TAB) empty_df DEFAULT_THRESHOLDS 15 [].
Definition sample_step2 : Step2 := mkStep2 ∅ empty_df.

(** Clean_Data holds a national ID; a new applicant gives the same one. *)
Definition world_known_adhar : World :=
  sample_world
    [SAMPLE_HEADER; sample_row "tara" "tara@x.com" "123456789012" "7.5" "70"]
    SAMPLE_CONFIG [CLEAN_HEADER; asha_clean] [] SAMPLE_SCORES.


(** A raw sheet whose one row has an email that reads as a number. *)
Definition world_numeric_email : World :=
  sample_world
    [SAMPLE_HEADER; sample_row "zed" "007" "123456789015" "7.5" "70"]
    SAMPLE_CONFIG [] [] SAMPLE_SCORES.

(** A minimum CGPA of 6.2, the buffer left at 0.1, and a CGPA of 6.1. *)
Definition world_decimal_edge : World :=
  sample_world
    [SAMPLE_HEADER; sample_row "uma" "uma@x.com" "123456789016" "6.1" "70"]
    [["Parameter"; "Value"]; ["Min CGPA"; "6.2"]] [] [] SAMPLE_SCORES.

(** Clean_Data holds a row with a score in the test sheet and one
    without. *)
Definition world_scores : World :=
  sample_world [SAMPLE_HEADER] SAMPLE_CONFIG
    [ CLEAN_HEADER;
      sample_row "Anil" " A@x.com" "123456789017" "7.5" "70" ++ ["t0"];
      sample_row "Chitra" "c@z.com" "123456789018" "8" "80" ++ ["t0"] ]
    [] SAMPLE_SCORES.

(** A configuration whose value for the minimum percentage is no number. *)
Definition world_malformed_config : World :=
  sample_world [SAMPLE_HEADER; asha]
    [["Parameter"; "Value"]; ["Min Percentage"; "sixty"]] [] [] SAMPLE_SCORES.




(** * Properties *)

#[local] Set Warnings "-clear-no-such-hyp".







(** ** The order of the floats *)

Lemma rank_of_None x : rank_of x = None ↔ x = Float.nan.
Proof. destruct x as [[]|[]| |[] m e]; by split. Qed.

Lemma compare_rank x y a b :
  rank_of x = Some a → rank_of y = Some b →
  SFcompare x y = Some Lt ∧ rank_lt a b
  ∨ SFcompare x y = Some Eq ∧ a = b
  ∨ SFcompare x y = Some Gt ∧ rank_lt b a.
Proof.
  unfold rank_lt.
  destruct x as [[]|[]| |[] m1 e1], y as [[]|[]| |[] m2 e2]; simpl;
    intros [= <-] [= <-]; simpl; try (by left; split; [|lia]);
    try (by right; left); try (by right; right; split; [|lia]).
  - destruct (Z.compare_spec e1 e2) as [->|He|He].
    + rewrite Pos.compare_cont_spec. simpl.
      destruct (Pos.compare_spec m1 m2) as [->|Hm|Hm]; simpl.
      * by right; left.
      * right; right. split; [done|]. lia.
      * left. split; [done|]. lia.
    + right; right. split; [done|]. lia.
    + left. split; [done|]. lia.
  - destruct (Z.compare_spec e1 e2) as [->|He|He].
    + rewrite Pos.compare_cont_spec. simpl.
      destruct (Pos.compare_spec m1 m2) as [->|Hm|Hm]; simpl.
      * by right; left.
      * left. split; [done|]. lia.
      * right; right. split; [done|]. lia.
    + left. split; [done|]. lia.
    + right; right. split; [done|]. lia.
Qed.

Lemma rank_lt_irrefl a : ¬ rank_lt a a.
Proof. unfold rank_lt. lia. Qed.

Lemma rank_lt_asym a b : rank_lt a b → ¬ rank_lt b a.
Proof. unfold rank_lt. lia. Qed.

Lemma rank_lt_trans a b c : rank_lt a b → rank_lt b c → rank_lt a c.
Proof. unfold rank_lt. lia. Qed.

Lemma rank_total (a b : Z * Z * Z) : rank_lt a b ∨ a = b ∨ rank_lt b a.
Proof.
  destruct a as [[a1 a2] a3], b as [[b1 b2] b3]. unfold rank_lt. simpl.
  destruct (decide (a1 = b1)) as [->|]; [|lia].
  destruct (decide (a2 = b2)) as [->|]; [|lia].
  destruct (decide (a3 = b3)) as [->|]; [|lia]. by right; left.
Qed.

Lemma lt_rank x y :
  Float.lt x y = true ↔ ∃ a b, rank_of x = Some a ∧ rank_of y = Some b ∧ rank_lt a b.
Proof.
  unfold Float.lt, SFltb. split.
  - destruct (rank_of x) as [a|] eqn:Ex.
    2:{ apply rank_of_None in Ex as ->. by destruct y. }
    destruct (rank_of y) as [b|] eqn:Ey.
    2:{ apply rank_of_None in Ey as ->. by destruct x. }
    destruct (compare_rank x y a b Ex Ey) as [[-> H]|[[-> H]|[-> H]]]; [|done..].
    intros _. by exists a, b.
  - intros (a & b & Ex & Ey & Hlt).
    destruct (compare_rank x y a b Ex Ey) as [[-> H]|[[-> H]|[-> H]]]; [done|..].
    + subst. by apply rank_lt_irrefl in Hlt.
    + by apply rank_lt_asym in Hlt.
Qed.

Lemma le_rank x y :
  Float.le x y = true
  ↔ ∃ a b, rank_of x = Some a ∧ rank_of y = Some b ∧ (rank_lt a b ∨ a = b).
Proof.
  unfold Float.le, SFleb. split.
  - destruct (rank_of x) as [a|] eqn:Ex.
    2:{ apply rank_of_None in Ex as ->. by destruct y. }
    destruct (rank_of y) as [b|] eqn:Ey.
    2:{ apply rank_of_None in Ey as ->. by destruct x. }
    destruct (compare_rank x y a b Ex Ey) as [[-> H]|[[-> H]|[-> H]]]; [| |done].
    + intros _. exists a, b. auto.
    + intros _. exists a, b. auto.
  - intros (a & b & Ex & Ey & Hle).
    destruct (compare_rank x y a b Ex Ey) as [[-> H]|[[-> H]|[-> H]]]; [done..|].
    destruct Hle as [Hlt| ->].
    + by apply rank_lt_asym in Hlt.
    + by apply rank_lt_irrefl in H.
Qed.

Lemma eqb_rank x y :
  Float.eqb x y = true ↔ ∃ a, rank_of x = Some a ∧ rank_of y = Some a.
Proof.
  unfold Float.eqb, SFeqb. split.
  - destruct (rank_of x) as [a|] eqn:Ex.
    2:{ apply rank_of_None in Ex as ->. by destruct y. }
    destruct (rank_of y) as [b|] eqn:Ey.
    2:{ apply rank_of_None in Ey as ->. by destruct x. }
    destruct (compare_rank x y a b Ex Ey) as [[-> H]|[[-> H]|[-> H]]]; [done| |done].
    intros _. subst. by exists b.
  - intros (a & Ex & Ey).
    destruct (compare_rank x y a a Ex Ey) as [[-> H]|[[-> H]|[-> H]]]; [|done|];
      by apply rank_lt_irrefl in H.
Qed.




Lemma lt_eqb_r x y z : Float.eqb x y = true → Float.lt z x = Float.lt z y.
Proof.
  intros (a & Ex & Ey)%eqb_rank. apply eq_true_iff_eq. rewrite !lt_rank.
  split; intros (a' & b & ? & ? & ?); simplify_eq; by exists a', a.
Qed.

Lemma le_not_nan_l x y : Float.le x y = true → x ≠ Float.nan.
Proof. intros (a & b & Ex & _)%le_rank ->. done. Qed.

Lemma le_not_nan_r x y : Float.le x y = true → y ≠ Float.nan.
Proof. intros (a & b & _ & Ey & _)%le_rank ->. done. Qed.


Lemma nan_dec (x : pyfloat) : x = Float.nan ∨ x ≠ Float.nan.
Proof. destruct x; auto. Qed.

Lemma le_refl x : x ≠ Float.nan → Float.le x x = true.
Proof.
  intros Hx. destruct (rank_of x) as [a|] eqn:Ex; [|by apply rank_of_None in Ex].
  apply le_rank. exists a, a. auto.
Qed.

Lemma le_total x y :
  x ≠ Float.nan → y ≠ Float.nan → Float.le x y = false → Float.le y x = true.
Proof.
  intros Hx Hy Hle.
  destruct (rank_of x) as [a|] eqn:Ex; [|by apply rank_of_None in Ex].
  destruct (rank_of y) as [b|] eqn:Ey; [|by apply rank_of_None in Ey].
  apply le_rank. exists b, a. split; [done|]. split; [done|].
  destruct (rank_total a b) as [H|[H|H]]; [|auto..].
  apply not_true_iff_false in Hle. destruct Hle. apply le_rank. exists a, b. auto.
Qed.

Lemma le_trans x y z :
  Float.le x y = true → Float.le y z = true → Float.le x z = true.
Proof.
  intros (a & b & Ex & Ey & H1)%le_rank (b' & c & Ey' & Ez & H2)%le_rank.
  simplify_eq. apply le_rank. exists a, c. split; [done|]. split; [done|].
  destruct H1 as [H1| ->], H2 as [H2| ->]; auto.
  left. by eapply rank_lt_trans.
Qed.

Lemma eqb_refl x : x ≠ Float.nan → Float.eqb x x = true.
Proof.
  intros Hx. destruct (rank_of x) as [a|] eqn:Ex; [|by apply rank_of_None in Ex].
  apply eqb_rank. by exists a.
Qed.

(** ** Rounding gives a number *)

Lemma shr_1_nonneg mrs : 0 ≤ shr_m mrs → 0 ≤ shr_m (shr_1 mrs).
Proof. destruct mrs as [[|[p|p|]|[p|p|]] r s]; simpl; lia. Qed.

Lemma iter_shr_1_nonneg p mrs :
  0 ≤ shr_m mrs → 0 ≤ shr_m (SpecFloat.iter_pos shr_1 p mrs).
Proof.
  revert mrs. induction p as [p IH|p IH|]; intros mrs H; simpl.
  - by apply IH, IH, shr_1_nonneg.
  - by apply IH, IH.
  - by apply shr_1_nonneg.
Qed.

Lemma shr_fexp_nonneg m e l :
  0 ≤ m → 0 ≤ shr_m (shr_fexp Float.prec Float.emax m e l).1.
Proof.
  intros Hm. unfold shr_fexp, shr.
  assert (0 ≤ shr_m (shr_record_of_loc m l)) as H0 by (by destruct l as [|[]]).
  destruct (_ - e) as [|p|p]; simpl; [done| |done]. by apply iter_shr_1_nonneg.
Qed.

Lemma round_nearest_even_nonneg m l : 0 ≤ m → 0 ≤ round_nearest_even m l.
Proof.
  intros Hm. unfold round_nearest_even. destruct l as [|[]]; [done| |done|lia].
  destruct (Z.even m); lia.
Qed.

Lemma binary_round_aux_number s m e l :
  0 ≤ m → binary_round_aux Float.prec Float.emax s m e l ≠ Float.nan.
Proof.
  intros Hm. unfold binary_round_aux.
  pose proof (shr_fexp_nonneg m e l Hm) as H1.
  destruct (shr_fexp Float.prec Float.emax m e l) as [mrs' e'].
  pose proof (shr_fexp_nonneg _ e' loc_Exact
                (round_nearest_even_nonneg _ (loc_of_shr_record mrs') H1)) as H2.
  destruct (shr_fexp Float.prec Float.emax _ e' loc_Exact) as [mrs'' e''].
  simpl in H2. destruct (shr_m mrs'') as [|p|p]; [done| |lia].
  by destruct (_ <=? _).
Qed.

Lemma of_Z_number z : Float.of_Z z ≠ Float.nan.
Proof.
  unfold Float.of_Z, binary_normalize, binary_round.
  destruct z as [|p|p]; [done|..];
    destruct (shl_align _ _ _) as [mz ez]; by apply binary_round_aux_number.
Qed.

Lemma of_ratio_number s n d : Float.of_ratio s n d ≠ Float.nan.
Proof.
  unfold Float.of_ratio, SFdiv_core_binary.
  set (m' := match _ with Z0 => _ | Zpos _ => _ | Zneg _ => _ end).
  assert (0 ≤ m') as Hm'.
  { unfold m'. destruct (_ - _) as [|p|p]; [lia| |lia]. by apply Z.shiftl_nonneg. }
  pose proof (Z.div_eucl_eq m' (Zpos d) ltac:(done)) as Heq.
  pose proof (Z.mod_pos_bound m' (Zpos d) ltac:(done)) as Hr.
  unfold Z.modulo in Hr. destruct (Z.div_eucl m' (Zpos d)) as [q r].
  apply binary_round_aux_number. nia.
Qed.

Lemma of_Q_number s q : Float.of_Q s q ≠ Float.nan.
Proof.
  unfold Float.of_Q. destruct (Qnum q); [done|apply of_ratio_number..].
Qed.

Lemma in_range_number lo hi x :
  Float.le lo x && Float.le x hi = true → x ≠ Float.nan.
Proof. intros [H _]%andb_true_iff. by apply le_not_nan_r in H. Qed.

Section Properties.
Variable fmt_float : pyfloat → string.
Variable now : string.





End Properties.

Section Properties.
Variable fmt_float : pyfloat → string.
Variable now : string.

Lemma config_float_Some config key d x (f : Thresholds → pyfloat) t :
  config_float config key d = Some x → f t = x →
  resolved Parse.float config t (key, f, d).
Proof.
  unfold config_float, resolved. simpl. intros H <-.
  destruct (config !! key); congruence.
Qed.

Lemma config_float_None config key d (f : Thresholds → pyfloat) :
  config_float config key d = None → malformed Parse.float config (key, f, d).
Proof.
  unfold config_float, malformed. simpl. destruct (config !! key) as [s|]; [|done].
  intros H. by exists s.
Qed.

Lemma config_int_Some config key d x (f : Thresholds → Z) t :
  config_int config key d = Some x → f t = x →
  resolved Parse.int config t (key, f, d).
Proof.
  unfold config_int, resolved. simpl. intros H <-.
  destruct (config !! key); congruence.
Qed.

Lemma config_int_None config key d (f : Thresholds → Z) :
  config_int config key d = None → malformed Parse.int config (key, f, d).
Proof.
  unfold config_int, malformed. simpl. destruct (config !! key) as [s|]; [|done].
  intros H. by exists s.
Qed.

(** C2 (as amended): resolution succeeds exactly when no parameter that is
    present has a malformed value. When it succeeds, every absent parameter
    has its documented default and every present one the number its text
    reads as; when it fails, some present parameter is malformed. *)
Theorem resolve_thresholds_spec (config : gmap string string) :
  match resolve_thresholds config with
  | Some t =>
      Forall (resolved Parse.float config t) FLOAT_PARAMETERS ∧
      Forall (resolved Parse.int config t) INT_PARAMETERS
  | None =>
      Exists (malformed Parse.float config) FLOAT_PARAMETERS ∨
      Exists (malformed Parse.int config) INT_PARAMETERS
  end.
Proof.
  unfold resolve_thresholds, FLOAT_PARAMETERS, INT_PARAMETERS.
  destruct (config_float config "Exception Buffer PCT" _) eqn:E1; simpl;
    [|left; eauto 10 using config_float_None].
  destruct (config_float config "Exception Buffer CGPA" _) eqn:E2; simpl;
    [|left; eauto 10 using config_float_None].
  destruct (config_float config "Min Percentage" _) eqn:E3; simpl;
    [|left; eauto 10 using config_float_None].
  destruct (config_float config "Min CGPA" _) eqn:E4; simpl;
    [|left; eauto 10 using config_float_None].
  destruct (config_int config "Graduation Year Min" _) eqn:E5; simpl;
    [|right; eauto 10 using config_int_None].
  destruct (config_int config "Graduation Year Max" _) eqn:E6; simpl;
    [|right; eauto 10 using config_int_None].
  destruct (config_float config "Max Experience" _) eqn:E7; simpl;
    [|left; eauto 10 using config_float_None].
  destruct (config_float config "Min Test Score" _) eqn:E8; simpl;
    [|left; eauto 10 using config_float_None].
  split; repeat constructor;
    (eapply config_float_Some || eapply config_int_Some); eauto.
Qed.

End Properties.

Section Properties.
Variable fmt_float : pyfloat → string.
Variable now : string.


(** C6: a row that is not skipped goes to exactly one list. With a hard
    reason it is rejected: the text recorded under Rejection Reasons is the
    texts of the hard reasons, in their order, joined by "; ", no soft
    reason is part of it and no Exception Reason is added. With no hard
    reason and a soft one it goes to Exception, the texts of the soft
    reasons recorded in the same way, with status Pending. With neither it
    goes to Clean_Data. *)
Theorem disposition_precedence (t : Thresholds) (already_processed : gset string)
    (email_to_sheet_row : gmap string nat) (st : Loop) (row : Row) :
  row_email_of fmt_float row ∉ already_processed →
  let v := validate fmt_float t (seen_emails st) (seen_adhars st) row in
  let st' := loop_body fmt_float now t already_processed email_to_sheet_row st row in
  let row_dict := to_row_dict row in
  (hard_failures v ≠ [] →
     ∃ r, rejected_rows st' = rejected_rows st ++ [r] ∧
          clean_rows st' = clean_rows st ∧
          exception_rows st' = exception_rows st ∧
          r !! "Rejection Reasons"
            = Some (Text (Str.join "; " (render fmt_float <$> hard_failures v))) ∧
          r !! "Rejected At" = Some (Text now) ∧
          r !! "Exception Reason" = row !! "Exception Reason" ∧
          (∀ c, c ∉ ["Rejection Reasons"; "Rejected At"] → r !! c = row_dict !! c)) ∧
  (hard_failures v = [] → soft_failures v ≠ [] →
     ∃ r, exception_rows st' = exception_rows st ++ [r] ∧
          clean_rows st' = clean_rows st ∧
          rejected_rows st' = rejected_rows st ∧
          r !! "Exception Reason"
            = Some (Text (Str.join "; " (render fmt_float <$> soft_failures v))) ∧
          r !! "Status" = Some (Text "Pending") ∧
          r !! "Rejection Reasons" = row !! "Rejection Reasons") ∧
  (hard_failures v = [] → soft_failures v = [] →
     clean_rows st' = clean_rows st ++ [<["Processed At" := Text now]> row_dict] ∧
     rejected_rows st' = rejected_rows st ∧
     exception_rows st' = exception_rows st).
Proof.
  intros Hnew v st' row_dict. subst st'. unfold loop_body.
  rewrite bool_decide_eq_false_2 by done. fold v. fold row_dict.
  destruct (hard_failures v) as [|h hs] eqn:Eh, (soft_failures v) as [|s ss] eqn:Es;
    simpl; (split; [|split]); try done; intros; eexists; repeat split; try done.
  all: unfold rejected_row, exception_row, join_reasons, ts, row_dict, to_row_dict;
    try (by simplify_map_eq).
  all: intros c Hc; rewrite !elem_of_cons, elem_of_nil in Hc;
    rewrite !lookup_insert_ne by naive_solver; done.
Qed.

End Properties.

Section Properties.
Variable fmt_float : pyfloat → string.
Variable now : string.

(** ** The seen sets along the loop *)

Lemma validate_seen_emails t (se sa : gset string) row :
  seen_emails' (validate fmt_float t se sa row) = se ∪ {[row_email_of fmt_float row]}.
Proof.
  unfold validate.
  destruct (rule_duplicate_email se _) as [de se'] eqn:E, (rule_duplicate_adhar sa _),
    (rule_pct fmt_float t row), (rule_cgpa fmt_float t row). simpl.
  unfold rule_duplicate_email in E. case_bool_decide; simplify_eq; set_solver.
Qed.

Lemma validate_seen_adhars t (se sa : gset string) row :
  seen_adhars' (validate fmt_float t se sa row) = sa ∪ {[adhar_of fmt_float row]}.
Proof.
  unfold validate.
  destruct (rule_duplicate_email se _), (rule_duplicate_adhar sa _) as [da sa'] eqn:E,
    (rule_pct fmt_float t row), (rule_cgpa fmt_float t row). simpl.
  unfold rule_duplicate_adhar in E. case_bool_decide; simplify_eq; set_solver.
Qed.

Lemma hard_failures_elem t (se sa : gset string) row r :
  r ∈ hard_failures (validate fmt_float t se sa row) ↔
  r ∈ rule_mandatory fmt_float row ∨
  r ∈ rule_email_format (row_email_of fmt_float row) ∨
  r ∈ (rule_duplicate_email se (row_email_of fmt_float row)).1 ∨
  r ∈ rule_phone fmt_float row ∨
  r ∈ rule_adhar_format (adhar_of fmt_float row) ∨
  r ∈ (rule_duplicate_adhar sa (adhar_of fmt_float row)).1 ∨
  r ∈ (rule_pct fmt_float t row).1 ∨
  r ∈ (rule_cgpa fmt_float t row).1 ∨
  r ∈ rule_grad_year fmt_float t row ∨
  r ∈ rule_experience fmt_float t row.
Proof.
  unfold validate.
  destruct (rule_duplicate_email se _), (rule_duplicate_adhar sa _),
    (rule_pct fmt_float t row), (rule_cgpa fmt_float t row). simpl.
  by rewrite !elem_of_app.
Qed.

Lemma mandatory_elem row r :
  r ∈ rule_mandatory fmt_float row → ∃ field, r = Missing field.
Proof.
  unfold rule_mandatory. intros (f & _ & H)%list_elem_of_omap.
  case_match; simplify_eq. eauto.
Qed.

(** Rule 5 flags the national ID exactly when it is in [seen_adhars]. *)
Lemma duplicate_adhar_flagged t (se sa : gset string) row a :
  DuplicateAadhaar a ∈ hard_failures (validate fmt_float t se sa row) ↔
  a = adhar_of fmt_float row ∧ a ∈ sa.
Proof.
  rewrite hard_failures_elem. split.
  - intros [H|[H|[H|[H|[H|[H|[H|[H|[H|H]]]]]]]]].
    + by apply mandatory_elem in H as [? ?].
    + unfold rule_email_format in H. case_match; set_solver.
    + unfold rule_duplicate_email in H. case_match; set_solver.
    + unfold rule_phone in H. case_match; set_solver.
    + unfold rule_adhar_format in H. case_match; set_solver.
    + unfold rule_duplicate_adhar in H. case_bool_decide; set_solver.
    + unfold rule_pct in H. repeat case_match; set_solver.
    + unfold rule_cgpa in H. repeat case_match; set_solver.
    + unfold rule_grad_year in H. repeat case_match; set_solver.
    + unfold rule_experience in H. repeat case_match; set_solver.
  - intros [-> Hin]. do 5 right. left.
    unfold rule_duplicate_adhar. rewrite bool_decide_eq_true_2 by done. set_solver.
Qed.

(** Rule 3 flags the email exactly when it is in [seen_emails]. *)
Lemma duplicate_email_flagged t (se sa : gset string) row :
  row_email_of fmt_float row ∈ se →
  DuplicateEmail (row_email_of fmt_float row)
    ∈ hard_failures (validate fmt_float t se sa row).
Proof.
  intros Hin. rewrite hard_failures_elem. do 2 right. left.
  unfold rule_duplicate_email. rewrite bool_decide_eq_true_2 by done. set_solver.
Qed.

Lemma loop_body_skip t ap e2r st row :
  row_email_of fmt_float row ∈ ap → loop_body fmt_float now t ap e2r st row = st.
Proof. intros H. unfold loop_body. by rewrite bool_decide_eq_true_2. Qed.

Lemma loop_body_seen t ap e2r st row :
  row_email_of fmt_float row ∉ ap →
  let st' := loop_body fmt_float now t ap e2r st row in
  seen_emails st' = seen_emails st ∪ {[row_email_of fmt_float row]} ∧
  seen_adhars st' = seen_adhars st ∪ {[adhar_of fmt_float row]}.
Proof.
  intros H. unfold loop_body. rewrite bool_decide_eq_false_2 by done.
  rewrite <- (validate_seen_emails t (seen_emails st) (seen_adhars st) row).
  rewrite <- (validate_seen_adhars t (seen_emails st) (seen_adhars st) row).
  by repeat case_match.
Qed.

Lemma loop_seen_adhars t ap e2r rows st a :
  a ∈ seen_adhars (foldl (loop_body fmt_float now t ap e2r) st rows) ↔
  a ∈ seen_adhars st ∨
  ∃ r, r ∈ rows ∧ (row_email_of fmt_float r ∉ ap) ∧ adhar_of fmt_float r = a.
Proof.
  revert st. induction rows as [|row rows IH]; intros st; simpl.
  - set_solver.
  - rewrite IH. destruct (decide (row_email_of fmt_float row ∈ ap)) as [Hs|Hs].
    + rewrite loop_body_skip by done. set_solver.
    + destruct (loop_body_seen t ap e2r st row Hs) as [_ ->]. set_solver.
Qed.

Lemma seed_seen_adhars_elem existing a :
  a ∈ seed_seen_adhars fmt_float existing ↔
  ∃ existing_df, existing_df ∈ existing ∧ a ∈ adhar_column fmt_float existing_df.
Proof.
  unfold seed_seen_adhars.
  assert (∀ (s : gset string),
    a ∈ foldl (λ (seen : gset string) existing_df,
                 seen ∪ list_to_set (adhar_column fmt_float existing_df)) s existing
    ↔ (a ∈ s ∨ (∃ existing_df, existing_df ∈ existing
                 ∧ a ∈ adhar_column fmt_float existing_df))) as H.
  { induction existing as [|d l IH]; intros s; simpl; [set_solver|].
    rewrite IH. set_solver. }
  rewrite H. set_solver.
Qed.

Lemma classify_rows_app t values existing pre post :
  classify_rows fmt_float now t values existing (pre ++ post)
  = foldl (loop_body fmt_float now t (build_already_processed values)
             (build_email_to_sheet_row values))
          (classify_rows fmt_float now t values existing pre) post.
Proof. unfold classify_rows. by rewrite foldl_app. Qed.

(** C8 (as amended): a row that is not skipped is flagged Duplicate Aadhaar
    exactly when its national ID stands in the Adhar Number column of one of
    the persisted output tables or was given by an earlier row of the batch
    that was not skipped; after the row its ID is seen. *)
Theorem duplicate_adhar_rule (t : Thresholds) (all_raw_values : list (list string))
    (existing : list DataFrame) (pre post : list Row) (row : Row) :
  let already_processed := build_already_processed all_raw_values in
  let st := classify_rows fmt_float now t all_raw_values existing pre in
  row_email_of fmt_float row ∉ already_processed →
  classify_rows fmt_float now t all_raw_values existing (pre ++ row :: post)
    = foldl (loop_body fmt_float now t already_processed
               (build_email_to_sheet_row all_raw_values))
            (loop_body fmt_float now t already_processed
               (build_email_to_sheet_row all_raw_values) st row) post ∧
  (DuplicateAadhaar (adhar_of fmt_float row)
     ∈ hard_failures (validate fmt_float t (seen_emails st) (seen_adhars st) row)
   ↔ ((∃ existing_df, existing_df ∈ existing ∧
         adhar_of fmt_float row ∈ adhar_column fmt_float existing_df) ∨
      (∃ r, r ∈ pre ∧ (row_email_of fmt_float r ∉ already_processed) ∧
         adhar_of fmt_float r = adhar_of fmt_float row))) ∧
  adhar_of fmt_float row
    ∈ seen_adhars (loop_body fmt_float now t already_processed
                     (build_email_to_sheet_row all_raw_values) st row).
Proof.
  intros ap st Hnew. split; [|split].
  - by rewrite classify_rows_app.
  - rewrite duplicate_adhar_flagged. subst st. unfold classify_rows.
    rewrite loop_seen_adhars. simpl. rewrite seed_seen_adhars_elem. naive_solver.
  - destruct (loop_body_seen t ap (build_email_to_sheet_row all_raw_values) st row Hnew)
      as [_ ->]. set_solver.
Qed.

(** C10: when an earlier row of the batch, not skipped, had an empty
    national ID, a later row with an empty national ID that is not skipped
    gets both Duplicate Aadhaar and the missing Adhar Number failure, and is
    rejected. *)
Theorem empty_adhar_flagged_twice (t : Thresholds)
    (all_raw_values : list (list string)) (existing : list DataFrame)
    (pre post : list Row) (first row : Row) :
  let already_processed := build_already_processed all_raw_values in
  let st := classify_rows fmt_float now t all_raw_values existing pre in
  let v := validate fmt_float t (seen_emails st) (seen_adhars st) row in
  first ∈ pre →
  row_email_of fmt_float first ∉ already_processed →
  adhar_of fmt_float first = "" →
  row_email_of fmt_float row ∉ already_processed →
  adhar_of fmt_float row = "" →
  DuplicateAadhaar "" ∈ hard_failures v ∧
  Missing "Adhar Number" ∈ hard_failures v ∧
  ∃ r, rejected_rows (loop_body fmt_float now t already_processed
                        (build_email_to_sheet_row all_raw_values) st row)
       = rejected_rows st ++ [r].
Proof.
  intros ap st v Hin Hf Hfe Hr Hre.
  assert (DuplicateAadhaar "" ∈ hard_failures v) as Hd.
  { subst v. rewrite duplicate_adhar_flagged. split; [done|].
    subst st. unfold classify_rows. rewrite loop_seen_adhars. right. eauto. }
  split; [done|]. split.
  - subst v. rewrite hard_failures_elem. left.
    unfold rule_mandatory. apply list_elem_of_omap. exists "Adhar Number".
    split; [unfold MANDATORY_FIELDS; set_solver|].
    fold (adhar_of fmt_float row). by rewrite Hre.
  - unfold loop_body. rewrite bool_decide_eq_false_2 by done. fold v.
    destruct (hard_failures v); [by apply elem_of_nil in Hd|]. simpl. eauto.
Qed.

End Properties.

Section Properties.
Variable fmt_float : pyfloat → string.
Variable now : string.

(** ** The emails of the rows that are not rejected *)

Lemma clean_row_email row :
  row_email_of fmt_float (clean_row now (to_row_dict row)) = row_email_of fmt_float row.
Proof.
  unfold row_email_of, field_text, get, clean_row, to_row_dict.
  by simplify_map_eq.
Qed.

Lemma exception_row_email row soft :
  row_email_of fmt_float (exception_row fmt_float now (to_row_dict row) soft)
  = row_email_of fmt_float row.
Proof.
  unfold row_email_of, field_text, get, exception_row, to_row_dict.
  by simplify_map_eq.
Qed.

Lemma loop_body_kept t ap e2r st row :
  row_email_of fmt_float row ∉ ap →
  let st' := loop_body fmt_float now t ap e2r st row in
  kept_emails fmt_float st' = kept_emails fmt_float st ∨
  ((row_email_of fmt_float row ∉ seen_emails st) ∧
   kept_emails fmt_float st' ≡ₚ row_email_of fmt_float row :: kept_emails fmt_float st).
Proof.
  intros Hnew. unfold loop_body. rewrite bool_decide_eq_false_2 by done.
  set (v := validate fmt_float t (seen_emails st) (seen_adhars st) row).
  destruct (hard_failures v) as [|h hs] eqn:Eh; [|by left].
  assert (row_email_of fmt_float row ∉ seen_emails st) as Hfresh.
  { intros Hin. apply (duplicate_email_flagged fmt_float t _ (seen_adhars st)) in Hin.
    fold v in Hin. rewrite Eh in Hin. by apply elem_of_nil in Hin. }
  right. split; [done|]. unfold kept_emails.
  destruct (soft_failures v) as [|s ss]; simpl.
  - rewrite !fmap_app. simpl. rewrite clean_row_email. solve_Permutation.
  - rewrite !fmap_app. simpl. rewrite exception_row_email. solve_Permutation.
Qed.

Lemma loop_kept_invariant t ap e2r rows st :
  ap ⊆ seen_emails st →
  NoDup (kept_emails fmt_float st) →
  (∀ e, e ∈ kept_emails fmt_float st → e ∈ seen_emails st ∧ e ∉ ap) →
  let st' := foldl (loop_body fmt_float now t ap e2r) st rows in
  NoDup (kept_emails fmt_float st') ∧ ∀ e, e ∈ kept_emails fmt_float st' → e ∉ ap.
Proof.
  revert st. induction rows as [|row rows IH]; intros st Hap Hnd Hin; simpl.
  - naive_solver.
  - destruct (decide (row_email_of fmt_float row ∈ ap)) as [Hs|Hs].
    + rewrite loop_body_skip by done. by apply IH.
    + destruct (loop_body_seen fmt_float now t ap e2r st row Hs) as [Hse _].
      apply IH.
      * rewrite Hse. set_solver.
      * destruct (loop_body_kept t ap e2r st row Hs) as [->|[Hf Hp]]; [done|].
        rewrite Hp. apply NoDup_cons. split; [|done]. intros H. by apply Hin in H as [? ?].
      * intros e. rewrite Hse.
        destruct (loop_body_kept t ap e2r st row Hs) as [->|[Hf Hp]].
        -- intros H. apply Hin in H. set_solver.
        -- rewrite Hp, elem_of_cons. intros [->|H]; [set_solver|].
           apply Hin in H. set_solver.
Qed.

(** C3 (as amended): in one pass, the emails of the rows routed to
    Clean_Data and to Exception are pairwise distinct, and none of them was
    already processed. *)
Theorem kept_emails_distinct (t : Thresholds) (all_raw_values : list (list string))
    (existing : list DataFrame) (rows : list Row) :
  let st := classify_rows fmt_float now t all_raw_values existing rows in
  NoDup (row_email_of fmt_float <$> (clean_rows st ++ exception_rows st)) ∧
  ∀ e, e ∈ row_email_of fmt_float <$> (clean_rows st ++ exception_rows st) →
       e ∉ build_already_processed all_raw_values.
Proof.
  unfold classify_rows. apply loop_kept_invariant; simpl.
  - done.
  - apply NoDup_nil. done.
  - intros e H. by apply elem_of_nil in H.
Qed.

End Properties.

Lemma elem_of_List_filter {A} (f : A → bool) (l : list A) x :
  x ∈ List.filter f l ↔ x ∈ l ∧ f x = true.
Proof. by rewrite !list_elem_of_In, filter_In. Qed.

(** ** Sorting by score, larger first *)

Lemma sorts_before_refl a : sorts_before a a = true.
Proof.
  destruct (nan_dec a) as [->|Ha]; [done|].
  unfold sorts_before. rewrite le_refl by done. by destruct a.
Qed.

Lemma sorts_before_le a b :
  a ≠ Float.nan → b ≠ Float.nan → sorts_before a b = Float.le b a.
Proof. by destruct a, b. Qed.

Lemma sorts_before_nan_l b : b ≠ Float.nan → sorts_before Float.nan b = false.
Proof. by destruct b. Qed.

Lemma sorts_before_nan_r a : sorts_before a Float.nan = true.
Proof. by destruct a. Qed.

Lemma sorts_before_total a b : sorts_before a b = false → sorts_before b a = true.
Proof.
  destruct (nan_dec b) as [->|Hb]; [by rewrite sorts_before_nan_r|].
  destruct (nan_dec a) as [->|Ha]; [by rewrite sorts_before_nan_r|].
  rewrite !sorts_before_le by done. by apply le_total.
Qed.

Lemma sorts_before_trans a b c :
  sorts_before a b = true → sorts_before b c = true → sorts_before a c = true.
Proof.
  destruct (nan_dec c) as [->|Hc]; [by rewrite !sorts_before_nan_r|].
  destruct (nan_dec b) as [->|Hb]; [by rewrite (sorts_before_nan_l c)|].
  destruct (nan_dec a) as [->|Ha]; [by rewrite (sorts_before_nan_l b)|].
  rewrite !sorts_before_le by done. intros ? ?. by eapply le_trans.
Qed.

Section sorting.
Context (key : Row → pyfloat).


Lemma insert_sorted_perm r l : insert_sorted key r l ≡ₚ r :: l.
Proof.
  induction l as [|x l IH]; simpl; [done|].
  destruct (sorts_before (key x) (key r)); [|done].
  rewrite IH. apply Permutation_swap.
Qed.

Lemma insertion_sort_perm l : foldr (insert_sorted key) [] l ≡ₚ l.
Proof.
  induction l as [|x l IH]; simpl; [done|]. by rewrite insert_sorted_perm, IH.
Qed.

Lemma insert_sorted_sorted r l :
  StronglySorted (before key) l → StronglySorted (before key) (insert_sorted key r l).
Proof.
  induction l as [|x l IH]; simpl; intros Hs.
  - repeat constructor.
  - apply StronglySorted_inv in Hs as [Hs Hx].
    destruct (sorts_before (key x) (key r)) eqn:E.
    + apply SSorted_cons; [by apply IH|].
      rewrite insert_sorted_perm. by constructor.
    + apply sorts_before_total in E.
      apply SSorted_cons; [by apply SSorted_cons|].
      constructor; [done|].
      eapply Forall_impl; [exact Hx|]. intros y Hy.
      by eapply sorts_before_trans.
Qed.

Lemma insertion_sort_sorted l :
  StronglySorted (before key) (foldr (insert_sorted key) [] l).
Proof.
  induction l as [|x l IH]; simpl; [constructor|]. by apply insert_sorted_sorted.
Qed.

End sorting.

(** ** Keeping the first row of every key *)

Lemma key_eqb_refl v : notna v = true → key_eqb v v = true.
Proof.
  destruct v as [[s|z|x|z|x]|]; simpl; intros Hv; try done; unfold value_eqb; simpl.
  - unfold Str.eqb. by rewrite bool_decide_eq_true_2.
  - apply Z.eqb_refl.
  - apply eqb_refl. by destruct x.
  - apply Z.eqb_refl.
  - apply eqb_refl. by destruct x.
Qed.

Lemma same_value_refl v : same_value v v = true.
Proof.
  unfold same_value. destruct (notna v) eqn:E; [|by rewrite orb_true_r].
  by rewrite key_eqb_refl.
Qed.

Lemma key_eqb_text (v : option cell) s :
  key_eqb v (Some (Text s)) = true ↔ v = Some (Text s).
Proof.
  destruct v as [[u|z|x|z|x]|]; unfold key_eqb, value_eqb; simpl; split; try done.
  - unfold Str.eqb. intros ?%bool_decide_eq_true. congruence.
  - intros [= ->]. unfold Str.eqb. by apply bool_decide_eq_true.
Qed.

Lemma key_eqb_text_l (v : option cell) s :
  key_eqb (Some (Text s)) v = true ↔ v = Some (Text s).
Proof.
  destruct v as [[u|z|x|z|x]|]; unfold key_eqb, value_eqb; simpl; split; try done.
  - unfold Str.eqb. intros ?%bool_decide_eq_true. congruence.
  - intros [= ->]. unfold Str.eqb. by apply bool_decide_eq_true.
Qed.

Lemma same_value_text s v :
  same_value (Some (Text s)) v = true ↔ v = Some (Text s).
Proof.
  unfold same_value. change (notna (Some (Text s))) with true.
  rewrite andb_false_l, orb_false_r. apply key_eqb_text_l.
Qed.

Lemma same_value_text_r s v :
  same_value v (Some (Text s)) = true ↔ v = Some (Text s).
Proof.
  unfold same_value. change (notna (Some (Text s))) with true.
  rewrite andb_false_r, orb_false_r. apply key_eqb_text.
Qed.

Section dedup.
Context (col : string) (R : relation Row).

Lemma drop_duplicates_go_elem kept l r :
  r ∈ drop_duplicates_go col kept l → r ∈ l.
Proof.
  revert kept. induction l as [|x l IH]; intros kept; simpl; [done|].
  destruct (existsb _ kept); [|rewrite elem_of_cons; intros [->|H]]; set_solver.
Qed.

Lemma drop_duplicates_go_fresh kept l r k :
  r ∈ drop_duplicates_go col kept l → k ∈ kept →
  same_value (k !! col) (r !! col) = false.
Proof.
  revert kept. induction l as [|x l IH]; intros kept; simpl; [by intros ?%elem_of_nil|].
  destruct (existsb _ kept) eqn:E; [by apply IH|].
  rewrite elem_of_cons. intros [->|H] Hk.
  - apply not_true_iff_false. intros Hs.
    apply not_true_iff_false in E. apply E, existsb_exists.
    exists k. by rewrite <- list_elem_of_In.
  - eapply IH; [done|]. set_solver.
Qed.

Lemma drop_duplicates_go_sorted kept l :
  StronglySorted R l → StronglySorted R (drop_duplicates_go col kept l).
Proof.
  revert kept. induction l as [|x l IH]; intros kept; simpl; [done|].
  intros [Hs Hx]%StronglySorted_inv.
  destruct (existsb _ kept); [by apply IH|].
  apply SSorted_cons; [by apply IH|].
  apply Forall_forall. intros y Hy%drop_duplicates_go_elem.
  by eapply Forall_forall in Hx.
Qed.

(** The kept rows have pairwise different keys. *)
Lemma drop_duplicates_go_distinct kept l :
  StronglySorted (λ a b, same_value (a !! col) (b !! col) = false)
                 (drop_duplicates_go col kept l).
Proof.
  revert kept. induction l as [|x l IH]; intros kept; simpl; [constructor|].
  destruct (existsb _ kept); [by apply IH|].
  apply SSorted_cons; [by apply IH|].
  apply Forall_forall. intros y Hy.
  eapply drop_duplicates_go_fresh; [done|]. set_solver.
Qed.

(** Every row has its key kept, by a row that does not come after it. *)
Lemma drop_duplicates_go_covers kept l r :
  Reflexive R → StronglySorted R l →
  (∀ k y, k ∈ kept → y ∈ l → R k y) →
  r ∈ l →
  ∃ r', (r' ∈ kept ∨ r' ∈ drop_duplicates_go col kept l) ∧
        same_value (r' !! col) (r !! col) = true ∧ R r' r.
Proof.
  intros Hrefl. revert kept. induction l as [|x l IH]; intros kept; simpl.
  { by intros _ _ ?%elem_of_nil. }
  intros [Hs Hx]%StronglySorted_inv Hk. rewrite elem_of_cons. intros [->|Hr].
  - destruct (existsb _ kept) eqn:E.
    + apply existsb_exists in E as (k & Hin & Hsame).
      apply list_elem_of_In in Hin. exists k. split; [by left|].
      split; [done|]. apply Hk; set_solver.
    + exists x. split; [right; set_solver|]. split; [apply same_value_refl|done].
  - destruct (existsb _ kept) eqn:E.
    + apply IH; [done| |done]. intros k y ? ?. apply Hk; set_solver.
    + destruct (IH (x :: kept)) as (r' & Hr' & Hsame & HR); [done| |done|].
      * intros k y [->|?]%elem_of_cons Hy.
        -- by eapply Forall_forall in Hx.
        -- apply Hk; set_solver.
      * exists r'. split; [|done]. set_solver.
Qed.

End dedup.

Section Properties.
Variable fmt_float : pyfloat → string.
Variable now : string.

Lemma valid_score_number r : valid_score r = true → score_of r ≠ Float.nan.
Proof. unfold valid_score, Float.between, score_of. apply in_range_number. Qed.

Lemma invalid_is_not_valid r : invalid_score r = negb (valid_score r).
Proof.
  unfold invalid_score. destruct (Float.is_nan _) eqn:E; [|done].
  unfold valid_score. by destruct (to_numeric _).
Qed.

Lemma assign_column_records col f d d' :
  assign_column col f d = Some d' →
  columns d' = columns d ∧
  records d' = (λ r : Row, <[col := f (r !! col)]> r) <$> records d.
Proof. unfold assign_column. case_match; [|done]. by intros [= <-]. Qed.

(** The number of an entry is the same in every dtype. *)
Lemma to_number_unboxed v : unbox (to_number v) = to_number v.
Proof.
  destruct v as [[s|z|x|z|x]|]; simpl; try done.
  by destruct (Parse.number s) as [[z|x]|].
Qed.

Lemma to_numeric_as_dtype d v :
  to_numeric (Some (as_dtype d (to_number v))) = to_numeric v.
Proof.
  unfold to_numeric at 2.
  destruct v as [[s|z|x|z|x]|]; simpl; [|by destruct d..].
  destruct (Parse.number s) as [[z|x]|]; by destruct d.
Qed.

Lemma to_numeric_promote c : to_numeric (Some (promote c)) = to_numeric (Some c).
Proof. by destruct c. Qed.

Lemma notna_promote c : notna (Some (promote c)) = notna (Some c).
Proof.
  destruct c as [s|z|x|z|x]; simpl; try done.
  pose proof (of_Z_number z). by destruct (Float.of_Z z).
Qed.

Lemma to_numeric_column_records col d d' :
  to_numeric_column col d = Some d' →
  columns d' = columns d ∧
  ∃ dt, records d'
        = (λ r : Row, <[col := as_dtype dt (to_number (r !! col))]> r) <$> records d.
Proof.
  unfold to_numeric_column. case_match; [|done]. intros [= <-]. split; [done|].
  simpl. eauto.
Qed.

Lemma valid_records test_df numeric valid :
  numeric_scores test_df = Some numeric →
  valid_scores fmt_float numeric = Some valid →
  (∀ v, v ∈ records valid →
     ∃ r, r ∈ records test_df ∧ from_row fmt_float "Email ID" r v) ∧
  (∀ r, r ∈ records test_df → valid_score r = true →
     ∃ v, v ∈ records valid ∧ from_row fmt_float "Email ID" r v).
Proof.
  intros [_ [dt Hn]]%to_numeric_column_records [_ Hv]%assign_column_records.
  simpl in Hv. rewrite Hv, Hn. clear Hv Hn.
  assert (∀ r : Row,
    valid_score (<["Test Score" := as_dtype dt (to_number (r !! "Test Score"))]> r)
    = valid_score r) as Hvs.
  { intros r. unfold valid_score. rewrite lookup_insert_eq.
    by rewrite to_numeric_as_dtype. }
  split.
  - intros v (n & -> & Hin)%list_elem_of_fmap.
    apply elem_of_List_filter in Hin as [(r & -> & Hr)%list_elem_of_fmap Hval].
    exists r. split; [done|]. rewrite Hvs in Hval.
    unfold from_row, ident_of, score_of, lower_strip.
    rewrite lookup_insert_eq, !lookup_insert_ne, lookup_insert_eq by done.
    by rewrite to_numeric_as_dtype.
  - intros r Hr Hval. eexists. split.
    + apply list_elem_of_fmap. eexists. split; [done|].
      apply elem_of_List_filter. split; [apply list_elem_of_fmap; eauto|].
      by rewrite Hvs.
    + unfold from_row, ident_of, score_of, lower_strip.
      rewrite lookup_insert_eq, !lookup_insert_ne, lookup_insert_eq by done.
      by rewrite to_numeric_as_dtype.
Qed.

Lemma select_from_row r v :
  from_row fmt_float "Email ID" r v →
  from_row fmt_float "Email ID" r
    (list_to_map (omap (λ c, (λ x, (c, x)) <$> v !! c) ["Email ID"; "Test Score"])).
Proof.
  intros (Hv & He & Hs). unfold from_row. simpl. rewrite He. simpl.
  split; [done|]. split; [by simplify_map_eq|].
  rewrite <-Hs. f_equal. destruct (v !! "Test Score"); by simplify_map_eq.
Qed.

Lemma rename_from_row r x :
  from_row fmt_float "Email ID" r x →
  from_row fmt_float "Email Address" r
    (match x !! "Email ID" with
     | Some v => <["Email Address" := v]> (delete "Email ID" x)
     | None => x
     end).
Proof.
  intros (Hv & He & Hs). unfold from_row. rewrite He.
  rewrite lookup_insert_eq, lookup_insert_ne, lookup_delete_ne by done. done.
Qed.

Lemma distinct_NoDup {A B} (f : A → B) (l : list A) :
  StronglySorted (λ a b, f a ≠ f b) l → NoDup (f <$> l).
Proof.
  induction l as [|x l IH]; simpl; [constructor|].
  intros [Hs Hx]%StronglySorted_inv. apply NoDup_cons. split; [|by apply IH].
  intros (y & Hxy & Hy)%list_elem_of_fmap.
  rewrite Forall_forall in Hx. by apply (Hx y Hy).
Qed.

Lemma StronglySorted_impl {A} (R S : relation A) (l : list A) :
  (∀ a b, a ∈ l → b ∈ l → R a b → S a b) →
  StronglySorted R l → StronglySorted S l.
Proof.
  induction l as [|x l IH]; intros HRS; [constructor|].
  intros [Hs Hx]%StronglySorted_inv. apply SSorted_cons.
  - apply IH; [|done]. intros a b ? ?. apply HRS; set_solver.
  - apply Forall_forall. intros y Hy. apply HRS; [set_solver..|].
    by eapply Forall_forall in Hx.
Qed.

Lemma test_slim_records valid :
  records (build_test_slim valid)
  = (λ r : Row,
       match r !! "Email ID" with
       | Some v => <["Email Address" := v]> (delete "Email ID" r)
       | None => r
       end) <$> slim_rows valid.
Proof. done. Qed.

Lemma slim_rows_from test_df numeric valid x :
  numeric_scores test_df = Some numeric →
  valid_scores fmt_float numeric = Some valid →
  x ∈ slim_rows valid → ∃ r, r ∈ records test_df ∧ from_row fmt_float "Email ID" r x.
Proof.
  intros Hn Hv Hx. destruct (valid_records _ _ _ Hn Hv) as [H1 _].
  apply drop_duplicates_go_elem in Hx. rewrite insertion_sort_perm in Hx.
  apply list_elem_of_fmap in Hx as (v & -> & Hin).
  destruct (H1 v Hin) as (r & Hr & Hf). exists r. split; [done|].
  by apply select_from_row.
Qed.

Lemma slim_rows_max test_df numeric valid r :
  numeric_scores test_df = Some numeric →
  valid_scores fmt_float numeric = Some valid →
  r ∈ records test_df → valid_score r = true →
  ∃ x, x ∈ slim_rows valid ∧ x !! "Email ID" = Some (Text (ident_of fmt_float r)) ∧
       Float.le (score_of r) (to_numeric (x !! "Test Score")) = true.
Proof.
  intros Hn Hv Hr Hval. destruct (valid_records _ _ _ Hn Hv) as [_ H2].
  destruct (H2 r Hr Hval) as (v & Hin & Hf%select_from_row).
  set (key := λ r : Row, to_numeric (r !! "Test Score")).
  set (sel := λ r : Row,
         list_to_map (omap (λ c, (λ v, (c, v)) <$> r !! c) ["Email ID"; "Test Score"])
         : Row) in *.
  destruct (drop_duplicates_go_covers "Email ID" (before key) []
              (foldr (insert_sorted key) [] (sel <$> records valid)) (sel v))
    as (x & [Hx|Hx] & Hsame & Hbefore).
  - intros a. apply sorts_before_refl.
  - apply (insertion_sort_sorted key).
  - intros k y Hk. by apply elem_of_nil in Hk.
  - rewrite insertion_sort_perm. apply list_elem_of_fmap. eauto.
  - by apply elem_of_nil in Hx.
  - exists x. split; [exact Hx|].
    destruct Hf as (_ & He & Hs). unfold sel in Hsame, Hbefore, He, Hs.
    cbv beta in Hsame, Hbefore, He, Hs. rewrite He in Hsame.
    destruct (x !! "Email ID") as [c|] eqn:Ex.
    2:{ unfold same_value in Hsame. simpl in Hsame. done. }
    assert (Some (Text (ident_of fmt_float r)) = Some c) as <-.
    { apply same_value_text_r in Hsame. congruence. }
    split; [done|].
    unfold before, key in Hbefore. rewrite Hs in Hbefore.
    pose proof (valid_score_number r Hval) as Hq.
    destruct (slim_rows_from _ _ _ x Hn Hv Hx) as (r' & _ & Hv' & _ & Hs').
    pose proof (valid_score_number r' Hv') as Hq'.
    rewrite Hs' in Hbefore |- *. by rewrite sorts_before_le in Hbefore.
Qed.

Lemma slim_rows_NoDup test_df numeric valid :
  numeric_scores test_df = Some numeric →
  valid_scores fmt_float numeric = Some valid →
  NoDup ((λ x : Row, x !! "Email ID") <$> slim_rows valid).
Proof.
  intros Hn Hv. apply distinct_NoDup.
  eapply StronglySorted_impl; [|apply drop_duplicates_go_distinct].
  intros a b Ha Hb Hab Heq. simpl in Hab. rewrite Heq, same_value_refl in Hab. done.
Qed.

End Properties.

(** ** What a computation leaves as it was *)

Section keeps.
Context (allowed : Exn → bool).
Context (allowed_Exception : ∀ e, is_Exception e = true → allowed e = true).
Context (P : relation World) `{!Reflexive P, !Transitive P}.





Lemma keeps_try_except {A} (body : M A) handler :
  keeps allowed P body → (∀ e h, handler e = Some h → keeps allowed P h) →
  keeps allowed P (try_except body handler).
Proof.
  intros Hb Hh w. unfold try_except. destruct (Hb w) as [H1 H2].
  destruct (body w) as [[a|e] w1]; simpl in *; [done|].
  destruct (handler e) as [h|] eqn:E; simpl.
  - destruct (Hh e h E w1) as [H3 H4]. split; [by etrans|done].
  - split; [done|]. intros ? [= <-]. by apply H2.
Qed.



Lemma keeps_worksheet sid tab : keeps allowed P (worksheet sid tab).
Proof.
  intros w. unfold worksheet. destruct (sheets w !! (sid, tab)); simpl.
  - split; [reflexivity|done].
  - split; [reflexivity|]. intros ? [= <-]. by apply allowed_Exception.
Qed.

End keeps.

(** A handled step ends normally. *)
Lemma try_except_Ok (P : relation World) {A} (body : M A) handler w :
  keeps is_Exception P body →
  (∀ e, is_Exception e = true →
        ∃ h, handler e = Some h ∧ ∀ w', ∃ a, (h w').1 = Ok a) →
  ∃ a, (try_except body handler w).1 = Ok a.
Proof.
  intros Hb Hh. unfold try_except. destruct (Hb w) as [_ H2].
  destruct (body w) as [[a|e] w1]; simpl in *; [eauto|].
  destruct (Hh e (H2 e eq_refl)) as (h & -> & Hok). apply Hok.
Qed.

Global Instance same_sheet_refl key : Reflexive (same_sheet key).
Proof. intros w. by unfold same_sheet. Qed.
Global Instance same_sheet_trans key : Transitive (same_sheet key).
Proof. intros w1 w2 w3. unfold same_sheet. congruence. Qed.

Global Instance errors_grow_refl : Reflexive errors_grow.
Proof. intros w. by unfold errors_grow. Qed.
Global Instance errors_grow_trans : Transitive errors_grow.
Proof. intros w1 w2 w3 H1 H2. unfold errors_grow in *. by etrans. Qed.



Lemma errors_grow_write allowed ws g : keeps allowed errors_grow (write_grid ws g).
Proof. intros w. split; [|done]. by unfold errors_grow. Qed.

Lemma errors_grow_modify_run allowed f :
  (∀ r, errors r `prefix_of` errors (f r)) →
  keeps allowed errors_grow (modify_run f).
Proof. intros Hf w. split; [apply Hf|done]. Qed.


Section Properties.
Variable fmt_float : pyfloat → string.
Variable now : string.

Lemma get_sheet_df_spec sheet_id tab w :
  get_sheet_df sheet_id tab w = (Ok (frame_at w sheet_id tab), w).
Proof.
  unfold get_sheet_df, try_except, bind, worksheet, ws_get_all_records, bind,
    read_grid, lift, frame_at, on_Exception.
  destruct (sheets w !! (sheet_id, tab)) as [g|] eqn:E; simpl; [|done].
  rewrite E. simpl. by destruct (get_all_records g).
Qed.

Lemma get_sheet_emails_spec sheet_id tab col w :
  get_sheet_emails fmt_float sheet_id tab col w
  = (Ok (emails_of_frame fmt_float col (frame_at w sheet_id tab)), w).
Proof.
  unfold get_sheet_emails, try_except, bind, worksheet, ws_get_all_records, bind,
    read_grid, lift, frame_at, on_Exception.
  destruct (sheets w !! (sheet_id, tab)) as [g|] eqn:E; simpl; [|done].
  rewrite E. simpl. by destruct (get_all_records g).
Qed.

Section keeps_steps.
Context (allowed : Exn → bool).
Context (allowed_Exception : ∀ e, is_Exception e = true → allowed e = true).
Context (P : relation World) `{!Reflexive P, !Transitive P}.
(** The worksheets [P] lets a computation write, and the changes of [run]
    it allows. *)
Context (writable : Ws → Prop).
Context (P_write : ∀ ws g, writable ws → keeps allowed P (write_grid ws g)).
Context (P_run : ∀ f, (∀ r, errors r `prefix_of` errors (f r)) →
                      keeps allowed P (modify_run f)).













Lemma prefix_set_raw_rows_read n r : errors r `prefix_of` errors (set_raw_rows_read n r).
Proof. done. Qed.
Lemma prefix_set_written a b c r : errors r `prefix_of` errors (set_written a b c r).
Proof. done. Qed.
Lemma prefix_set_exceptions_approved n r :
  errors r `prefix_of` errors (set_exceptions_approved n r).
Proof. done. Qed.
Lemma prefix_set_interview a b c r : errors r `prefix_of` errors (set_interview a b c r).
Proof. done. Qed.
Lemma prefix_set_end a b r : errors r `prefix_of` errors (set_end a b r).
Proof. done. Qed.










End keeps_steps.

End Properties.

Lemma bind_Ok {A B} (m : M A) (k : A → M B) w b w' :
  bind m k w = (Ok b, w') → ∃ a w1, m w = (Ok a, w1) ∧ k a w1 = (Ok b, w').
Proof. unfold bind. destruct (m w) as [[a|e] w1]; [eauto|done]. Qed.

Lemma worksheet_Ok sheet_id tab w ws w1 :
  worksheet sheet_id tab w = (Ok ws, w1) →
  ws = (sheet_id, tab) ∧ w1 = w ∧ is_Some (sheets w !! (sheet_id, tab)).
Proof.
  unfold worksheet. destruct (sheets w !! (sheet_id, tab)) eqn:E; [|done].
  intros [= <- <-]. eauto.
Qed.

Lemma lift_Ok {A} (o : option A) e w a w1 :
  lift o e w = (Ok a, w1) → o = Some a ∧ w1 = w.
Proof. destruct o; simpl; [|done]. unfold ret. by intros [= <- <-]. Qed.

Lemma overlay_nil values : overlay values [] = values.
Proof. induction values as [|v l IH]; simpl; [done|]. by rewrite IH. Qed.

Section Properties.
Variable fmt_float : pyfloat → string.
Variable now : string.



Section guarded.
Context (allowed : Exn → bool).
Context (allowed_Exception : ∀ e, is_Exception e = true → allowed e = true).







End guarded.






End Properties.

Section Properties.
Variable fmt_float : pyfloat → string.
Variable now : string.

Lemma has_status_with_status (r : Row) :
  has_status "approved" (<["Status" := lower_strip fmt_float (r !! "Status")]> r)
  = is_approved fmt_float r.
Proof. unfold has_status. by rewrite lookup_insert_eq. Qed.

Lemma remaining_records live_ex_df (r' : Row) :
  r' ∈ records (remaining_of (with_status fmt_float live_ex_df)) ↔
  ∃ r, r ∈ records live_ex_df ∧ is_approved fmt_float r = false ∧
       r' = <["Status" := lower_strip fmt_float (r !! "Status")]> r.
Proof.
  unfold remaining_of, with_status. simpl.
  rewrite elem_of_List_filter, list_elem_of_fmap. split.
  - intros [(r & -> & Hr) H]. exists r. rewrite has_status_with_status in H.
    by apply negb_true_iff in H.
  - intros (r & Hr & Ha & ->). split; [eauto|].
    rewrite has_status_with_status. by apply negb_true_iff.
Qed.

Lemma assign_status live_ex_df :
  has_column "Status" live_ex_df = true →
  assign_column "Status" (lower_strip fmt_float) live_ex_df
  = Some (with_status fmt_float live_ex_df).
Proof. unfold assign_column. by intros ->. Qed.

Lemma df_empty_false df (r : Row) c :
  r ∈ records df → c ∈ columns df → df_empty df = false.
Proof.
  unfold df_empty. intros Hr Hc.
  destruct (columns df); [by apply elem_of_nil in Hc|].
  destruct (records df); [by apply elem_of_nil in Hr|done].
Qed.

Lemma List_filter_nil {A} (f : A → bool) (l : list A) :
  (∀ x, x ∈ l → f x = false) → List.filter f l = [].
Proof.
  induction l as [|x l IH]; simpl; [done|]. intros H.
  rewrite (H x) by set_solver. apply IH. intros y Hy. apply H. set_solver.
Qed.

Lemma df_empty_no_records df : records df = [] → df_empty df = true.
Proof. unfold df_empty. intros ->. by destruct (columns df). Qed.

Lemma approved_records live_ex_df (r : Row) :
  r ∈ records live_ex_df → is_approved fmt_float r = true →
  <["Status" := lower_strip fmt_float (r !! "Status")]> r
    ∈ records (filter_rows (has_status "approved") (with_status fmt_float live_ex_df)).
Proof.
  intros Hr Ha. simpl. apply elem_of_List_filter.
  split; [apply list_elem_of_fmap; eauto|]. by rewrite has_status_with_status.
Qed.

Lemma email_after_status (r : Row) :
  lower_strip fmt_float
    ((<["Status" := lower_strip fmt_float (r !! "Status")]> r) !! "Email Address")
  = Text (email_norm fmt_float r).
Proof. unfold lower_strip, email_norm. by rewrite lookup_insert_ne. Qed.

(** C5 (as amended): the Exception sheet has a Status column and an approved
    row. If some approved row has an email that Clean_Data does not hold, a
    STEP 3 that ends normally leaves in the Exception sheet exactly the rows
    that are not approved, their status standardised. If every approved
    email is already in Clean_Data, STEP 3 writes no sheet at all, so the
    approved rows stay. The remaining rows are the rows of the sheet that
    are not approved. *)
Theorem approved_rows_removed (s1 : Step1) (s2 : Step2) (w : World) :
  let live_ex_df := frame_at w OUTPUT_SHEET_ID EXCEPTION_TAB in
  let live_clean_emails :=
    emails_of_frame fmt_float "Email Address" (frame_at w OUTPUT_SHEET_ID CLEAN_TAB) in
  has_column "Status" live_ex_df = true →
  (∃ r, r ∈ records live_ex_df ∧ is_approved fmt_float r = true) →
  ((∃ r, r ∈ records live_ex_df ∧ is_approved fmt_float r = true ∧
         email_norm fmt_float r ∉ live_clean_emails) →
   ∀ w', step3_body fmt_float now s1 s2 w = (Ok tt, w') →
         sheets w' !! (OUTPUT_SHEET_ID, EXCEPTION_TAB)
           = Some (rewritten_exception_sheet fmt_float live_ex_df)) ∧
  ((∀ r, r ∈ records live_ex_df → is_approved fmt_float r = true →
         email_norm fmt_float r ∈ live_clean_emails) →
   sheets (step3 fmt_float now s1 s2 w).2 = sheets w) ∧
  (∀ r' : Row, r' ∈ records (remaining_of (with_status fmt_float live_ex_df)) ↔
     ∃ r, r ∈ records live_ex_df ∧ is_approved fmt_float r = false ∧
          r' = <["Status" := lower_strip fmt_float (r !! "Status")]> r).
Proof.
  intros live_ex_df live_clean_emails Hstatus (r0 & Hr0 & Ha0).
  assert (df_empty live_ex_df = false) as Hne.
  { eapply df_empty_false; [done|]. unfold has_column in Hstatus.
    by apply bool_decide_eq_true in Hstatus. }
  assert (df_empty (filter_rows (has_status "approved") (with_status fmt_float live_ex_df))
          = false) as Hap.
  { eapply df_empty_false; [by apply approved_records|].
    simpl. unfold has_column in Hstatus. by apply bool_decide_eq_true in Hstatus. }
  split; [|split].
  - intros (r & Hr & Ha & Hnew) w' H. unfold step3_body in H.
    apply bind_Ok in H as (d & w1 & Hd & H).
    rewrite get_sheet_df_spec in Hd. injection Hd as <- <-.
    fold live_ex_df in H. rewrite Hne, Hstatus in H. simpl in H.
    apply bind_Ok in H as (d & w1 & Hd & H). apply lift_Ok in Hd as [Hd ->].
    rewrite assign_status in Hd by done. injection Hd as <-.
    rewrite Hap in H. simpl in H.
    apply bind_Ok in H as (em & w1 & Hem & H).
    rewrite get_sheet_emails_spec in Hem. injection Hem as <- <-.
    apply bind_Ok in H as (ap & w1 & Hd & H). apply lift_Ok in Hd as [Hd ->].
    apply assign_column_records in Hd as [Hcols Hrecs].
    fold live_clean_emails in H.
    assert (df_empty (filter_rows
                (λ r, negb (isin (r !! "Email Address") live_clean_emails)) ap)
            = false) as Htn.
    { eapply df_empty_false with (c := "Status").
      - simpl. apply elem_of_List_filter. split.
        + rewrite Hrecs. apply list_elem_of_fmap. eexists. split; [done|].
          by apply approved_records.
        + rewrite lookup_insert_eq, email_after_status. simpl.
          by rewrite bool_decide_eq_false_2.
      - simpl. rewrite Hcols. simpl. unfold has_column in Hstatus.
        by apply bool_decide_eq_true in Hstatus. }
    rewrite Htn in H. simpl in H.
    do 3 apply bind_Ok in H as (? & ? & _ & H).
    apply bind_Ok in H as (ws & ? & Hws & H). clear Hws.
    do 3 apply bind_Ok in H as (? & ? & _ & H).
    apply bind_Ok in H as (ws_ex & wk & Hws & H).
    apply worksheet_Ok in Hws as (-> & -> & _).
    apply bind_Ok in H as ([] & wc & Hc & H).
    unfold ws_clear, write_grid in Hc. injection Hc as <-.
    unfold rewritten_exception_sheet.
    destruct (df_empty (remaining_of (with_status fmt_float live_ex_df))); simpl in H.
    + unfold ret in H. injection H as <-. simpl. by rewrite lookup_insert_eq.
    + unfold ws_update, bind, read_grid, write_grid in H. simpl in H.
      injection H as <-. simpl. rewrite !lookup_insert_eq. simpl.
      by rewrite overlay_nil.
  - intros Hall. unfold step3, try_except, step3_body, bind.
    rewrite get_sheet_df_spec. fold live_ex_df. rewrite Hne, Hstatus. simpl.
    rewrite assign_status by done. simpl. rewrite Hap. simpl.
    rewrite get_sheet_emails_spec. fold live_clean_emails.
    destruct (assign_column "Email Address" _ _) as [ap|] eqn:Eap; simpl; [|done].
    apply assign_column_records in Eap as [Hcols Hrecs].
    rewrite df_empty_no_records; [done|].
    simpl. rewrite Hrecs. apply List_filter_nil.
    intros x (r1 & -> & Hr1)%list_elem_of_fmap.
    simpl in Hr1. apply elem_of_List_filter in Hr1 as [Hr1 Hs].
    apply list_elem_of_fmap in Hr1 as (r & -> & Hr).
    rewrite has_status_with_status in Hs.
    rewrite lookup_insert_eq, email_after_status. simpl.
    rewrite bool_decide_eq_true_2; [done|]. by apply Hall.
  - apply remaining_records.
Qed.

End Properties.

(** ** The frames read from a worksheet *)

Lemma elem_of_flat_map {A B} (f : A → list B) (l : list A) y :
  y ∈ flat_map f l ↔ ∃ x, x ∈ l ∧ y ∈ f x.
Proof.
  rewrite list_elem_of_In, in_flat_map. split; intros (x & H1 & H2); exists x;
    by rewrite ?list_elem_of_In in *.
Qed.

Lemma flat_map_singletons {A B} (f : A → list B) (g : A → B) (l : list A) :
  (∀ x, x ∈ l → f x = [g x]) → flat_map f l = g <$> l.
Proof.
  induction l as [|x l IH]; intros H; simpl; [done|].
  rewrite (H x) by set_solver. simpl. f_equal. apply IH. intros; apply H; set_solver.
Qed.

Lemma infer_objects_lookup (rows : list Row) (r : Row) c :
  (map_imap (λ c v, Some (as_dtype (infer_dtype (column c rows)) v)) r : Row) !! c
  = as_dtype (infer_dtype (column c rows)) <$> r !! c.
Proof. rewrite map_lookup_imap. by destruct (r !! c). Qed.


Lemma length_infer_objects rows : length (infer_objects rows) = length rows.
Proof. unfold infer_objects. by rewrite length_fmap. Qed.

Lemma record_keys (header : list string) (vals : list cell) c :
  is_Some ((list_to_map (zip header vals) : Row) !! c) → c ∈ header.
Proof.
  intros [v Hv]. apply elem_of_list_to_map_2 in Hv.
  by apply elem_of_zip_l in Hv.
Qed.

Lemma DataFrame_of_well_formed g data :
  get_all_records g = Some data → well_formed (DataFrame_of data).
Proof.
  unfold get_all_records. intros Hdata r c Hr Hc.
  destruct (get_all_values g) as [|header [|row rows]]; simplify_eq;
    [by apply elem_of_nil in Hr..|].
  destruct (bool_decide (NoDup header)); [|done]. simplify_eq.
  unfold DataFrame_of in *. cbn [fst snd fmap list_fmap records columns] in *.
  apply list_elem_of_fmap in Hr as (r0 & -> & Hr0).
  rewrite infer_objects_lookup in Hc. apply fmap_is_Some in Hc.
  change (r0 ∈ (λ r, list_to_map (zip header (numericise <$> r)) : Row) <$> (row :: rows))
    in Hr0.
  apply list_elem_of_fmap in Hr0 as (cells & -> & _).
  by apply record_keys in Hc.
Qed.

Lemma frame_at_well_formed w sheet_id tab : well_formed (frame_at w sheet_id tab).
Proof.
  unfold frame_at. destruct (sheets w !! (sheet_id, tab)) as [g|].
  - destruct (get_all_records g) as [data|] eqn:E.
    + by eapply DataFrame_of_well_formed.
    + intros r c Hr. by apply elem_of_nil in Hr.
  - intros r c Hr. by apply elem_of_nil in Hr.
Qed.

Lemma frame_at_not_empty w sheet_id tab :
  df_empty (frame_at w sheet_id tab) = false →
  ∃ g data, sheets w !! (sheet_id, tab) = Some g ∧ get_all_records g = Some data ∧
            DataFrame_of data = frame_at w sheet_id tab.
Proof.
  unfold frame_at. destruct (sheets w !! (sheet_id, tab)) as [g|]; [|done].
  destruct (get_all_records g) as [data|] eqn:E; [|done]. intros _.
  exists g, data. repeat split; done.
Qed.

(** ** Joining the scores to Clean_Data *)

(** Of rows with distinct keys, at most one has a given text as its key. *)
Lemma filter_key_unique (on s : string) (rows : list Row) :
  NoDup ((λ r : Row, r !! on) <$> rows) →
  (length (List.filter (λ r : Row, key_eqb (Some (Text s)) (r !! on)) rows) ≤ 1)%nat.
Proof.
  induction rows as [|r rows IH]; [simpl; lia|].
  rewrite fmap_cons. intros [Hr Hnd]%NoDup_cons. cbn [List.filter].
  destruct (key_eqb (Some (Text s)) (r !! on)) eqn:E; [|by apply IH].
  apply key_eqb_text_l in E.
  assert (List.filter (λ r : Row, key_eqb (Some (Text s)) (r !! on)) rows = []) as ->.
  { apply List_filter_nil. intros r' Hr'.
    destruct (key_eqb (Some (Text s)) (r' !! on)) eqn:E'; [|done].
    apply key_eqb_text_l in E'. destruct Hr. rewrite E, <-E'.
    by apply (list_elem_of_fmap_2 (λ r : Row, r !! on)). }
  simpl. lia.
Qed.

Section Properties.
Variable fmt_float : pyfloat → string.
Variable now : string.

(** The row the merge makes of one row of Clean_Data. *)
Lemma merge_scores_rows (live_clean_df test_slim merged : DataFrame) :
  NoDup ((λ s : Row, s !! "Email Address") <$> records test_slim) →
  (∀ (s : Row) c, s ∈ records test_slim → c ≠ "Email Address" → c ≠ "Test Score" →
                  s !! c = None) →
  well_formed live_clean_df →
  merge_scores fmt_float live_clean_df test_slim = Some merged →
  columns merged ≠ [] ∧
  length (records merged) = length (records live_clean_df) ∧
  ∀ i (m : Row), records merged !! i = Some m →
    ∃ l : Row,
      records live_clean_df !! i = Some l
      ∧ m !! "Email Address" = Some (Text (email_norm fmt_float l))
      ∧ (∀ c, c ≠ "Email Address" → c ≠ "Test Score" → m !! c = l !! c)
      ∧ ((∃ s : Row, s ∈ records test_slim
                     ∧ s !! "Email Address" = Some (Text (email_norm fmt_float l))
                     ∧ to_numeric (m !! "Test Score") = to_numeric (s !! "Test Score")
                     ∧ notna (m !! "Test Score") = notna (s !! "Test Score"))
         ∨ ((∀ s : Row, s ∈ records test_slim →
                        s !! "Email Address" ≠ Some (Text (email_norm fmt_float l)))
            ∧ m !! "Test Score" = None)).
Proof.
  intros Hnd Hkeys Hwf. unfold merge_scores.
  set (live := if has_column "Test Score" live_clean_df
               then drop_columns ["Test Score"] live_clean_df else live_clean_df).
  destruct (assign_column "Email Address" (lower_strip fmt_float) live) as [live'|] eqn:E;
    [|done].
  simpl. intros [= <-]. pose proof E as Ecols.
  apply assign_column_records in E as [Hcols Hrec].
  assert (∃ h : Row → Row,
            records live = h <$> records live_clean_df
            ∧ (∀ (l : Row) c, c ≠ "Test Score" → h l !! c = l !! c)
            ∧ ∀ l : Row, l ∈ records live_clean_df → h l !! "Test Score" = None)
    as (h & Hlive & Hh & Hts).
  { unfold live. destruct (has_column "Test Score" live_clean_df) eqn:Ec.
    - eexists. split; [done|]. split.
      + intros l c Hc. simpl. by rewrite lookup_delete_ne.
      + intros l _. simpl. by rewrite lookup_delete_eq.
    - exists id. split; [by rewrite list_fmap_id|]. split; [done|].
      intros l Hl. simpl. destruct (l !! "Test Score") eqn:El; [|done].
      assert ("Test Score" ∈ columns live_clean_df) as Hin by (eapply Hwf; eauto).
      unfold has_column in Ec. by apply bool_decide_eq_false in Ec. }
  set (cast := if forallb (λ l, negb (bool_decide (matches_of "Email Address" test_slim l = [])))
                    (records live') then id else promote).
  set (g := λ l : Row,
         match matches_of "Email Address" test_slim l with
         | r :: _ => l ∪ (cast <$> delete "Email Address" r)
         | [] => l
         end).
  assert (records (merge_left "Email Address" live' test_slim) = g <$> records live')
    as Hmerged.
  { unfold merge_left. cbn [records]. fold cast. apply flat_map_singletons.
    intros l Hl. rewrite Hrec in Hl. apply list_elem_of_fmap in Hl as (l0 & -> & _).
    unfold g, matches_of. rewrite lookup_insert_eq. unfold lower_strip at 1 3.
    pose proof (filter_key_unique "Email Address"
                  (Str.lower (Str.strip (astype_str fmt_float (l0 !! "Email Address"))))
                  (records test_slim) Hnd) as Hle.
    destruct (List.filter _ (records test_slim)) as [|r [|r' rest]]; simpl in *;
      [done..|lia]. }
  split.
  { unfold merge_left. cbn [columns]. rewrite Hcols.
    unfold assign_column in Ecols. destruct (has_column _ live) eqn:Ec; [|done].
    unfold has_column in Ec. apply bool_decide_eq_true in Ec.
    destruct (columns live); [by apply elem_of_nil in Ec|done]. }
  rewrite Hmerged, Hrec, Hlive. split; [by rewrite !length_fmap|].
  intros i m. rewrite !list_lookup_fmap.
  destruct (records live_clean_df !! i) as [l|] eqn:El; [|done]. simpl. intros [= <-].
  exists l. split; [done|].
  assert (l ∈ records live_clean_df) as Hl by (by eapply list_elem_of_lookup_2).
  set (l' := <["Email Address" := lower_strip fmt_float (h l !! "Email Address")]> (h l)).
  assert (l' !! "Email Address" = Some (Text (email_norm fmt_float l))) as Hemail.
  { unfold l'. rewrite lookup_insert_eq, Hh by done. done. }
  assert (l' !! "Test Score" = None) as Hscore.
  { unfold l'. rewrite lookup_insert_ne by done. by apply Hts. }
  assert (∀ c, c ≠ "Email Address" → c ≠ "Test Score" → l' !! c = l !! c) as Hother.
  { intros c H1 H2. unfold l'. rewrite lookup_insert_ne by done. by apply Hh. }
  unfold g, matches_of. rewrite Hemail.
  destruct (List.filter _ (records test_slim)) as [|s rest] eqn:Ef.
  - split; [done|]. split; [done|]. right. split; [|done].
    intros s Hs Heq.
    assert (s ∈ List.filter (λ r : Row,
              key_eqb (Some (Text (email_norm fmt_float l))) (r !! "Email Address"))
              (records test_slim)) as Hin.
    { apply elem_of_List_filter. split; [done|]. by apply key_eqb_text_l. }
    rewrite Ef in Hin. by apply elem_of_nil in Hin.
  - assert (s ∈ records test_slim ∧
            s !! "Email Address" = Some (Text (email_norm fmt_float l))) as [Hs Hkey].
    { assert (s ∈ s :: rest) as Hin by set_solver. rewrite <-Ef in Hin.
      apply elem_of_List_filter in Hin as [? ?%key_eqb_text_l]. done. }
    split; [by apply lookup_union_Some_l|].
    assert (∀ c, l' !! c = None → c ≠ "Email Address" →
                 (l' ∪ (cast <$> delete "Email Address" s)) !! c = cast <$> s !! c)
      as Hright.
    { intros c Hc Hne. rewrite lookup_union_r by done.
      by rewrite lookup_fmap, lookup_delete_ne. }
    split.
    { intros c H1 H2. destruct (l' !! c) as [v|] eqn:Hv.
      - rewrite (lookup_union_Some_l _ _ _ _ Hv). by rewrite <-Hother.
      - rewrite Hright, (Hkeys s c), <-Hother by done. by rewrite Hv. }
    left. exists s. split; [done|]. split; [done|].
    rewrite Hright by done. destruct (s !! "Test Score") as [x|]; [|done].
    simpl. unfold cast. destruct (forallb _ _); [done|].
    split; [apply to_numeric_promote|apply notna_promote].
Qed.

End Properties.

Section Properties.
Variable fmt_float : pyfloat → string.
Variable now : string.

Lemma invalid_count test_df numeric :
  numeric_scores test_df = Some numeric →
  length (records (invalid_scores_of numeric))
  = length (List.filter (λ r, negb (valid_score r)) (records test_df)).
Proof.
  intros [_ [dt Hn]]%to_numeric_column_records. unfold invalid_scores_of. simpl.
  rewrite Hn. clear Hn. generalize (records test_df). intros l.
  induction l as [|r l IH]; [done|].
  rewrite fmap_cons. cbn [List.filter]. rewrite invalid_is_not_valid.
  assert (valid_score (<["Test Score" := as_dtype dt (to_number (r !! "Test Score"))]> r)
          = valid_score r) as ->.
  { unfold valid_score. by rewrite lookup_insert_eq, to_numeric_as_dtype. }
  destruct (valid_score r); cbn [negb length]; by rewrite IH.
Qed.

(** The table of the highest scores: one row per identifier, each from a
    valid row of the sheet, and no valid row of an identifier beats the row
    kept for it. *)
Lemma test_slim_spec (test_df numeric valid : DataFrame) :
  numeric_scores test_df = Some numeric →
  valid_scores fmt_float numeric = Some valid →
  let test_slim := build_test_slim valid in
  NoDup ((λ s : Row, s !! "Email Address") <$> records test_slim) ∧
  (∀ (s : Row) c, s ∈ records test_slim → c ≠ "Email Address" → c ≠ "Test Score" →
                  s !! c = None) ∧
  (∀ s : Row, s ∈ records test_slim →
     ∃ r, r ∈ records test_df ∧ from_row fmt_float "Email Address" r s) ∧
  (∀ r, r ∈ records test_df → valid_score r = true →
     ∃ s : Row, s ∈ records test_slim ∧
          s !! "Email Address" = Some (Text (ident_of fmt_float r)) ∧
          Float.le (score_of r) (to_numeric (s !! "Test Score")) = true).
Proof.
  intros Hn Hv test_slim.
  assert (∀ s : Row, s ∈ records test_slim →
     ∃ r, r ∈ records test_df ∧ from_row fmt_float "Email Address" r s) as Hfrom.
  { intros s. unfold test_slim. rewrite test_slim_records.
    intros (x & -> & Hx)%list_elem_of_fmap.
    destruct (slim_rows_from fmt_float _ _ _ x Hn Hv Hx) as (r & Hr & Hf).
    exists r. split; [done|]. by apply rename_from_row. }
  split; [|split; [|split; [done|]]].
  - unfold test_slim. rewrite test_slim_records, <- list_fmap_compose.
    erewrite list_fmap_ext; [by eapply slim_rows_NoDup|].
    intros i x Hx%list_elem_of_lookup_2. simpl.
    destruct (slim_rows_from fmt_float _ _ _ x Hn Hv Hx) as (r & _ & _ & He & _).
    rewrite He. by rewrite lookup_insert_eq.
  - intros s c. unfold test_slim. rewrite test_slim_records.
    intros (x & -> & Hx)%list_elem_of_fmap Hc1 Hc2.
    apply drop_duplicates_go_elem in Hx. rewrite insertion_sort_perm in Hx.
    apply list_elem_of_fmap in Hx as (v & -> & _).
    assert (∀ c', c' ≠ "Email ID" → c' ≠ "Test Score" →
              (list_to_map (omap (λ c0, (λ v0, (c0, v0)) <$> v !! c0)
                              ["Email ID"; "Test Score"]) : Row) !! c' = None) as Hsel.
    { intros c' H1 H2. simpl.
      destruct (v !! "Email ID"), (v !! "Test Score"); simpl; by simplify_map_eq. }
    destruct (_ !! "Email ID") eqn:Eid.
    + rewrite lookup_insert_ne by done.
      destruct (decide (c = "Email ID")) as [->|Hc3]; [by rewrite lookup_delete_eq|].
      rewrite lookup_delete_ne by done. by apply Hsel.
    + destruct (decide (c = "Email ID")) as [->|Hc3]; [done|]. by apply Hsel.
  - intros r Hr Hval.
    destruct (slim_rows_max fmt_float _ _ _ r Hn Hv Hr Hval) as (x & Hx & He & Hle).
    eexists. split.
    + unfold test_slim. rewrite test_slim_records. apply list_elem_of_fmap. eauto.
    + rewrite He. rewrite lookup_insert_eq, lookup_insert_ne, lookup_delete_ne by done.
      done.
Qed.

End Properties.

Section Properties.
Variable fmt_float : pyfloat → string.
Variable now : string.

Lemma has_column_filter_rows col f df :
  has_column col (filter_rows f df) = has_column col df.
Proof. done. Qed.

Lemma assign_column_Some col f df :
  has_column col df = true → ∃ d, assign_column col f df = Some d.
Proof. unfold assign_column. intros ->. eauto. Qed.

Lemma not_empty_columns df : df_empty df = false → columns df ≠ [] ∧ records df ≠ [].
Proof. unfold df_empty. by destruct (columns df), (records df). Qed.

(** C9: STEP 4, on a test score sheet and a Clean_Data sheet that have
    rows and the columns the script reads. The step ends normally and
    rewrites Clean_Data with the table it merged: the rows of Clean_Data,
    once each and in their order, with their email stripped and
    lower-cased and their other fields as they were. The score of a row
    is the score of a valid row of the test score sheet (a number in
    0..100) with that identifier, and no valid row with that identifier
    has a larger one; a row whose identifier has no valid row gets no
    score. When the sheet has rows that are not valid, their count is
    appended to the errors of the run as "<count> invalid test score(s)
    found", and nothing else is. *)
Theorem score_merge_keeps_maximum (clean_df : DataFrame) (w : World) :
  let test_df := frame_at w TEST_SCORE_SHEET_ID TEST_TAB in
  let live := frame_at w OUTPUT_SHEET_ID CLEAN_TAB in
  let invalid := List.filter (λ r, negb (valid_score r)) (records test_df) in
  df_empty test_df = false →
  has_column "Test Score" test_df = true →
  has_column "Email ID" test_df = true →
  df_empty live = false →
  has_column "Email Address" live = true →
  ∃ merged w',
    step4 fmt_float clean_df w = (Ok merged, w')
    ∧ sheets w'
      = <[(OUTPUT_SHEET_ID, CLEAN_TAB) := df_grid fmt_float merged]> (sheets w)
    ∧ errors (run w')
      = errors (run w)
        ++ match invalid with
           | [] => []
           | _ => [str_of_nat (length invalid) +:+ " invalid test score(s) found"]
           end
    ∧ length (records merged) = length (records live)
    ∧ ∀ i (m : Row), records merged !! i = Some m →
        ∃ l : Row,
          records live !! i = Some l
          ∧ m !! "Email Address" = Some (Text (email_norm fmt_float l))
          ∧ (∀ c, c ≠ "Email Address" → c ≠ "Test Score" → m !! c = l !! c)
          ∧ ((∃ r, r ∈ records test_df ∧ valid_score r = true
                   ∧ ident_of fmt_float r = email_norm fmt_float l
                   ∧ notna (m !! "Test Score") = true
                   ∧ to_numeric (m !! "Test Score") = score_of r
                   ∧ ∀ r', r' ∈ records test_df → valid_score r' = true →
                           ident_of fmt_float r' = email_norm fmt_float l →
                           Float.le (score_of r') (score_of r) = true)
             ∨ (m !! "Test Score" = None
                ∧ ∀ r, r ∈ records test_df → valid_score r = true →
                       ident_of fmt_float r ≠ email_norm fmt_float l)).
Proof.
  intros test_df live invalid Hne Hts Hid Hlne Hea.
  destruct (frame_at_not_empty _ _ _ Hne) as (g & data & Hg & Hdata & Hdf).
  destruct (frame_at_not_empty _ _ _ Hlne) as (gc & _ & Hgc & _ & _).
  (* the frames STEP 4 builds *)
  destruct (numeric_scores test_df) as [numeric|] eqn:Hn.
  2:{ unfold numeric_scores, to_numeric_column in Hn. by rewrite Hts in Hn. }
  pose proof (to_numeric_column_records _ _ _ Hn) as [Hncols _].
  destruct (assign_column_Some "Email ID" (lower_strip fmt_float)
              (filter_rows valid_score numeric)) as [valid Hv].
  { rewrite has_column_filter_rows. unfold has_column. by rewrite Hncols. }
  change (valid_scores fmt_float numeric = Some valid) in Hv.
  destruct (test_slim_spec fmt_float test_df numeric valid Hn Hv)
    as (Hnodup & Hkeys & Hfrom & Hmax).
  set (test_slim := build_test_slim valid) in *.
  destruct (merge_scores fmt_float live test_slim) as [merged|] eqn:Hm.
  2:{ unfold merge_scores in Hm.
      destruct (assign_column_Some "Email Address" (lower_strip fmt_float)
                  (if has_column "Test Score" live
                   then drop_columns ["Test Score"] live else live)) as [d Hd].
      { destruct (has_column "Test Score" live); [|done].
        unfold has_column in *. cbn [drop_columns columns].
        apply bool_decide_eq_true in Hea. apply bool_decide_eq_true.
        apply elem_of_List_filter. split; [done|].
        rewrite negb_true_iff. apply bool_decide_eq_false. set_solver. }
      by rewrite Hd in Hm. }
  destruct (merge_scores_rows fmt_float live test_slim merged Hnodup Hkeys
              (frame_at_well_formed _ _ _) Hm) as (Hmcols & Hmlen & Hmrows).
  assert (df_empty merged = false) as Hmne.
  { destruct (not_empty_columns _ Hlne) as [_ Hrec]. unfold df_empty.
    destruct (columns merged); [done|].
    destruct (records merged); [|done]. simpl in Hmlen.
    by destruct (records live). }
  (* the errors *)
  pose proof (invalid_count test_df numeric Hn) as Hcount. fold invalid in Hcount.
  set (w1 := if df_empty (invalid_scores_of numeric) then w
             else mkWorld (sheets w)
                    (append_error (invalid_scores_message (invalid_scores_of numeric))
                       (run w))).
  assert (sheets w1 = sheets w) as Hw1
    by (unfold w1; by destruct (df_empty (invalid_scores_of numeric))).
  assert (errors (run w1)
          = errors (run w)
            ++ match invalid with
               | [] => []
               | _ => [str_of_nat (length invalid) +:+ " invalid test score(s) found"]
               end) as Herr.
  { unfold w1. destruct (df_empty (invalid_scores_of numeric)) eqn:Ei.
    - assert (records (invalid_scores_of numeric) = []) as Hnil.
      { destruct (records (invalid_scores_of numeric)) as [|r0 rs] eqn:Er; [done|].
        destruct (not_empty_columns _ Hne) as [Hc _].
        assert (columns (invalid_scores_of numeric) = columns test_df) as Hic
          by exact Hncols.
        unfold df_empty in Ei. rewrite Er, Hic in Ei.
        by destruct (columns test_df). }
      rewrite Hnil in Hcount. destruct invalid; [by rewrite app_nil_r|done].
    - destruct (not_empty_columns _ Ei) as [_ Hrec].
      simpl. unfold invalid_scores_message. rewrite Hcount.
      destruct invalid; [|done]. by destruct (records (invalid_scores_of numeric)). }
  (* the run *)
  exists merged,
    (mkWorld (<[(OUTPUT_SHEET_ID, CLEAN_TAB) := df_grid fmt_float merged]> (sheets w))
             (run w1)).
  split.
  { unfold step4, try_except, step4_body.
    unfold bind at 1. unfold worksheet. rewrite Hg.
    unfold bind at 1. unfold ws_get_all_records, bind, read_grid. rewrite Hg. simpl.
    rewrite Hdata. simpl. rewrite Hdf. fold test_df. rewrite Hne, Hn. simpl.
    assert ((if negb (df_empty (invalid_scores_of numeric))
             then modify_run (append_error
                                (invalid_scores_message (invalid_scores_of numeric)))
             else ret tt) w = (Ok tt, w1)) as ->.
    { unfold w1. by destruct (df_empty (invalid_scores_of numeric)). }
    unfold step4_merge. unfold bind at 1. rewrite Hv. simpl.
    unfold bind at 1. rewrite get_sheet_df_spec.
    assert (frame_at w1 OUTPUT_SHEET_ID CLEAN_TAB = live) as ->.
    { unfold live, frame_at. by rewrite Hw1. }
    rewrite Hlne, Hea. simpl. fold test_slim. rewrite Hm.
    unfold bind at 1. simpl. unfold write_sheet. rewrite Hmne.
    unfold bind, worksheet, ws_clear, ws_update, bind, read_grid, write_grid, ret.
    rewrite Hw1, Hgc. cbn [sheets run]. rewrite lookup_insert_eq. cbn [from_option id].
    by rewrite overlay_nil, insert_insert_eq, Hw1. }
  split; [done|]. split; [done|]. split; [done|].
  intros i m Hi. destruct (Hmrows i m Hi) as (l & Hl & Hemail & Hother & Hscore).
  exists l. split; [done|]. split; [done|]. split; [done|].
  destruct Hscore as [(s & Hs & Hkey & Hnum & Hna)|[Hnone Hmiss]].
  - left. destruct (Hfrom s Hs) as (r & Hr & Hval & He & Hsc).
    exists r. split; [done|]. split; [done|].
    assert (ident_of fmt_float r = email_norm fmt_float l) as Hident by congruence.
    split; [done|].
    pose proof (valid_score_number r Hval) as Hnan.
    split; [|split; [congruence|]].
    { rewrite Hna. rewrite <-Hsc in Hnan. clear -Hnan.
      destruct (s !! "Test Score") as [[?|?|[]|?|[]]|]; done. }
    intros r' Hr' Hval' Hident'.
    destruct (Hmax r' Hr' Hval') as (s' & Hs' & Hkey' & Hle).
    assert (s' = s) as ->; [|by rewrite <-Hsc].
    apply list_elem_of_lookup in Hs as [j Hj], Hs' as [j' Hj'].
    assert (j' = j) as ->; [|congruence].
    eapply NoDup_lookup; [exact Hnodup|..]; rewrite list_lookup_fmap.
    + by rewrite Hj'.
    + rewrite Hj. simpl. congruence.
  - right. split; [done|]. intros r Hr Hval Hident.
    destruct (Hmax r Hr Hval) as (s & Hs & Hkey & _).
    apply (Hnone s Hs). congruence.
Qed.

End Properties.

(** ** Standardising a text twice *)














(** ** Positions in a header row *)






(** ** Padding and trimming *)










(** ** Cells of a worksheet *)


Lemma cell_at_outside g i k : g !! i = None → cell_at g i k = "".
Proof. unfold cell_at. by intros ->. Qed.


Lemma length_get_all_values g : length (get_all_values g) = length g.
Proof. unfold get_all_values. by rewrite length_fmap. Qed.





(** ** Writing cells *)









(** ** The marker column *)


(** ** The emails that carry a marker, and the sheet row of every email *)





Section Rerun.
Variable fmt_float : pyfloat → string.
Variable now : string.

(** ** The rows STEP 1 reads *)








End Rerun.

Section Rerun.
Variable fmt_float : pyfloat → string.
Variable now : string.

(** ** The markers of one pass *)




End Rerun.



Section Rerun.
Variable fmt_float : pyfloat → string.
Variable now : string.


End Rerun.



Section Rerun.
Variable fmt_float : pyfloat → string.
Variable now : string.


End Rerun.


Section Rerun.
Variable fmt_float : pyfloat → string.
Variable now : string.




End Rerun.

Section Rerun.
Variable fmt_float : pyfloat → string.
Variable now : string.


End Rerun.

(** * The field normaliser *)









Lemma drop_app p s : Str.drop (String.length p) (p +:+ s) = s.
Proof. induction p as [|a p IH]; simpl; done. Qed.

Lemma startswith_app p s : Str.startswith p (p +:+ s) = true.
Proof.
  induction p as [|a p IH]; simpl; [done|].
  by rewrite bool_decide_eq_true_2, IH.
Qed.



(** * The patterns of the phone and national ID rules *)












Section Properties.
Variable fmt_float : pyfloat → string.


End Properties.

Section Properties.
Variable fmt_float : pyfloat → string.
Variable now : string.

(** * The duplicate email rule within a batch *)




(** * Which rules give soft reasons *)


End Properties.

Global Instance same_run_refl : Reflexive same_run.
Proof. by intros w. Qed.
Global Instance same_run_trans : Transitive same_run.
Proof. intros w1 w2 w3 H1 H2. unfold same_run in *. congruence. Qed.


Section Properties.
Variable fmt_float : pyfloat → string.
Variable now : string.

(** * What one pass routes *)






(** * The rows one pass hands to the output tables *)




End Properties.

(** * The marker column *)






Section Properties.
Variable fmt_float : pyfloat → string.
Variable now : string.

(** * STEP 1 and STEP 2 on the raw sheet *)



End Properties.

(** * Reading back what was written *)





Section Properties.
Variable fmt_float : pyfloat → string.

Lemma fillna_lookup (cols : list string) (r : Row) c :
  c ∈ cols →
  (list_to_map ((λ c, (c, Text (cell_text fmt_float (r !! c)))) <$> cols) : Row) !! c
  = Some (Text (cell_text fmt_float (r !! c))).
Proof.
  induction cols as [|c' cols IH]; [by intros ?%elem_of_nil|].
  intros Hin. simpl. destruct (decide (c = c')) as [->|Hne].
  - by rewrite lookup_insert_eq.
  - rewrite lookup_insert_ne by done. apply IH. set_solver.
Qed.

Lemma df_values_fillna df :
  df_values fmt_float (fillna_astype_str fmt_float df) = df_values fmt_float df.
Proof.
  unfold df_values, fillna_astype_str. simpl. rewrite <-list_fmap_compose.
  apply list_fmap_ext. intros i r Hr. simpl.
  apply list_fmap_ext. intros j c Hc.
  rewrite fillna_lookup by (by eapply list_elem_of_lookup_2). done.
Qed.





End Properties.

Section Properties.
Variable fmt_float : pyfloat → string.
Variable now : string.

(** * Appending to an output table *)


(** * STEP 4 without a score sheet *)


End Properties.

Section Properties.
Variable fmt_float : pyfloat → string.
Variable now : string.

(** * STEP 5: the interview sheet *)




End Properties.

Section Properties.
Variable fmt_float : pyfloat → string.

(** * Standardising the raw frame *)


End Properties.

(** * The sheet row of an email that stands in several rows *)



(** * The matcher and the texts of a pattern *)

Lemma append_cons a (s t : string) : String a s +:+ t = String a (s +:+ t).
Proof. reflexivity. Qed.

Lemma append_nil_r (s : string) : s +:+ "" = s.
Proof. induction s as [|a s IH]; [done|]. by rewrite append_cons, IH. Qed.

Lemma append_assoc (s1 s2 s3 : string) : (s1 +:+ s2) +:+ s3 = s1 +:+ (s2 +:+ s3).
Proof. induction s1 as [|a s1 IH]; [done|]. by rewrite !append_cons, IH. Qed.










(** * The pattern of the email rule *)







Section Properties.
Variable fmt_float : pyfloat → string.


End Properties.

(** * The properties at sample inputs *)


Lemma Ok_unit (m : Result unit * World) : is_Ok m.1 = true → m = (Ok tt, m.2).
Proof. destruct m as [[[]|e] w]; [done|discriminate]. Qed.

Lemma Some_default {A} (d : A) (o : option A) :
  match o with Some _ => true | None => false end = true → o = Some (default d o).
Proof. destruct o; [done|discriminate]. Qed.

(** C1 at its failing inputs. On a raw sheet without rows, [exit()] ends the
    run in STEP 1 and the Run Log stays empty. With a threshold that is no
    number, the [ValueError] of STEP 1 ends the run, and the Run Log stays
    empty. *)
Lemma run_ends_without_record :
  (pipeline Repr.float_repr "t1" world_no_rows).1 = Raise SystemExit
  ∧ sheets (pipeline Repr.float_repr "t1" world_no_rows).2 !! RUN_LOG = Some []
  ∧ (pipeline Repr.float_repr "t1" world_malformed_config).1
    = Raise (ValueError "could not convert string to a number")
  ∧ sheets (pipeline Repr.float_repr "t1" world_malformed_config).2 !! RUN_LOG
    = Some [].
Proof. split_and!; vm_compute; reflexivity. Qed.

(** C2 fails on a value that is no number: resolution raises. *)
Lemma malformed_value_fails :
  resolve_thresholds ({["Min Percentage" := "sixty"]} : gmap string string) = None.
Proof. vm_compute. reflexivity. Qed.

(** C3 fails on two rows with one email: after the run the email is in
    Clean_Data and in Rejected_Records. *)
Lemma email_accepted_and_rejected :
  (λ r : Row, r !! "Email Address")
    <$> records (frame_at (pipeline Repr.float_repr "t1" world_three_rows).2
                   OUTPUT_SHEET_ID CLEAN_TAB)
  = [Some (Text "asha@x.com")]
  ∧ (λ r : Row, r !! "Email Address")
      <$> records (frame_at (pipeline Repr.float_repr "t1" world_three_rows).2
                     OUTPUT_SHEET_ID REJECTED_TAB)
    = [Some (Text "asha@x.com")].
Proof. split; vm_compute; reflexivity. Qed.

(** C4 at its failing input, an email that reads as a number. The raw sheet
    has one row, its email cell "007". The first pass rejects the row under the email
    "7" and finds no sheet row for "7", so it writes no marker; the second
    pass, over the sheet the first one left, classifies the row again and
    appends it to Rejected_Records a second time. *)
Lemma numeric_email_classified_again :
  let first := unguarded_steps Repr.float_repr "t1" world_numeric_email in
  let second := unguarded_steps Repr.float_repr "t2" first.2 in
  is_Ok first.1 = true
  ∧ new_rows_found (run first.2) = 1%nat
  ∧ sheets first.2 !! RAW
    = Some [ SAMPLE_HEADER ++ ["Pipeline Status"];
             sample_row "zed" "007" "123456789015" "7.5" "70" ]
  ∧ is_Ok second.1 = true
  ∧ new_rows_found (run second.2) = 1%nat
  ∧ rejected_written (run second.2) = 1%nat
  ∧ (λ r : Row, (r !! "Email Address", r !! "Rejection Reasons", r !! "Rejected At"))
      <$> records (frame_at second.2 OUTPUT_SHEET_ID REJECTED_TAB)
    = [ (Some (Int64 7), Some (Text "Invalid email format: '7'"), Some (Text "t1"));
        (Some (Int64 7),
         Some (Text "Invalid email format: '7'; Duplicate Aadhaar: '123456789015'"),
         Some (Text "t2")) ].
Proof. cbv zeta. split_and!; vm_compute; reflexivity. Qed.

(** C5 at an Exception sheet with one approval and one row pending: STEP 3
    ends normally and leaves the pending row alone in the sheet. *)
Lemma approved_rows_removed_witness :
  is_Ok (step3_body Repr.float_repr "t1" sample_step1 sample_step2
           world_approved_new).1 = true
  ∧ sheets (step3_body Repr.float_repr "t1" sample_step1 sample_step2
              world_approved_new).2 !! (OUTPUT_SHEET_ID, EXCEPTION_TAB)
    = Some (rewritten_exception_sheet Repr.float_repr
              (frame_at world_approved_new OUTPUT_SHEET_ID EXCEPTION_TAB))
  ∧ rewritten_exception_sheet Repr.float_repr
      (frame_at world_approved_new OUTPUT_SHEET_ID EXCEPTION_TAB)
    = [ EXCEPTION_HEADER;
        sample_row "Ravi" "ravi@x.com" "123456789013" "5.95" "70.0"
          ++ ["low cgpa"; "pending"; ""; "t0"] ].
Proof.
  set (out := step3_body Repr.float_repr "t1" sample_step1 sample_step2
                world_approved_new).
  assert (is_Ok out.1 = true) as Hok by (vm_compute; reflexivity).
  split; [exact Hok|]. split; [|vm_compute; reflexivity].
  destruct (approved_rows_removed Repr.float_repr "t1" sample_step1 sample_step2
              world_approved_new) as (Hnew & _ & _).
  - vm_compute. reflexivity.
  - eexists. split; [apply list_elem_of_here|vm_compute; reflexivity].
  - apply Hnew; [|exact (Ok_unit out Hok)].
    eexists. split; [apply list_elem_of_here|].
    split; [vm_compute; reflexivity|].
    apply (bool_decide_eq_false_1 (_ ∈ _)). vm_compute. reflexivity.
Defined.

(** C5 fails when the approved email is already in Clean_Data: STEP 3 ends
    normally and the Exception sheet is as it was, the approved row in it. *)
Lemma approved_row_stays :
  (step3 Repr.float_repr "t1" sample_step1 sample_step2 world_approved_known).1 = Ok tt
  ∧ sheets (step3 Repr.float_repr "t1" sample_step1 sample_step2
              world_approved_known).2 !! (OUTPUT_SHEET_ID, EXCEPTION_TAB)
    = sheets world_approved_known !! (OUTPUT_SHEET_ID, EXCEPTION_TAB)
  ∧ length (records (frame_at
                       (step3 Repr.float_repr "t1" sample_step1 sample_step2
                          world_approved_known).2
                       OUTPUT_SHEET_ID EXCEPTION_TAB)) = 1%nat
  ∧ forallb (is_approved Repr.float_repr)
      (records (frame_at
                  (step3 Repr.float_repr "t1" sample_step1 sample_step2
                     world_approved_known).2
                  OUTPUT_SHEET_ID EXCEPTION_TAB)) = true.
Proof. split_and!; vm_compute; reflexivity. Qed.

(** C6 at a row with two hard reasons (no first name, a phone that is not
    ten digits) and a soft one (a CGPA of 5.95): it is rejected, and the
    text written is the two hard reasons. *)
Lemma disposition_precedence_witness :
  render Repr.float_repr
    <$> soft_failures
          (validate Repr.float_repr DEFAULT_THRESHOLDS ∅ ∅
             (sample_record (sample_row "" "x@y.com" "123456789012" "5.95" "70")))
  = ["CGPA 5.95 is slightly below minimum 6.0 (within 0.1 buffer)"]
  ∧ ∃ r, rejected_rows
           (loop_body Repr.float_repr "t1" DEFAULT_THRESHOLDS ∅ ∅
              (mkLoop [] [] [] ∅ ∅ [])
              (sample_record (sample_row "" "x@y.com" "123456789012" "5.95" "70")))
         = [r]
         ∧ r !! "Rejection Reasons"
           = Some (Text ("'First Name' is missing; "
                         +:+ "Invalid phone '+91 98765-43210' "
                         +:+ "(must be 10 digits, start with 6-9)"))
         ∧ r !! "Exception Reason" = None.
Proof.
  split; [vm_compute; reflexivity|].
  destruct (disposition_precedence Repr.float_repr "t1" DEFAULT_THRESHOLDS ∅ ∅
              (mkLoop [] [] [] ∅ ∅ [])
              (sample_record (sample_row "" "x@y.com" "123456789012" "5.95" "70")))
    as (Hhard & _ & _).
  - apply not_elem_of_empty.
  - cbv zeta in Hhard. destruct Hhard as (r & Hr & _ & _ & Hreasons & _ & Hexc & _).
    + vm_compute. discriminate.
    + exists r. split; [exact Hr|]. split.
      * rewrite Hreasons. vm_compute. reflexivity.
      * rewrite Hexc. vm_compute. reflexivity.
Defined.


(** C7 at its failing input, a minimum CGPA of 6.2 with the buffer 0.1: the
    decimal 6.1 is exactly 6.2 - 0.1, but the float 6.2 - 0.1 is above the float 6.1,
    so a CGPA of 6.1 is below the bound: the row gets the hard reason and
    no soft one, and STEP 2 writes it to Rejected_Records. *)
Lemma decimal_edge_is_rejected :
  let row := sample_record (sample_row "uma" "uma@x.com" "123456789016" "6.1" "70") in
  let cgpa := Float.of_Q false (61 # 10) in
  ∃ t, resolve_thresholds ({["Min CGPA" := "6.2"]} : gmap string string) = Some t
       ∧ MIN_CGPA t = Float.of_Q false (62 # 10)
       ∧ EXCEPTION_BUFFER_CGPA t = Float.of_Q false (1 # 10)
       ∧ Qeq_bool ((62 # 10) - (1 # 10)) (61 # 10) = true
       ∧ Parse.float (field_text Repr.float_repr row "CGPA") = Some cgpa
       ∧ Float.lt cgpa (Float.sub (MIN_CGPA t) (EXCEPTION_BUFFER_CGPA t)) = true
       ∧ Repr.float_repr (Float.sub (MIN_CGPA t) (EXCEPTION_BUFFER_CGPA t))
         = "6.1000000000000005"
       ∧ List.filter is_cgpa_reason
           (hard_failures (validate Repr.float_repr t ∅ ∅ row))
         = [CgpaBelowMin cgpa (MIN_CGPA t)]
       ∧ soft_failures (validate Repr.float_repr t ∅ ∅ row) = []
       ∧ (λ r : Row, (r !! "Email Address", r !! "Rejection Reasons"))
           <$> records
                 (frame_at (unguarded_steps Repr.float_repr "t1" world_decimal_edge).2
                    OUTPUT_SHEET_ID REJECTED_TAB)
         = [(Some (Text "uma@x.com"), Some (Text "CGPA 6.1 is below minimum 6.2"))]
       ∧ records
           (frame_at (unguarded_steps Repr.float_repr "t1" world_decimal_edge).2
              OUTPUT_SHEET_ID EXCEPTION_TAB) = [].
Proof.
  cbv zeta.
  exists (mkThresholds (Float.of_Z 1) (Float.of_Q false (1 # 10)) (Float.of_Z 60)
            (Float.of_Q false (62 # 10)) 2010 2025 (Float.of_Z 40) (Float.of_Z 40)).
  split_and!; vm_compute; reflexivity.
Qed.

(** C8 at two rows with one national ID and nothing persisted: the second
    is flagged. *)
Lemma duplicate_adhar_rule_witness :
  DuplicateAadhaar
    (adhar_of Repr.float_repr
       (sample_record (sample_row "b" "b@y.com" "123456789012" "7" "70")))
  ∈ hard_failures
      (validate Repr.float_repr DEFAULT_THRESHOLDS
         (seen_emails
            (classify_rows Repr.float_repr "t1" DEFAULT_THRESHOLDS [] []
               [sample_record (sample_row "a" "a@y.com" "123456789012" "7" "70")]))
         (seen_adhars
            (classify_rows Repr.float_repr "t1" DEFAULT_THRESHOLDS [] []
               [sample_record (sample_row "a" "a@y.com" "123456789012" "7" "70")]))
         (sample_record (sample_row "b" "b@y.com" "123456789012" "7" "70"))).
Proof.
  destruct (duplicate_adhar_rule Repr.float_repr "t1" DEFAULT_THRESHOLDS [] []
              [sample_record (sample_row "a" "a@y.com" "123456789012" "7" "70")] []
              (sample_record (sample_row "b" "b@y.com" "123456789012" "7" "70")))
    as (_ & Hdup & _).
  { apply not_elem_of_empty. }
  apply Hdup. right.
  exists (sample_record (sample_row "a" "a@y.com" "123456789012" "7" "70")).
  split; [apply list_elem_of_here|].
  split; [apply not_elem_of_empty|vm_compute; reflexivity].
Defined.

(** C8 fails on a national ID that only Clean_Data holds: the new row is
    rejected as a duplicate. *)
Lemma persisted_adhar_is_duplicate :
  is_Ok (unguarded_steps Repr.float_repr "t1" world_known_adhar).1 = true
  ∧ adhar_column Repr.float_repr (frame_at world_known_adhar OUTPUT_SHEET_ID CLEAN_TAB)
    = ["123456789012"]
  ∧ (λ r : Row, (r !! "Email Address", r !! "Rejection Reasons"))
      <$> records (frame_at (unguarded_steps Repr.float_repr "t1" world_known_adhar).2
                     OUTPUT_SHEET_ID REJECTED_TAB)
    = [(Some (Text "tara@x.com"), Some (Text "Duplicate Aadhaar: '123456789012'"))].
Proof. split_and!; vm_compute; reflexivity. Qed.

(** C9 at the sample scores, 55 and 72 for one identifier and 130 for
    another, and a Clean_Data sheet with a row of the first identifier and
    a row of a third: STEP 4 writes 72 for the first, nothing for the third,
    and reports one invalid score. *)
Lemma score_merge_keeps_maximum_witness :
  ∃ merged w',
    step4 Repr.float_repr empty_df world_scores = (Ok merged, w')
    ∧ sheets w' !! (OUTPUT_SHEET_ID, CLEAN_TAB)
      = Some [ CLEAN_HEADER ++ ["Test Score"];
               sample_row "Anil" "a@x.com" "123456789017" "7.5" "70"
                 ++ ["t0"; "72.0"];
               sample_row "Chitra" "c@z.com" "123456789018" "8.0" "80"
                 ++ ["t0"; ""] ]
    ∧ errors (run w') = ["1 invalid test score(s) found"].
Proof.
  destruct (score_merge_keeps_maximum Repr.float_repr empty_df world_scores)
    as (merged & w' & Hrun & Hsheets & Herrors & _);
    [vm_compute; reflexivity..|].
  exists merged, w'. split; [exact Hrun|].
  assert ((step4 Repr.float_repr empty_df world_scores).2 = w') as <-
    by (rewrite Hrun; reflexivity).
  split; vm_compute; reflexivity.
Defined.

(** C10 at two rows without a national ID. *)
Lemma empty_adhar_flagged_twice_witness :
  DuplicateAadhaar ""
  ∈ hard_failures
      (validate Repr.float_repr DEFAULT_THRESHOLDS
         (seen_emails
            (classify_rows Repr.float_repr "t1" DEFAULT_THRESHOLDS [] []
               [sample_record (sample_row "a" "a@y.com" "" "7" "70")]))
         (seen_adhars
            (classify_rows Repr.float_repr "t1" DEFAULT_THRESHOLDS [] []
               [sample_record (sample_row "a" "a@y.com" "" "7" "70")]))
         (sample_record (sample_row "b" "b@y.com" "" "7" "70")))
  ∧ Missing "Adhar Number"
    ∈ hard_failures
        (validate Repr.float_repr DEFAULT_THRESHOLDS
           (seen_emails
              (classify_rows Repr.float_repr "t1" DEFAULT_THRESHOLDS [] []
                 [sample_record (sample_row "a" "a@y.com" "" "7" "70")]))
           (seen_adhars
              (classify_rows Repr.float_repr "t1" DEFAULT_THRESHOLDS [] []
                 [sample_record (sample_row "a" "a@y.com" "" "7" "70")]))
           (sample_record (sample_row "b" "b@y.com" "" "7" "70"))).
Proof.
  destruct (empty_adhar_flagged_twice Repr.float_repr "t1" DEFAULT_THRESHOLDS [] []
              [sample_record (sample_row "a" "a@y.com" "" "7" "70")] []
              (sample_record (sample_row "a" "a@y.com" "" "7" "70"))
              (sample_record (sample_row "b" "b@y.com" "" "7" "70")))
    as (Hdup & Hmissing & _).
  - apply list_elem_of_here.
  - apply not_elem_of_empty.
  - vm_compute. reflexivity.
  - apply not_elem_of_empty.
  - vm_compute. reflexivity.
  - split; [exact Hdup|exact Hmissing].
Defined.








